(** * 100daysofComputerVision: the notebooks as programs over their libraries

    The repository is a set of Jupyter notebooks.  Every computation of
    substance is a call into an external library (scikit-learn, TensorFlow /
    Keras, d2l, OpenCV, PIL).  The notebooks' own code only decides WHICH
    calls are made, with which arguments, in which order, and what is done
    with the answers.  That is what is embedded here: each Python function
    is a program that issues library calls and continues with the library's
    answer; a library is anything that answers calls, possibly with an
    exception, possibly changing a state of its own. *)

From Stdlib Require Import List String ZArith QArith Lia Bool Arith.
From Stdlib Require Import DecimalString DecimalZ FinFun.
From Stdlib Require Import SpecFloat.
Import ListNotations.

Close Scope Q_scope.
Open Scope string_scope.
Open Scope list_scope.
Open Scope Z_scope.

Set Implicit Arguments.

(** ** Python programs over a library interface *)

Module Py.

(** Exceptions.  The first constructor stands for whatever a library
    raises; the others are raised by the interpreter on the notebooks'
    own statements. *)
Inductive Exn : Type :=
| LibraryError (cls msg : string)
| UnboundLocalError (name : string)
| IndexError (msg : string).

Section Programs.
(** [E X]: the calls of the library interface that answer with an [X]. *)
Variable E : Type -> Type.

Inductive Prog (A : Type) : Type :=
| Ret (a : A)
| Raise (e : Exn)
| Call (X : Type) (c : E X) (k : X -> Prog A).

Arguments Ret {A} a.
Arguments Raise {A} e.
Arguments Call {A X} c k.

Fixpoint bind {A B} (p : Prog A) (f : A -> Prog B) : Prog B :=
  match p with
  | Ret a => f a
  | Raise e => Raise e
  | Call c k => Call c (fun x => bind (k x) f)
  end.

Definition call {X} (c : E X) : Prog X := Call c (fun x => Ret x).

(** [for x in xs: body(x)] *)
Fixpoint for_each {X} (xs : list X) (body : X -> Prog unit) : Prog unit :=
  match xs with
  | [] => Ret tt
  | x :: rest => bind (body x) (fun _ => for_each rest body)
  end.

(** What an observer of the library boundary sees: each call with its
    answer, or the call that raised. *)
Inductive Ev : Type :=
| returned (X : Type) (c : E X) (x : X)
| failed (X : Type) (c : E X) (e : Exn).

Inductive Outcome (A : Type) : Type :=
| Return (a : A)
| Raised (e : Exn).

Arguments Return {A} a.
Arguments Raised {A} e.

(** A library with state [S]: every call is answered by a value or by
    an exception. *)
Definition Library (S : Type) : Type :=
  forall X, E X -> S -> (Exn + X) * S.

(** A library that never raises. *)
Definition TotalLibrary (S : Type) : Type :=
  forall X, E X -> S -> X * S.

Definition lift {S} (l : TotalLibrary S) : Library S :=
  fun X c s => (inr (fst (l X c s)), snd (l X c s)).

Fixpoint run {S A} (lib : Library S) (p : Prog A) (s : S)
  : Outcome A * S * list Ev :=
  match p with
  | Ret a => (Return a, s, [])
  | Raise e => (Raised e, s, [])
  | Call c k =>
      match lib _ c s with
      | (inr x, s') =>
          let r := run lib (k x) s' in
          (fst (fst r), snd (fst r), returned c x :: snd r)
      | (inl e, s') => (Raised e, s', [failed c e])
      end
  end.

Definition outcome {S A} (r : Outcome A * S * list Ev) : Outcome A :=
  fst (fst r).
Definition final {S A} (r : Outcome A * S * list Ev) : S := snd (fst r).
Definition trace {S A} (r : Outcome A * S * list Ev) : list Ev := snd r.

(** The run [r], preceded by the events [tr]. *)
Definition after {S A} (tr : list Ev) (r : Outcome A * S * list Ev)
  : Outcome A * S * list Ev :=
  (outcome r, final r, tr ++ trace r).

Definition is_failure (ev : Ev) : bool :=
  match ev with failed _ _ => true | returned _ _ => false end.

Definition raised_by (ev : Ev) : option Exn :=
  match ev with failed _ e => Some e | returned _ _ => None end.

End Programs.

Arguments Ret {E A} a.
Arguments Raise {E A} e.
Arguments Call {E A X} c k.
Arguments Return {A} a.
Arguments Raised {A} e.
Arguments returned {E X} c x.
Arguments failed {E X} c e.
Arguments bind {E A B} p f.
Arguments call {E X} c.
Arguments for_each {E X} xs body.
Arguments lift {E S} l X c s.
Arguments run {E S A} lib p s.
Arguments outcome {E S A} r.
Arguments final {E S A} r.
Arguments trace {E S A} r.
Arguments after {E S A} tr r.
Arguments is_failure {E} ev.
Arguments raised_by {E} ev.

End Py.

Import Py.

Declare Scope py_scope.
Delimit Scope py_scope with py.
Notation "x <- p ;; q" := (bind p (fun x => q))
  (at level 61, p at next level, right associativity) : py_scope.
Notation "' pat <- p ;; q" :=
  (bind p (fun x => match x with pat => q end))
  (at level 61, pat pattern, p at next level, right associativity) : py_scope.
Notation "p ;;; q" := (bind p (fun _ => q))
  (at level 61, right associativity) : py_scope.

(** [range(n)] and [enumerate(xs)] *)
Definition range (n : Z) : list Z := map Z.of_nat (seq 0 (Z.to_nat n)).

Definition enumerate {X} (xs : list X) : list (Z * X) :=
  combine (range (Z.of_nat (List.length xs))) xs.

Open Scope py_scope.

(** ** Real-time face detection (OpenCV notebook) *)

Module FaceDetection.

Inductive ColorConversion : Type := COLOR_BGR2GRAY.

(** A detection [(x, y, w, h)]: a row of the int32 array OpenCV answers
    with. *)
Definition Rect : Type := (Z * Z * Z * Z)%type.

(** Addition of two numpy int32 scalars. *)
Definition int32_add (a b : Z) : Z :=
  (a + b + 2 ^ 31) mod 2 ^ 32 - 2 ^ 31.

Section WithObj.
(** Library objects (classifier, capture device, frames) are opaque. *)
Variable Obj : Type.

Inductive cvE : Type -> Type :=
| pip_install (package : string) : cvE unit
| data_haarcascades : cvE string
| CascadeClassifier (filename : string) : cvE Obj
| VideoCapture (index : Z) : cvE Obj
| cvtColor (src : Obj) (code : ColorConversion) : cvE Obj
| detectMultiScale (classifier image : Obj) (scaleFactor : Q)
    (minNeighbors : Z) (minSize : Z * Z) : cvE (list Rect)
| rectangle (img : Obj) (pt1 pt2 : Z * Z) (color : Z * Z * Z)
    (thickness : Z) : cvE unit
| VideoCapture_read (cap : Obj) : cvE (bool * Obj)
| imshow (winname : string) (mat : Obj) : cvE unit
| waitKey (delay : Z) : cvE Z
| VideoCapture_release (cap : Obj) : cvE unit
| destroyAllWindows : cvE unit.

(** The rectangle drawn for one detection. *)
Definition draw_box (vid : Obj) (face : Rect) : cvE unit :=
  let '(x, y, w, h) := face in
  rectangle vid (x, y) (int32_add x w, int32_add y h) (0, 255, 0) 4.

(** [def detect_bounding_box(vid)]; [face_classifier] is the notebook's
    global. *)
Definition detect_bounding_box (face_classifier vid : Obj)
  : Prog cvE (list Rect) :=
  gray_image <- call (cvtColor vid COLOR_BGR2GRAY) ;;
  faces <- call (detectMultiScale face_classifier gray_image
                   (11 # 10)%Q 5 (20, 20)) ;;
  for_each faces (fun face => call (draw_box vid face)) ;;;
  Ret faces.

Inductive LoopControl : Type := Continue | Break.

(** [ord("q")] *)
Definition ord_q : Z := 113.

(** The body of the [while True:] loop. *)
Definition loop_body (face_classifier video_capture : Obj)
  : Prog cvE LoopControl :=
  '(result, video_frame) <- call (VideoCapture_read video_capture) ;;
  if negb result then Ret Break
  else
    faces <- detect_bounding_box face_classifier video_frame ;;
    call (imshow "Face Detection Project" video_frame) ;;;
    key <- call (waitKey 1) ;;
    if Z.eqb (Z.land key 255) ord_q then Ret Break else Ret Continue.

(** [while True: body], unrolled at most [fuel] times; [None] when the
    loop is still running after [fuel] iterations. *)
Fixpoint while_true (fuel : nat) (body : Prog cvE LoopControl)
  : Prog cvE (option unit) :=
  match fuel with
  | O => Ret None
  | S fuel' =>
      c <- body ;;
      match c with
      | Break => Ret (Some tt)
      | Continue => while_true fuel' body
      end
  end.

(** The notebook, cell by cell. *)
Definition notebook (fuel : nat) : Prog cvE (option unit) :=
  call (pip_install "opencv-python") ;;;
  dir <- call data_haarcascades ;;
  face_classifier <-
    call (CascadeClassifier
            (dir ++ "haarcascade_frontalface_default.xml")) ;;
  video_capture <- call (VideoCapture 0) ;;
  r <- while_true fuel (loop_body face_classifier video_capture) ;;
  match r with
  | None => Ret None
  | Some _ =>
      call (VideoCapture_release video_capture) ;;;
      call destroyAllWindows ;;;
      Ret (Some tt)
  end.

End WithObj.

Arguments pip_install {Obj} package.
Arguments data_haarcascades {Obj}.
Arguments CascadeClassifier {Obj} filename.
Arguments VideoCapture {Obj} index.
Arguments waitKey {Obj} delay.
Arguments destroyAllWindows {Obj}.

End FaceDetection.

(** ** The TensorFlow / Keras interface used by three notebooks *)

Module TF.

Inductive Padding : Type := same | valid.

(** An argument that Keras accepts as an int or as a tuple of two ints. *)
Inductive IntOrPair : Type :=
| int (n : Z)
| pair2 (a b : Z).

(** Keyword arguments of [Conv2D]; [None] is an argument the call does not
    pass, so that the library's default applies. *)
Record Conv2D_args : Type := conv2d_args
  { filters : Z;
    kernel_size : IntOrPair;
    strides : option IntOrPair;
    padding : option Padding;
    kernel_initializer : option string;
    activation : option string;
    use_bias : option bool }.

Section WithObj.
(** Tensors, arrays, layers, models, optimizers, tapes and images are
    opaque library objects. *)
Variable Obj : Type.

(** An operand of tensor arithmetic: a tensor or a Python float. *)
Inductive Operand : Type :=
| T (x : Obj)
| K (c : Q).

(** An entry of a shape passed to [tf.random.normal]. *)
Inductive Dim : Type :=
| DimT (x : Obj)
| DimK (n : Z).

(** What is handed to [print], or shown as the value of a cell. *)
#[warnings="-register-all"]
Inductive Printable : Type :=
| PStr (s : string)
| PInt (n : Z)
| PShape (dims : list Z)
| PObj (o : Obj)
| PFmt (parts : list Printable).

Inductive SequentialArg : Type :=
| no_layers
| layer_list (ls : list Obj)
| layers_from (o : Obj).

Inductive tfE : Type -> Type :=
(* layers *)
| Conv2D (a : Conv2D_args) : tfE Obj
| Conv2DTranspose (n_filters : Z) (ksize strides_ : IntOrPair)
    (padding_ : Padding) : tfE Obj
| BatchNormalization : tfE Obj
| Activation (name : string) : tfE Obj
| LeakyReLU (alpha : Q) : tfE Obj
| MaxPooling2D (pool_size : IntOrPair) (strides_ : option IntOrPair)
    (padding_ : option Padding) : tfE Obj
| Dropout (rate : Q) : tfE Obj
| Dense (units : Z) (activation_ : option string)
    (use_bias_ : option bool) : tfE Obj
| Flatten : tfE Obj
| GlobalAvgPool2D : tfE Obj
| ZeroPadding2D (padding_ : Z * Z) : tfE Obj
| UpSampling2D (size : Z * Z) : tfE Obj
| Cropping2D (cropping : Z * Z) : tfE Obj
| Reshape (target_shape : list Z) : tfE Obj
| Input (shape : list Z) : tfE Obj
| concatenate (inputs : list Obj) : tfE Obj
(* [layer(x)], [model(x)], [model(x, training=True)] *)
| apply (layer x : Obj) (training : option bool) : tfE Obj
| relu (x : Obj) : tfE Obj
(* models *)
| Model (inputs outputs : Obj) (name : option string) : tfE Obj
| new_instance (class_name : string) : tfE Obj
| Model_init (self : Obj) : tfE unit
| Model_compile (self : Obj) : tfE unit
| compile (model : Obj) (optimizer loss : string)
    (metrics : list string) : tfE unit
| Sequential (layers : SequentialArg) : tfE Obj
| Sequential_add (model layer : Obj) : tfE unit
| summary (model : Obj) : tfE unit
| ResNet101 (include_top : bool) (weights : option string)
    (input_shape : list Z) : tfE Obj
| layers_of (model : Obj) : tfE (list Obj)
| set_trainable (layer : Obj) (value : bool) : tfE unit
| Classifier_init (self : Obj) : tfE unit
| save_hyperparameters (self : Obj) : tfE unit
| layer_summary (self : Obj) (X_shape : list Z) : tfE unit
| Adam (learning_rate beta_1 beta_2 : Q) : tfE Obj
| fit (model x : Obj) (batch_size epochs : Z)
    (callbacks : list Obj) : tfE Obj
(* tensors *)
| random_normal (shape : list Dim) (mean stddev : option Q) : tfE Obj
(* [tf.random.uniform]: the sampler of the published WGAN-GP
   algorithm; no notebook calls it *)
| random_uniform (shape : list Dim) (minval maxval : option Q) : tfE Obj
| tf_shape (x : Obj) : tfE Obj
| shape_attr (x : Obj) : tfE Obj
| getitem (x : Obj) (i : Z) : tfE Obj
| add (a b : Operand) : tfE Obj
| sub (a b : Operand) : tfE Obj
| mul (a b : Operand) : tfE Obj
| div (a b : Operand) : tfE Obj
| pow (a b : Operand) : tfE Obj
| neg (x : Obj) : tfE Obj
| square (x : Obj) : tfE Obj
| sqrt (x : Obj) : tfE Obj
| reduce_sum (x : Obj) (axis : list Z) : tfE Obj
| reduce_mean (x : Obj) : tfE Obj
(* automatic differentiation and optimizers *)
| GradientTape : tfE Obj
| watch (tape x : Obj) : tfE unit
| gradient (tape target : Obj) (sources : list Obj) : tfE (list Obj)
| trainable_variables (model : Obj) : tfE (list Obj)
| apply_gradients (optimizer : Obj)
    (grads_and_vars : list (Obj * Obj)) : tfE unit
(* numpy arrays and datasets *)
| fashion_mnist_load_data : tfE ((Obj * Obj) * (Obj * Obj))
| len (x : Obj) : tfE Z
| ndarray_shape (x : Obj) : tfE (list Z)
| reshape (x : Obj) (shape : list Z) : tfE Obj
| astype (x : Obj) (dtype : string) : tfE Obj
| numpy (x : Obj) : tfE Obj
(* output *)
| array_to_img (x : Obj) : tfE Obj
| img_save (img : Obj) (filename : string) : tfE unit
| print (args : list Printable) : tfE unit
| cell_output (value : Printable) : tfE unit
| IPython_Image (filename : string) (width : Z) : tfE Obj
| display (o : Obj) : tfE unit.

(** [layer(x)] where the layer is constructed on the spot. *)
Definition through (layer : tfE Obj) (x : Obj) : Prog tfE Obj :=
  l <- call layer ;;
  call (apply l x None).

End WithObj.

Arguments K {Obj} c.
Arguments DimK {Obj} n.
Arguments PStr {Obj} s.
Arguments PInt {Obj} n.
Arguments PShape {Obj} dims.
Arguments no_layers {Obj}.
Arguments Conv2D {Obj} a.
Arguments Conv2DTranspose {Obj} n_filters ksize strides_ padding_.
Arguments BatchNormalization {Obj}.
Arguments Activation {Obj} name.
Arguments LeakyReLU {Obj} alpha.
Arguments MaxPooling2D {Obj} pool_size strides_ padding_.
Arguments Dropout {Obj} rate.
Arguments Dense {Obj} units activation_ use_bias_.
Arguments Flatten {Obj}.
Arguments GlobalAvgPool2D {Obj}.
Arguments ZeroPadding2D {Obj} padding_.
Arguments UpSampling2D {Obj} size.
Arguments Cropping2D {Obj} cropping.
Arguments Reshape {Obj} target_shape.
Arguments Input {Obj} shape.
Arguments new_instance {Obj} class_name.
Arguments ResNet101 {Obj} include_top weights input_shape.
Arguments Adam {Obj} learning_rate beta_1 beta_2.
Arguments GradientTape {Obj}.
Arguments fashion_mnist_load_data {Obj}.
Arguments IPython_Image {Obj} filename width.

End TF.

(** ** U-Net (Day_14_UNet.ipynb) *)

Module UNet.
Import TF.

Section WithObj.
Variable Obj : Type.
Let Prog := Prog (tfE Obj).

(** One pass of the [for i in range(2)] loop of [conv2d_block]. *)
Definition conv_relu (n_filters kernel_size : Z) (x : Obj) : Prog Obj :=
  x <- through (Conv2D (conv2d_args n_filters
                          (pair2 kernel_size kernel_size) None
                          (Some same) (Some "he_normal") None None)) x ;;
  through (Activation "relu") x.

(** [def conv2d_block(input_tensor, n_filters, kernel_size = 3)] *)
Definition conv2d_block (input_tensor : Obj) (n_filters kernel_size : Z)
  : Prog Obj :=
  x <- conv_relu n_filters kernel_size input_tensor ;;
  conv_relu n_filters kernel_size x.

(** [def encoder_block(inputs, n_filters=64, pool_size=(2,2),
    dropout=0.3)] *)
Definition encoder_block (inputs : Obj) (n_filters : Z)
  (pool_size : IntOrPair) (dropout : Q) : Prog (Obj * Obj) :=
  f <- conv2d_block inputs n_filters 3 ;;
  p <- through (MaxPooling2D pool_size None None) f ;;
  p <- through (Dropout (3 # 10)) p ;;
  Ret (f, p).

(** [def encoder(inputs)] *)
Definition encoder (inputs : Obj) : Prog (Obj * (Obj * Obj * Obj * Obj)) :=
  '(f1, p1) <- encoder_block inputs 64 (pair2 2 2) (3 # 10) ;;
  '(f2, p2) <- encoder_block p1 128 (pair2 2 2) (3 # 10) ;;
  '(f3, p3) <- encoder_block p2 256 (pair2 2 2) (3 # 10) ;;
  '(f4, p4) <- encoder_block p3 512 (pair2 2 2) (3 # 10) ;;
  Ret (p4, (f1, f2, f3, f4)).

(** [def bottleneck(inputs)] *)
Definition bottleneck (inputs : Obj) : Prog Obj :=
  conv2d_block inputs 1024 3.

(** [def decoder_block(inputs, conv_output, n_filters=64, kernel_size=3,
    strides=3, dropout=0.3)] *)
Definition decoder_block (inputs conv_output : Obj) (n_filters : Z)
  (kernel_size strides : IntOrPair) (dropout : Q) : Prog Obj :=
  u <- through (Conv2DTranspose n_filters kernel_size strides same)
         inputs ;;
  c <- call (concatenate [u; conv_output]) ;;
  c <- through (Dropout dropout) c ;;
  conv2d_block c n_filters 3.

(** [def decoder(inputs, convs, output_channels)] *)
Definition decoder (inputs : Obj) (convs : Obj * Obj * Obj * Obj)
  (output_channels : Z) : Prog Obj :=
  let '(f1, f2, f3, f4) := convs in
  c6 <- decoder_block inputs f4 512 (pair2 3 3) (pair2 2 2) (3 # 10) ;;
  c7 <- decoder_block c6 f3 256 (pair2 3 3) (pair2 2 2) (3 # 10) ;;
  c8 <- decoder_block c7 f2 128 (pair2 3 3) (pair2 2 2) (3 # 10) ;;
  c9 <- decoder_block c8 f1 64 (pair2 3 3) (pair2 2 2) (3 # 10) ;;
  through (Conv2D (conv2d_args output_channels (pair2 1 1) None None
                     None (Some "softmax") None)) c9.

Definition OUTPUT_CHANNELS : Z := 3.

(** [def unet()] *)
Definition unet : Prog Obj :=
  inputs <- call (Input [128; 128; 3]) ;;
  '(encoder_output, convs) <- encoder inputs ;;
  bottle_neck <- bottleneck encoder_output ;;
  outputs <- decoder bottle_neck convs OUTPUT_CHANNELS ;;
  call (Model inputs outputs None).

(** The notebook's code cells. *)
Definition notebook : Prog unit :=
  model <- unet ;;
  call (summary model).

End WithObj.

Arguments unet {Obj}.

End UNet.

(** ** Residual networks (ResNet notebook) *)

Module ResNet.
Import TF.

Section WithObj.
Variable Obj : Type.
Let Prog := Prog (tfE Obj).

(** An instance of [class Residual(tf.keras.Model)]. *)
Record Residual : Type := mkResidual
  { self : Obj;
    conv1 : Obj;
    conv2 : Obj;
    conv3 : option Obj;
    bn1 : Obj;
    bn2 : Obj }.

(** [Residual.__init__(self, num_channels, use_1x1conv=False,
    strides=1)] *)
Definition Residual_init (self : Obj) (num_channels : Z)
  (use_1x1conv : bool) (strides : IntOrPair) : Prog Residual :=
  call (Model_init self) ;;;
  conv1 <- call (Conv2D (conv2d_args num_channels (int 3) (Some strides)
                           (Some same) None None None)) ;;
  conv2 <- call (Conv2D (conv2d_args num_channels (int 3) None
                           (Some same) None None None)) ;;
  conv3 <- (if use_1x1conv
            then c <- call (Conv2D (conv2d_args num_channels (int 1)
                                      (Some strides) None None None
                                      None)) ;;
                 Ret (Some c)
            else Ret None) ;;
  bn1 <- call BatchNormalization ;;
  bn2 <- call BatchNormalization ;;
  Ret (mkResidual self conv1 conv2 conv3 bn1 bn2).

(** The class call [Residual(num_channels, use_1x1conv, strides)]. *)
Definition new_Residual (num_channels : Z) (use_1x1conv : bool)
  (strides : IntOrPair) : Prog Residual :=
  self <- call (new_instance "Residual") ;;
  Residual_init self num_channels use_1x1conv strides.

(** [Residual.call(self, X)] *)
Definition Residual_call (blk : Residual) (X : Obj) : Prog Obj :=
  Y <- call (apply (conv1 blk) X None) ;;
  Y <- call (apply (bn1 blk) Y None) ;;
  Y <- call (relu Y) ;;
  Y <- call (apply (conv2 blk) Y None) ;;
  Y <- call (apply (bn2 blk) Y None) ;;
  X <- match conv3 blk with
       | Some c3 => call (apply c3 X None)
       | None => Ret X
       end ;;
  Y <- call (add (T Y) (T X)) ;;
  call (relu Y).

(** [ResNet.b1(self)] *)
Definition b1 : Prog Obj :=
  l1 <- call (Conv2D (conv2d_args 64 (int 7) (Some (int 2)) (Some same)
                        None None None)) ;;
  l2 <- call BatchNormalization ;;
  l3 <- call (Activation "relu") ;;
  l4 <- call (MaxPooling2D (int 3) (Some (int 2)) (Some same)) ;;
  call (Sequential (layer_list [l1; l2; l3; l4])).

(** [ResNet.block(self, num_residuals, num_channels,
    first_block=False)] *)
Definition block (num_residuals num_channels : Z) (first_block : bool)
  : Prog Obj :=
  blk <- call (Sequential no_layers) ;;
  for_each (range num_residuals) (fun i =>
    if Z.eqb i 0 && negb first_block
    then r <- new_Residual num_channels true (int 2) ;;
         call (Sequential_add blk (self r))
    else r <- new_Residual num_channels false (int 1) ;;
         call (Sequential_add blk (self r))) ;;;
  Ret blk.

(** An instance of [class ResNet(d2l.Classifier)]. *)
Record ResNetModel : Type := mkResNet
  { resnet_self : Obj;
    net : Obj }.

(** [ResNet.__init__(self, arch, lr=0.1, num_classes=10)] *)
Definition ResNet_init (self : Obj) (arch : list (Z * Z)) (lr : Q)
  (num_classes : Z) : Prog ResNetModel :=
  call (Classifier_init self) ;;;
  call (save_hyperparameters self) ;;;
  first <- b1 ;;
  net <- call (Sequential (layers_from first)) ;;
  for_each (enumerate arch) (fun '(i, (num_residuals, num_channels)) =>
    b <- block num_residuals num_channels (Z.eqb i 0) ;;
    call (Sequential_add net b)) ;;;
  l1 <- call GlobalAvgPool2D ;;
  l2 <- call (Dense num_classes None None) ;;
  last <- call (Sequential (layer_list [l1; l2])) ;;
  call (Sequential_add net last) ;;;
  Ret (mkResNet self net).

(** [ResNet18.__init__(self, lr=0.1, num_classes=10)] *)
Definition ResNet18_init (self : Obj) (lr : Q) (num_classes : Z)
  : Prog ResNetModel :=
  ResNet_init self [(2, 64); (2, 128); (2, 256); (2, 512)] lr
    num_classes.

Definition input_shape : list Z := [32; 32; 3].

(** [def createResNetModel()] *)
Definition createResNetModel : Prog Obj :=
  pretrainedModel <- call (ResNet101 false None input_shape) ;;
  ls <- call (layers_of pretrainedModel) ;;
  for_each ls (fun resnetLayer => call (set_trainable resnetLayer true)) ;;;
  resnetModel <- call (Sequential no_layers) ;;
  call (Sequential_add resnetModel pretrainedModel) ;;;
  l <- call Flatten ;;
  call (Sequential_add resnetModel l) ;;;
  l <- call (Dense 2048 (Some "relu") None) ;;
  call (Sequential_add resnetModel l) ;;;
  l <- call (Dropout (5 # 10)) ;;
  call (Sequential_add resnetModel l) ;;;
  l <- call (Dense 1024 (Some "relu") None) ;;
  call (Sequential_add resnetModel l) ;;;
  l <- call (Dropout (5 # 10)) ;;
  call (Sequential_add resnetModel l) ;;;
  l <- call (Dense 512 (Some "relu") None) ;;
  call (Sequential_add resnetModel l) ;;;
  l <- call (Dropout (5 # 10)) ;;
  call (Sequential_add resnetModel l) ;;;
  l <- call (Dense 10 (Some "softmax") None) ;;
  call (Sequential_add resnetModel l) ;;;
  call (summary resnetModel) ;;;
  Ret resnetModel.

(** The notebook's code cells. *)
Definition notebook : Prog unit :=
  (* blk = Residual(3); X = tf.random.normal((4, 6, 6, 3));
     Y = blk(X); Y.shape *)
  blk <- new_Residual 3 false (int 1) ;;
  X <- call (random_normal [DimK 4; DimK 6; DimK 6; DimK 3] None None) ;;
  Y <- Residual_call blk X ;;
  sh <- call (shape_attr Y) ;;
  call (cell_output (PObj sh)) ;;;
  (* blk = Residual(6, use_1x1conv=True, strides=2); blk(X).shape *)
  blk <- new_Residual 6 true (int 2) ;;
  Y <- Residual_call blk X ;;
  sh <- call (shape_attr Y) ;;
  call (cell_output (PObj sh)) ;;;
  (* ResNet18().layer_summary((1, 96, 96, 1)) *)
  self <- call (new_instance "ResNet18") ;;
  m <- ResNet18_init self (1 # 10) 10 ;;
  call (layer_summary (resnet_self m) [1; 96; 96; 1]) ;;;
  (* resnet101_model = createResNetModel() *)
  resnet101_model <- createResNetModel ;;
  call (compile resnet101_model "adam" "sparse_categorical_crossentropy"
          ["accuracy"]).

End WithObj.

Arguments new_Residual {Obj} num_channels use_1x1conv strides.
Arguments b1 {Obj}.
Arguments block {Obj} num_residuals num_channels first_block.
Arguments createResNetModel {Obj}.

End ResNet.

(** [str(n)] for a Python int. *)
Definition str (n : Z) : string := NilEmpty.string_of_int (Z.to_int n).

(** ["\n"] *)
Definition newline : string := String (Ascii.ascii_of_nat 10) EmptyString.

(** ** WGAN-GP (WGAN notebook) *)

Module WGANGP.
Import TF.

Definition IMG_SHAPE : list Z := [28; 28; 1].
Definition BATCH_SIZE : Z := 512.
Definition noise_dim : Z := 128.
Definition epochs : Z := 5.

(** [x[0]] on a Python sequence. *)
Definition first {E X} (xs : list X) : Prog E X :=
  match xs with
  | x :: _ => Ret x
  | [] => Raise (IndexError "index out of range")
  end.

Section WithObj.
Variable Obj : Type.
Let Prog := Prog (tfE Obj).

(** [train_images = (train_images - 127.5) / 127.5] *)
Definition normalize (train_images : Obj) : Prog Obj :=
  x <- call (sub (T train_images) (K (1275 # 10))) ;;
  call (div (T x) (K (1275 # 10))).

(** [generated_images = (generated_images * 127.5) + 127.5] *)
Definition denormalize (generated_images : Obj) : Prog Obj :=
  x <- call (mul (T generated_images) (K (1275 # 10))) ;;
  call (add (T x) (K (1275 # 10))).

(** [def conv_block(x, filters, activation, kernel_size=(3, 3),
    strides=(1, 1), padding="same", use_bias=True, use_bn=False,
    use_dropout=False, drop_value=0.5)] *)
Definition conv_block (x : Obj) (filters : Z) (activation : Obj)
  (kernel_size strides : Z * Z) (padding : Padding)
  (use_bias use_bn use_dropout : bool) (drop_value : Q) : Prog Obj :=
  x <- through (Conv2D (conv2d_args filters
                          (pair2 (fst kernel_size) (snd kernel_size))
                          (Some (pair2 (fst strides) (snd strides)))
                          (Some padding) None None (Some use_bias))) x ;;
  x <- (if use_bn then through BatchNormalization x else Ret x) ;;
  x <- call (apply activation x None) ;;
  if use_dropout then through (Dropout drop_value) x else Ret x.

(** [def get_discriminator_model()] *)
Definition get_discriminator_model : Prog Obj :=
  img_input <- call (Input IMG_SHAPE) ;;
  x <- through (ZeroPadding2D (2, 2)) img_input ;;
  act <- call (LeakyReLU (2 # 10)) ;;
  x <- conv_block x 64 act (5, 5) (2, 2) same true false false (3 # 10) ;;
  act <- call (LeakyReLU (2 # 10)) ;;
  x <- conv_block x 128 act (5, 5) (2, 2) same true false true (3 # 10) ;;
  act <- call (LeakyReLU (2 # 10)) ;;
  x <- conv_block x 256 act (5, 5) (2, 2) same true false true (3 # 10) ;;
  act <- call (LeakyReLU (2 # 10)) ;;
  x <- conv_block x 512 act (5, 5) (2, 2) same true false false
         (3 # 10) ;;
  x <- through Flatten x ;;
  x <- through (Dropout (2 # 10)) x ;;
  x <- through (Dense 1 None None) x ;;
  call (Model img_input x (Some "discriminator")).

(** [def upsample_block(x, filters, activation, kernel_size=(3, 3),
    strides=(1, 1), up_size=(2, 2), padding="same", use_bn=False,
    use_bias=True, use_dropout=False, drop_value=0.3)] *)
Definition upsample_block (x : Obj) (filters : Z)
  (activation : option Obj) (kernel_size strides up_size : Z * Z)
  (padding : Padding) (use_bn use_bias use_dropout : bool)
  (drop_value : Q) : Prog Obj :=
  x <- through (UpSampling2D up_size) x ;;
  x <- through (Conv2D (conv2d_args filters
                          (pair2 (fst kernel_size) (snd kernel_size))
                          (Some (pair2 (fst strides) (snd strides)))
                          (Some padding) None None (Some use_bias))) x ;;
  x <- (if use_bn then through BatchNormalization x else Ret x) ;;
  x <- match activation with
       | Some act => call (apply act x None)
       | None => Ret x
       end ;;
  if use_dropout then through (Dropout drop_value) x else Ret x.

(** [def get_generator_model()] *)
Definition get_generator_model : Prog Obj :=
  noise <- call (Input [noise_dim]) ;;
  x <- through (Dense (4 * 4 * 256) None (Some false)) noise ;;
  x <- through BatchNormalization x ;;
  x <- through (LeakyReLU (2 # 10)) x ;;
  x <- through (Reshape [4; 4; 256]) x ;;
  act <- call (LeakyReLU (2 # 10)) ;;
  x <- upsample_block x 128 (Some act) (3, 3) (1, 1) (2, 2) same true
         false false (3 # 10) ;;
  act <- call (LeakyReLU (2 # 10)) ;;
  x <- upsample_block x 64 (Some act) (3, 3) (1, 1) (2, 2) same true
         false false (3 # 10) ;;
  act <- call (Activation "tanh") ;;
  x <- upsample_block x 1 (Some act) (3, 3) (1, 1) (2, 2) same true
         false false (3 # 10) ;;
  x <- through (Cropping2D (2, 2)) x ;;
  call (Model noise x (Some "generator")).

(** An instance of [class WGAN(keras.Model)] after [__init__]. *)
Record WGAN : Type := mkWGAN
  { self : Obj;
    discriminator : Obj;
    generator : Obj;
    latent_dim : Z;
    d_steps : Z;
    gp_weight : Q }.

(** The attributes that [compile] adds. *)
Record Compiled : Type := mkCompiled
  { wgan : WGAN;
    d_optimizer : Obj;
    g_optimizer : Obj;
    d_loss_fn : Obj -> Obj -> Prog Obj;
    g_loss_fn : Obj -> Prog Obj }.

(** [WGAN.__init__(self, discriminator, generator, latent_dim,
    discriminator_extra_steps=3, gp_weight=10.0)] *)
Definition WGAN_init (self discriminator generator : Obj)
  (latent_dim discriminator_extra_steps : Z) (gp_weight : Q)
  : Prog WGAN :=
  call (Model_init self) ;;;
  Ret (mkWGAN self discriminator generator latent_dim
         discriminator_extra_steps gp_weight).

(** [WGAN.compile(self, d_optimizer, g_optimizer, d_loss_fn,
    g_loss_fn)] *)
Definition WGAN_compile (w : WGAN) (d_optimizer g_optimizer : Obj)
  (d_loss_fn : Obj -> Obj -> Prog Obj) (g_loss_fn : Obj -> Prog Obj)
  : Prog Compiled :=
  call (Model_compile (self w)) ;;;
  Ret (mkCompiled w d_optimizer g_optimizer d_loss_fn g_loss_fn).

(** [WGAN.gradient_penalty(self, batch_size, real_images,
    fake_images)] *)
Definition gradient_penalty (w : WGAN)
  (batch_size real_images fake_images : Obj) : Prog Obj :=
  alpha <- call (random_normal
                   [DimT batch_size; DimK 1; DimK 1; DimK 1]
                   (Some 0%Q) (Some 1%Q)) ;;
  diff <- call (sub (T fake_images) (T real_images)) ;;
  scaled <- call (mul (T alpha) (T diff)) ;;
  interpolated <- call (add (T real_images) (T scaled)) ;;
  gp_tape <- call GradientTape ;;
  call (watch gp_tape interpolated) ;;;
  pred <- call (apply (discriminator w) interpolated (Some true)) ;;
  gs <- call (gradient gp_tape pred [interpolated]) ;;
  grads <- first gs ;;
  sq <- call (square grads) ;;
  total <- call (reduce_sum sq [1; 2; 3]) ;;
  norm <- call (sqrt total) ;;
  dev <- call (sub (T norm) (K 1%Q)) ;;
  dev2 <- call (pow (T dev) (K 2%Q)) ;;
  call (reduce_mean dev2).

(** The argument of [train_step]: a tensor, or a tuple whose first
    component is the batch. *)
Inductive Data : Type :=
| tensor (x : Obj)
| tuple (xs : list Obj).

(** One pass of [for i in range(self.d_steps)]; answers the [d_loss]
    of the pass. *)
Definition discriminator_step (c : Compiled)
  (batch_size real_images : Obj) : Prog Obj :=
  let w := wgan c in
  random_latent_vectors <-
    call (random_normal [DimT batch_size; DimK (latent_dim w)]
            None None) ;;
  tape <- call GradientTape ;;
  fake_images <- call (apply (generator w) random_latent_vectors
                         (Some true)) ;;
  fake_logits <- call (apply (discriminator w) fake_images
                         (Some true)) ;;
  real_logits <- call (apply (discriminator w) real_images
                         (Some true)) ;;
  d_cost <- d_loss_fn c real_logits fake_logits ;;
  gp <- gradient_penalty w batch_size real_images fake_images ;;
  weighted <- call (mul (T gp) (K (gp_weight w))) ;;
  d_loss <- call (add (T d_cost) (T weighted)) ;;
  vars <- call (trainable_variables (discriminator w)) ;;
  d_gradient <- call (gradient tape d_loss vars) ;;
  vars' <- call (trainable_variables (discriminator w)) ;;
  call (apply_gradients (d_optimizer c) (combine d_gradient vars')) ;;;
  Ret d_loss.

(** The loop over [range(self.d_steps)], threading the local variable
    [d_loss] (unbound before the first pass). *)
Fixpoint discriminator_loop (n : nat) (c : Compiled)
  (batch_size real_images : Obj) (d_loss : option Obj)
  : Prog (option Obj) :=
  match n with
  | O => Ret d_loss
  | S n' =>
      d_loss' <- discriminator_step c batch_size real_images ;;
      discriminator_loop n' c batch_size real_images (Some d_loss')
  end.

(** The generator update; answers [g_loss]. *)
Definition generator_step (c : Compiled) (batch_size : Obj)
  : Prog Obj :=
  let w := wgan c in
  random_latent_vectors <-
    call (random_normal [DimT batch_size; DimK (latent_dim w)]
            None None) ;;
  tape <- call GradientTape ;;
  generated_images <- call (apply (generator w) random_latent_vectors
                              (Some true)) ;;
  gen_img_logits <- call (apply (discriminator w) generated_images
                            (Some true)) ;;
  g_loss <- g_loss_fn c gen_img_logits ;;
  vars <- call (trainable_variables (generator w)) ;;
  gen_gradient <- call (gradient tape g_loss vars) ;;
  vars' <- call (trainable_variables (generator w)) ;;
  call (apply_gradients (g_optimizer c) (combine gen_gradient vars')) ;;;
  Ret g_loss.

(** [WGAN.train_step(self, real_images)] *)
Definition train_step (c : Compiled) (data : Data)
  : Prog (list (string * Obj)) :=
  real_images <- match data with
                 | tuple xs => first xs
                 | tensor x => Ret x
                 end ;;
  sh <- call (tf_shape real_images) ;;
  batch_size <- call (getitem sh 0) ;;
  d_loss <- discriminator_loop (Z.to_nat (d_steps (wgan c))) c
              batch_size real_images None ;;
  g_loss <- generator_step c batch_size ;;
  match d_loss with
  | Some d_loss => Ret [("d_loss", d_loss); ("g_loss", g_loss)]
  | None => Raise (UnboundLocalError "d_loss")
  end.

(** An instance of [class GANMonitor(keras.callbacks.Callback)].  Its
    attribute [model], which Keras sets on every callback, is passed to
    [on_epoch_end] below. *)
Record GANMonitor : Type := mkGANMonitor
  { monitor_self : Obj;
    num_img : Z;
    monitor_latent_dim : Z }.

Definition generated_img (i epoch : Z) : string :=
  "generated_img_" ++ str i ++ "_" ++ str epoch ++ ".png".

(** One pass of [for i in range(self.num_img)]. *)
Definition save_image (generated_images : Obj) (epoch i : Z)
  : Prog unit :=
  img <- call (getitem generated_images i) ;;
  img <- call (numpy img) ;;
  img <- call (array_to_img img) ;;
  call (img_save img (generated_img i epoch)).

(** [GANMonitor.on_epoch_end(self, epoch, logs=None)] *)
Definition on_epoch_end (m : GANMonitor) (model : WGAN) (epoch : Z)
  : Prog unit :=
  random_latent_vectors <-
    call (random_normal [DimK (num_img m); DimK (monitor_latent_dim m)]
            None None) ;;
  generated_images <- call (apply (generator model)
                              random_latent_vectors None) ;;
  generated_images <- denormalize generated_images ;;
  for_each (range (num_img m)) (save_image generated_images epoch).

(** [def discriminator_loss(real_img, fake_img)] *)
Definition discriminator_loss (real_img fake_img : Obj) : Prog Obj :=
  real_loss <- call (reduce_mean real_img) ;;
  fake_loss <- call (reduce_mean fake_img) ;;
  call (sub (T fake_loss) (T real_loss)).

(** [def generator_loss(fake_img)] *)
Definition generator_loss (fake_img : Obj) : Prog Obj :=
  m <- call (reduce_mean fake_img) ;;
  call (neg m).

(** The notebook's code cells. *)
Definition notebook : Prog unit :=
  (* data *)
  '((train_images, train_labels), (test_images, test_labels)) <-
    call fashion_mnist_load_data ;;
  n <- call (len train_images) ;;
  call (print [PFmt [PStr "Number of examples: "; PInt n]]) ;;;
  sh <- call (ndarray_shape train_images) ;;
  call (print [PFmt [PStr "Shape of the images in the dataset: ";
                     PShape (tl sh)]]) ;;;
  sh <- call (ndarray_shape train_images) ;;
  n0 <- first sh ;;
  train_images <- call (reshape train_images (n0 :: IMG_SHAPE)) ;;
  train_images <- call (astype train_images "float32") ;;
  train_images <- normalize train_images ;;
  (* the two networks *)
  d_model <- get_discriminator_model ;;
  call (summary d_model) ;;;
  g_model <- get_generator_model ;;
  call (summary g_model) ;;;
  (* training *)
  generator_optimizer <- call (Adam (2 # 10000) (5 # 10) (9 # 10)) ;;
  discriminator_optimizer <- call (Adam (2 # 10000) (5 # 10) (9 # 10)) ;;
  cbk_self <- call (new_instance "GANMonitor") ;;
  let cbk := mkGANMonitor cbk_self 3 noise_dim in
  wgan_self <- call (new_instance "WGAN") ;;
  w <- WGAN_init wgan_self d_model g_model noise_dim 3 (10 # 1) ;;
  c <- WGAN_compile w discriminator_optimizer generator_optimizer
         discriminator_loss generator_loss ;;
  history <- call (fit (self w) train_images BATCH_SIZE epochs
                     [monitor_self cbk]) ;;
  call (cell_output (PObj history)) ;;;
  (* the saved images *)
  im <- call (IPython_Image "generated_img_0_1.png" 200) ;;
  call (display im) ;;;
  call (print [PStr newline]) ;;;
  im <- call (IPython_Image "generated_img_1_1.png" 200) ;;
  call (display im) ;;;
  call (print [PStr newline]) ;;;
  im <- call (IPython_Image "generated_img_2_1.png" 200) ;;
  call (display im).

End WithObj.

Arguments get_discriminator_model {Obj}.
Arguments get_generator_model {Obj}.

End WGANGP.

(** ** Baseline classifiers (scikit-learn notebook) *)

Module Baseline.

Section WithObj.
Variable Obj : Type.

Inductive skE : Type -> Type :=
| load_breast_cancer : skE Obj
| Bunch_data (bunch : Obj) : skE Obj
| Bunch_target (bunch : Obj) : skE Obj
| train_test_split (X y : Obj) (test_size : Q) (random_state : Z)
  : skE (Obj * Obj * Obj * Obj)
| DummyClassifier (strategy : string) (random_state : Z) : skE Obj
| fit (clf X y : Obj) : skE Obj
| predict (clf X : Obj) : skE Obj
| accuracy_score (y_true y_pred : Obj) : skE Obj
| classification_report (y_true y_pred : Obj) : skE Obj
| print (args : list (string + Obj)) : skE unit
| cell_output (value : Obj) : skE unit.

(** The notebook's code cells. *)
Definition notebook : Prog skE unit :=
  data <- call load_breast_cancer ;;
  X <- call (Bunch_data data) ;;
  y <- call (Bunch_target data) ;;
  '(X_train, X_test, y_train, y_test) <-
    call (train_test_split X y (2 # 10) 42) ;;
  dummy_clf <- call (DummyClassifier "stratified" 42) ;;
  fitted <- call (fit dummy_clf X_train y_train) ;;
  call (cell_output fitted) ;;;
  y_pred <- call (predict dummy_clf X_test) ;;
  accuracy <- call (accuracy_score y_test y_pred) ;;
  report <- call (classification_report y_test y_pred) ;;
  call (print [inl "Baseline Classifier Accuracy:"; inr accuracy]) ;;;
  call (print [inl "Classification Report:"]) ;;;
  call (print [inr report]) ;;;
  dummy_clf_most_frequent <-
    call (DummyClassifier "most_frequent" 42) ;;
  call (fit dummy_clf_most_frequent X_train y_train) ;;;
  y_pred_most_frequent <-
    call (predict dummy_clf_most_frequent X_test) ;;
  accuracy_most_frequent <-
    call (accuracy_score y_test y_pred_most_frequent) ;;
  call (cell_output accuracy_most_frequent) ;;;
  dummy_clf_uniform <- call (DummyClassifier "uniform" 42) ;;
  call (fit dummy_clf_uniform X_train y_train) ;;;
  y_pred_uniform <- call (predict dummy_clf_uniform X_test) ;;
  accuracy_uniform <- call (accuracy_score y_test y_pred_uniform) ;;
  call (print [inr accuracy_uniform]).

End WithObj.

Arguments load_breast_cancer {Obj}.
Arguments DummyClassifier {Obj} strategy random_state.

End Baseline.

(** ** What a call means for the notebook as a whole *)

(** The four steps of a notebook pipeline. *)
Inductive Stage : Type := LoadData | BuildModel | TrainOrRun | ShowResults.

Definition Stage_eqb (a b : Stage) : bool :=
  match a, b with
  | LoadData, LoadData | BuildModel, BuildModel
  | TrainOrRun, TrainOrRun | ShowResults, ShowResults => true
  | _, _ => false
  end.

(** Data that outlives the notebook's process. *)
Inductive Written : Type :=
| package (name : string)
| dataset_cache (name : string)
| image_file (filename : string).

(** For each library interface: the pipeline steps a call can count for
    (none, one or several), and the persistent data it writes.  Both
    follow the libraries' documentation: [pip install] installs a package,
    [fashion_mnist.load_data] keeps the downloaded files in the Keras cache
    directory, [Image.save] writes the file it is given; no other call
    used by the notebooks is documented to write files. *)
Class Interface (E : Type -> Type) : Type :=
  { stages : forall X, E X -> list Stage;
    written : forall X, E X -> option Written }.

Arguments stages {E _ X} c.
Arguments written {E _ X} c.

Definition cv_stages {Obj X} (c : FaceDetection.cvE Obj X) : list Stage :=
  match c with
  | FaceDetection.CascadeClassifier _ => [BuildModel]
  | FaceDetection.VideoCapture _
  | FaceDetection.VideoCapture_read _ => [LoadData]
  | FaceDetection.cvtColor _ _
  | FaceDetection.detectMultiScale _ _ _ _ _ => [TrainOrRun]
  | FaceDetection.rectangle _ _ _ _ _
  | FaceDetection.imshow _ _ => [ShowResults]
  | _ => []
  end.

Definition cv_written {Obj X} (c : FaceDetection.cvE Obj X)
  : option Written :=
  match c with
  | FaceDetection.pip_install name => Some (package name)
  | _ => None
  end.

#[export] Instance cv_interface Obj : Interface (FaceDetection.cvE Obj) :=
  {| stages := @cv_stages Obj; written := @cv_written Obj |}.

Definition tf_stages {Obj X} (c : TF.tfE Obj X) : list Stage :=
  match c with
  | TF.fashion_mnist_load_data => [LoadData]
  | TF.Conv2D _ | TF.Conv2DTranspose _ _ _ _ | TF.BatchNormalization
  | TF.Activation _ | TF.LeakyReLU _ | TF.MaxPooling2D _ _ _
  | TF.Dropout _ | TF.Dense _ _ _ | TF.Flatten | TF.GlobalAvgPool2D
  | TF.ZeroPadding2D _ | TF.UpSampling2D _ | TF.Cropping2D _
  | TF.Reshape _ | TF.Input _ | TF.concatenate _ | TF.Model _ _ _
  | TF.Sequential _ | TF.Sequential_add _ _ | TF.ResNet101 _ _ _
  | TF.new_instance _ | TF.Model_init _ | TF.Classifier_init _
  | TF.Model_compile _ | TF.compile _ _ _ _ | TF.Adam _ _ _ => [BuildModel]
  | TF.apply _ _ _ => [BuildModel; TrainOrRun]
  | TF.fit _ _ _ _ _ | TF.relu _ | TF.add _ _ | TF.gradient _ _ _
  | TF.apply_gradients _ _ => [TrainOrRun]
  | TF.layer_summary _ _ => [TrainOrRun; ShowResults]
  | TF.summary _ | TF.print _ | TF.cell_output _ | TF.display _
  | TF.img_save _ _ => [ShowResults]
  | _ => []
  end.

Definition tf_written {Obj X} (c : TF.tfE Obj X) : option Written :=
  match c with
  | TF.fashion_mnist_load_data => Some (dataset_cache "fashion-mnist")
  | TF.img_save _ filename => Some (image_file filename)
  | _ => None
  end.

#[export] Instance tf_interface Obj : Interface (TF.tfE Obj) :=
  {| stages := @tf_stages Obj; written := @tf_written Obj |}.

Definition sk_stages {Obj X} (c : Baseline.skE Obj X) : list Stage :=
  match c with
  | Baseline.load_breast_cancer | Baseline.Bunch_data _
  | Baseline.Bunch_target _ | Baseline.train_test_split _ _ _ _ => [LoadData]
  | Baseline.DummyClassifier _ _ => [BuildModel]
  | Baseline.fit _ _ _ | Baseline.predict _ _
  | Baseline.accuracy_score _ _
  | Baseline.classification_report _ _ => [TrainOrRun]
  | Baseline.print _ | Baseline.cell_output _ => [ShowResults]
  end.

#[export] Instance sk_interface Obj : Interface (Baseline.skE Obj) :=
  {| stages := @sk_stages Obj; written := fun _ _ => None |}.

Section Observations.
Context {E : Type -> Type} `{Interface E}.

Definition ev_stages (ev : Ev E) : list Stage :=
  match ev with
  | returned c _ => stages c
  | failed c _ => stages c
  end.

Definition counts_for (st : Stage) (ev : Ev E) : bool :=
  existsb (Stage_eqb st) (ev_stages ev).

(** [follows steps tr]: the trace has, in this order, one event for each
    of the steps. *)
Fixpoint follows (steps : list Stage) (tr : list (Ev E)) : bool :=
  match steps, tr with
  | [], _ => true
  | _ :: _, [] => false
  | st :: steps', ev :: tr' =>
      if counts_for st ev then follows steps' tr' else follows steps tr'
  end.

Definition ev_written (ev : Ev E) : option Written :=
  match ev with
  | returned c _ => written c
  | failed c _ => written c
  end.

(** The persistent data written by the calls of a trace, in order. *)
Fixpoint writes (tr : list (Ev E)) : list Written :=
  match tr with
  | [] => []
  | ev :: tr' =>
      match ev_written ev with
      | Some w => w :: writes tr'
      | None => writes tr'
      end
  end.

End Observations.

Definition pipeline : list Stage :=
  [LoadData; BuildModel; TrainOrRun; ShowResults].

(** A static view of a program: every call it can ever make satisfies
    [P], whatever the library answers. *)
Inductive all_calls {E : Type -> Type} (P : forall X, E X -> Prop)
  : forall A, Prog E A -> Prop :=
| all_calls_Ret : forall A (a : A), all_calls P (Ret a)
| all_calls_Raise : forall A (e : Exn), all_calls P (@Raise E A e)
| all_calls_Call : forall A X (c : E X) (k : X -> Prog E A),
    P X c -> (forall x, all_calls P (k x)) -> all_calls P (Call c k).

(** ** Libraries to run the notebooks against *)

Module Stub.
Import TF.

(** A library object [d] for every answer; [gradient] answers with one
    gradient per source, as TensorFlow does. *)
Definition tf_answer {Obj} (d : Obj) {X} (c : tfE Obj X) : X :=
  match c in tfE _ X return X with
  | Conv2D _ | Conv2DTranspose _ _ _ _ | BatchNormalization
  | Activation _ | LeakyReLU _ | MaxPooling2D _ _ _ | Dropout _
  | Dense _ _ _ | Flatten | GlobalAvgPool2D | ZeroPadding2D _
  | UpSampling2D _ | Cropping2D _ | Reshape _ | Input _
  | concatenate _ | apply _ _ _ | relu _ | Model _ _ _
  | new_instance _ | Sequential _ | ResNet101 _ _ _ | Adam _ _ _
  | fit _ _ _ _ _ | random_normal _ _ _ | random_uniform _ _ _
  | tf_shape _ | shape_attr _ | getitem _ _ | add _ _ | sub _ _
  | mul _ _ | div _ _ | pow _ _ | neg _ | square _ | sqrt _
  | reduce_sum _ _ | reduce_mean _ | GradientTape | reshape _ _
  | astype _ _ | numpy _ | array_to_img _ | IPython_Image _ _ => d
  | Model_init _ | Model_compile _ | compile _ _ _ _
  | Sequential_add _ _ | summary _ | set_trainable _ _
  | Classifier_init _ | save_hyperparameters _ | layer_summary _ _
  | watch _ _ | apply_gradients _ _ | img_save _ _ | print _
  | cell_output _ | display _ => tt
  | layers_of _ | trainable_variables _ => [d]
  | gradient _ _ sources => map (fun _ => d) sources
  | fashion_mnist_load_data => ((d, d), (d, d))
  | len _ => 60000
  | ndarray_shape _ => [60000; 28; 28]
  end.

Definition tf_silent : TotalLibrary (tfE unit) unit :=
  fun X c s => (tf_answer tt c, s).

Definition cv_answer {Obj} (d : Obj) {X} (c : FaceDetection.cvE Obj X)
  : X :=
  match c in FaceDetection.cvE _ X return X with
  | FaceDetection.pip_install _ | FaceDetection.rectangle _ _ _ _ _
  | FaceDetection.imshow _ _ | FaceDetection.VideoCapture_release _
  | FaceDetection.destroyAllWindows => tt
  | FaceDetection.data_haarcascades => "/usr/share/opencv/haarcascades/"
  | FaceDetection.CascadeClassifier _ | FaceDetection.VideoCapture _
  | FaceDetection.cvtColor _ _ => d
  | FaceDetection.detectMultiScale _ _ _ _ _ => []
  | FaceDetection.VideoCapture_read _ => (false, d)
  | FaceDetection.waitKey _ => -1
  end.

(** A camera that delivers no frame. *)
Definition cv_silent : TotalLibrary (FaceDetection.cvE unit) unit :=
  fun X c s => (cv_answer tt c, s).

(** A camera that delivers the frames [1, 2, ...] (the state counts
    them), a classifier that finds two faces in every frame, and a user
    who presses [q] on the second frame. *)
Definition cv_two_faces : TotalLibrary (FaceDetection.cvE nat) nat :=
  fun X c =>
    match c in FaceDetection.cvE _ X return nat -> X * nat with
    | FaceDetection.VideoCapture_read _ =>
        fun n => ((true, S n), S n)
    | FaceDetection.detectMultiScale _ _ _ _ _ =>
        fun n => ([(10, 20, 30, 40); (100, 50, 60, 60)], n)
    | FaceDetection.waitKey _ =>
        fun n => (if Nat.leb 2 n then 113 else -1, n)
    | c' => fun n => (cv_answer O c', n)
    end.

Definition sk_answer {Obj} (d : Obj) {X} (c : Baseline.skE Obj X) : X :=
  match c in Baseline.skE _ X return X with
  | Baseline.train_test_split _ _ _ _ => (d, d, d, d)
  | Baseline.print _ | Baseline.cell_output _ => tt
  | Baseline.load_breast_cancer | Baseline.Bunch_data _
  | Baseline.Bunch_target _ | Baseline.DummyClassifier _ _
  | Baseline.fit _ _ _ | Baseline.predict _ _
  | Baseline.accuracy_score _ _
  | Baseline.classification_report _ _ => d
  end.

End Stub.

(** The shapes Keras computes, for the layers of a residual block (after
    the Keras documentation of [Conv2D], [BatchNormalization] and of
    broadcasting). *)
Module Shapes.
Import TF.

Inductive KObj : Type :=
| tensor_of (dims : list Z)
| conv2d_layer (a : Conv2D_args)
| shape_preserving_layer
| opaque.

Definition pair_of (d : IntOrPair) : Z * Z :=
  match d with
  | int n => (n, n)
  | pair2 a b => (a, b)
  end.

Definition InvalidArgumentError (msg : string) : Exn :=
  LibraryError "InvalidArgumentError" msg.
Definition ValueError (msg : string) : Exn := LibraryError "ValueError" msg.

(** One spatial dimension of a convolution's output. *)
Definition conv_dim (p : Padding) (k s n : Z) : option Z :=
  if s <=? 0 then None
  else match p with
       | same => Some ((n + s - 1) / s)
       | valid => if n <? k then None else Some ((n - k) / s + 1)
       end.

Definition conv2d_shape (a : Conv2D_args) (dims : list Z)
  : option (list Z) :=
  match dims with
  | [b; h; w; _] =>
      let k := pair_of (kernel_size a) in
      let s := match strides a with Some s => pair_of s | None => (1, 1) end in
      let p := match padding a with Some p => p | None => valid end in
      match conv_dim p (fst k) (fst s) h, conv_dim p (snd k) (snd s) w with
      | Some h', Some w' => Some [b; h'; w'; filters a]
      | _, _ => None
      end
  | _ => None
  end.

(** Broadcasting of two shapes of the same rank. *)
Fixpoint broadcast (xs ys : list Z) : option (list Z) :=
  match xs, ys with
  | [], [] => Some []
  | x :: xs', y :: ys' =>
      match broadcast xs' ys' with
      | Some r =>
          if x =? y then Some (x :: r)
          else if x =? 1 then Some (y :: r)
          else if y =? 1 then Some (x :: r)
          else None
      | None => None
      end
  | _, _ => None
  end.

Definition static_dim (d : Dim KObj) : Z :=
  match d with
  | DimK n => n
  | DimT _ => 0
  end.

Definition keras : Library (tfE KObj) unit :=
  fun X c s =>
    match c in tfE _ X return (Exn + X) * unit with
    | Conv2D a => (inr (conv2d_layer a), s)
    | BatchNormalization => (inr shape_preserving_layer, s)
    | apply layer x _ =>
        match layer, x with
        | conv2d_layer a, tensor_of dims =>
            match conv2d_shape a dims with
            | Some out => (inr (tensor_of out), s)
            | None => (inl (ValueError "Conv2D: incompatible input"), s)
            end
        | shape_preserving_layer, _ => (inr x, s)
        | _, _ => (inr opaque, s)
        end
    | relu x => (inr x, s)
    | shape_attr x => (inr x, s)
    | random_normal shape _ _ => (inr (tensor_of (map static_dim shape)), s)
    | add (T (tensor_of xs)) (T (tensor_of ys)) =>
        match broadcast xs ys with
        | Some r => (inr (tensor_of r), s)
        | None => (inl (InvalidArgumentError "Incompatible shapes"), s)
        end
    | c' => (inr (Stub.tf_answer opaque c'), s)
    end.

End Shapes.

(** Element-wise arithmetic on arrays, over a number type. *)
Module Arrays.
Import TF.

Section Elementwise.
Variable F : Type.
Variable of_Q : Q -> F.
Variables fadd fsub fmul fdiv : F -> F -> F.

Definition arith (op : F -> F -> F) (a b : Operand (list F)) : list F :=
  match a, b with
  | T x, K c => map (fun v => op v (of_Q c)) x
  | K c, T x => map (fun v => op (of_Q c) v) x
  | T x, T y => map (fun p => op (fst p) (snd p)) (combine x y)
  | K c, K c' => [op (of_Q c) (of_Q c')]
  end.

Definition elementwise : TotalLibrary (tfE (list F)) unit :=
  fun X c s =>
    (match c in tfE _ X return X with
     | add a b => arith fadd a b
     | sub a b => arith fsub a b
     | mul a b => arith fmul a b
     | div a b => arith fdiv a b
     | c' => Stub.tf_answer [] c'
     end, s).
End Elementwise.

(** IEEE 754 binary32, the dtype of the training images and of the
    generator's output. *)
Definition prec : Z := 24.
Definition emax : Z := 128.
Definition float32 : Type := spec_float.

Definition f32_of_Z (n : Z) : float32 := binary_normalize prec emax n 0 false.
Definition f32_of_Q (q : Q) : float32 :=
  SFdiv prec emax (f32_of_Z (Qnum q)) (f32_of_Z (Zpos (Qden q))).

Definition numpy_float32 : TotalLibrary (tfE (list float32)) unit :=
  elementwise f32_of_Q (SFadd prec emax) (SFsub prec emax)
    (SFmul prec emax) (SFdiv prec emax).

(** The same arithmetic without rounding. *)
Definition exact : TotalLibrary (tfE (list Q)) unit :=
  elementwise (fun q => q) Qplus Qminus Qmult Qdiv.

(** The pixel values of an 8-bit image. *)
Definition pixel (v : Z) : Prop := 0 <= v <= 255.

End Arrays.

(** A discriminator to differentiate by hand: [D(x) = |x|^2 / 2] for each
    sample, whose gradient at [x] is [x].  Tensors are batches of flattened
    samples with exact rational entries; the state is the sequence of
    standard-normal draws that [tf.random.normal] will deliver. *)
Module Critic.
Import TF.

Definition QT : Type := list (list Q).

Definition scalar (q : Q) : QT := [[q]].

Definition row_op (op : Q -> Q -> Q) (r1 r2 : list Q) : list Q :=
  match r1, r2 with
  | [a], _ => map (fun y => Qred (op a y)) r2
  | _, [b] => map (fun x => Qred (op x b)) r1
  | _, _ => map (fun p => Qred (op (fst p) (snd p))) (combine r1 r2)
  end.

Definition tensor_op (op : Q -> Q -> Q) (x y : QT) : QT :=
  match x, y with
  | [r], _ => map (fun r2 => row_op op r r2) y
  | _, [r] => map (fun r1 => row_op op r1 r) x
  | _, _ => map (fun p => row_op op (fst p) (snd p)) (combine x y)
  end.

Definition operand (a : Operand QT) : QT :=
  match a with
  | T x => x
  | K c => scalar c
  end.

Definition Qsum (r : list Q) : Q := Qred (fold_right Qplus 0%Q r).

(** The square root of a rational square. *)
Definition Qsqrt (q : Q) : Q :=
  Qmake (Z.sqrt (Qnum (Qred q))) (Pos.sqrt (Qden (Qred q))).

Definition entries (d : Dim QT) : nat :=
  match d with
  | DimK n => Z.to_nat n
  | DimT [[q]] => Z.to_nat (Qnum q / Zpos (Qden q))
  | DimT _ => O
  end.

Fixpoint rows (n len : nat) (draws : list Q) : QT :=
  match n with
  | O => []
  | S n' => firstn len draws :: rows n' len (skipn len draws)
  end.

Definition critic : TotalLibrary (tfE QT) (list Q) :=
  fun X c =>
    match c in tfE _ X return list Q -> X * list Q with
    | random_normal shape mean stddev =>
        fun draws =>
          let m := match mean with Some m => m | None => 0%Q end in
          let sd := match stddev with Some sd => sd | None => 1%Q end in
          let n := match shape with d :: _ => entries d | [] => 1%nat end in
          let len := fold_right Nat.mul 1%nat (map entries (tl shape)) in
          (rows n len (map (fun z => Qred (m + sd * z)) draws),
           skipn (n * len) draws)
    | add a b => fun s => (tensor_op Qplus (operand a) (operand b), s)
    | sub a b => fun s => (tensor_op Qminus (operand a) (operand b), s)
    | mul a b => fun s => (tensor_op Qmult (operand a) (operand b), s)
    | pow a (K c) =>
        fun s => (if Qeq_bool c 2
                  then tensor_op Qmult (operand a) (operand a)
                  else operand a, s)
    | square x => fun s => (tensor_op Qmult x x, s)
    | reduce_sum x _ => fun s => (map (fun r => [Qsum r]) x, s)
    | sqrt x => fun s => (map (map Qsqrt) x, s)
    | reduce_mean x =>
        fun s => (scalar (Qred (Qsum (List.concat x)
                                / inject_Z (Z.of_nat
                                     (List.length (List.concat x))))), s)
    | apply _ x _ =>
        fun s => (map (fun r => [Qred (Qsum (map (fun v => v * v) r) / 2)])
                    x, s)
    | gradient _ _ sources => fun s => (sources, s)
    | c' => fun s => (Stub.tf_answer [] c', s)
    end%Q.

End Critic.

(** ** The published algorithms, as the specification words them *)

Module Published.
Import TF WGANGP.

Section WithObj.
Variable Obj : Type.
Let Ev := Ev (tfE Obj).

(** The gradient penalty of the published WGAN-GP training loop: the
    interpolation coefficient is uniform on [0, 1]. *)
Definition gradient_penalty (w : WGAN Obj)
  (batch_size real_images fake_images : Obj) : Prog (tfE Obj) Obj :=
  alpha <- call (random_uniform
                   [DimT batch_size; DimK 1; DimK 1; DimK 1]
                   (Some 0%Q) (Some 1%Q)) ;;
  diff <- call (sub (T fake_images) (T real_images)) ;;
  scaled <- call (mul (T alpha) (T diff)) ;;
  interpolated <- call (add (T real_images) (T scaled)) ;;
  gp_tape <- call GradientTape ;;
  call (watch gp_tape interpolated) ;;;
  pred <- call (apply (discriminator w) interpolated (Some true)) ;;
  gs <- call (gradient gp_tape pred [interpolated]) ;;
  grads <- first gs ;;
  sq <- call (square grads) ;;
  total <- call (reduce_sum sq [1; 2; 3]) ;;
  norm <- call (sqrt total) ;;
  dev <- call (sub (T norm) (K 1%Q)) ;;
  dev2 <- call (pow (T dev) (K 2%Q)) ;;
  call (reduce_mean dev2).

(** The library's answers during one gradient-penalty computation. *)
Record PenaltyAnswers : Type := mkPenalty
  { alpha : Obj; diff : Obj; scaled : Obj; interpolated : Obj;
    gp_tape : Obj; pred : Obj; grads : Obj; sq : Obj; total : Obj;
    norm : Obj; dev : Obj; dev2 : Obj; gp : Obj }.

(** The calls of one gradient-penalty computation as the code makes
    them (with [tf.random.normal]). *)
Definition penalty_calls (w : WGAN Obj) (batch_size real fake : Obj)
  (a : PenaltyAnswers) : list Ev :=
  [ returned (random_normal [DimT batch_size; DimK 1; DimK 1; DimK 1]
                (Some 0%Q) (Some 1%Q)) (alpha a);
    returned (sub (T fake) (T real)) (diff a);
    returned (mul (T (alpha a)) (T (diff a))) (scaled a);
    returned (add (T real) (T (scaled a))) (interpolated a);
    returned GradientTape (gp_tape a);
    returned (watch (gp_tape a) (interpolated a)) tt;
    returned (apply (discriminator w) (interpolated a) (Some true))
      (pred a);
    returned (gradient (gp_tape a) (pred a) [interpolated a]) [grads a];
    returned (square (grads a)) (sq a);
    returned (reduce_sum (sq a) [1; 2; 3]) (total a);
    returned (sqrt (total a)) (norm a);
    returned (sub (T (norm a)) (K 1%Q)) (dev a);
    returned (pow (T (dev a)) (K 2%Q)) (dev2 a);
    returned (reduce_mean (dev2 a)) (gp a) ].

(** The library's answers during one discriminator update. *)
Record DiscriminatorAnswers : Type := mkDiscriminatorAnswers
  { d_noise : Obj; d_tape : Obj; fake_images : Obj; fake_logits : Obj;
    real_logits : Obj; real_loss : Obj; fake_loss : Obj; d_cost : Obj;
    penalty : PenaltyAnswers; weighted : Obj; d_loss : Obj;
    d_vars : list Obj; d_gradient : list Obj; d_vars' : list Obj }.

(** One discriminator update: forward passes of generator and
    discriminator, [d_loss = d_loss_fn(real_logits, fake_logits)
    + gradient_penalty * gp_weight], differentiation of [d_loss], one
    step of the discriminator's optimizer. *)
Definition discriminator_update (c : Compiled Obj)
  (batch_size real : Obj) (a : DiscriminatorAnswers) : list Ev :=
  let w := wgan c in
  [ returned (random_normal [DimT batch_size; DimK (latent_dim w)]
                None None) (d_noise a);
    returned GradientTape (d_tape a);
    returned (apply (generator w) (d_noise a) (Some true))
      (fake_images a);
    returned (apply (discriminator w) (fake_images a) (Some true))
      (fake_logits a);
    returned (apply (discriminator w) real (Some true)) (real_logits a);
    returned (reduce_mean (real_logits a)) (real_loss a);
    returned (reduce_mean (fake_logits a)) (fake_loss a);
    returned (sub (T (fake_loss a)) (T (real_loss a))) (d_cost a) ]
  ++ penalty_calls w batch_size real (fake_images a) (penalty a)
  ++ [ returned (mul (T (gp (penalty a))) (K (gp_weight w))) (weighted a);
       returned (add (T (d_cost a)) (T (weighted a))) (d_loss a);
       returned (trainable_variables (discriminator w)) (d_vars a);
       returned (gradient (d_tape a) (d_loss a) (d_vars a))
         (d_gradient a);
       returned (trainable_variables (discriminator w)) (d_vars' a);
       returned (apply_gradients (d_optimizer c)
                   (combine (d_gradient a) (d_vars' a))) tt ].

(** The library's answers during the generator update. *)
Record GeneratorAnswers : Type := mkGeneratorAnswers
  { g_noise : Obj; g_tape : Obj; generated_images : Obj;
    gen_img_logits : Obj; mean_logit : Obj; g_loss : Obj;
    g_vars : list Obj; gen_gradient : list Obj; g_vars' : list Obj }.

(** The generator update: [g_loss = g_loss_fn(discriminator(
    generator(noise)))], differentiation, one step of the generator's
    optimizer. *)
Definition generator_update (c : Compiled Obj) (batch_size : Obj)
  (a : GeneratorAnswers) : list Ev :=
  let w := wgan c in
  [ returned (random_normal [DimT batch_size; DimK (latent_dim w)]
                None None) (g_noise a);
    returned GradientTape (g_tape a);
    returned (apply (generator w) (g_noise a) (Some true))
      (generated_images a);
    returned (apply (discriminator w) (generated_images a) (Some true))
      (gen_img_logits a);
    returned (reduce_mean (gen_img_logits a)) (mean_logit a);
    returned (neg (mean_logit a)) (g_loss a);
    returned (trainable_variables (generator w)) (g_vars a);
    returned (gradient (g_tape a) (g_loss a) (g_vars a))
      (gen_gradient a);
    returned (trainable_variables (generator w)) (g_vars' a);
    returned (apply_gradients (g_optimizer c)
                (combine (gen_gradient a) (g_vars' a))) tt ].

(** The batch that [train_step] works on. *)
Definition batch_of (data : Data Obj) : option Obj :=
  match data with
  | tensor x => Some x
  | tuple xs => hd_error xs
  end.

(** The calls that save image [i] at the end of [epoch]. *)
Definition save_calls (generated : Obj) (epoch : Z)
  (ia : Z * (Obj * Obj * Obj)) : list Ev :=
  let '(i, (row, array, img)) := ia in
  [ returned (getitem generated i) row;
    returned (numpy row) array;
    returned (array_to_img array) img;
    returned (img_save img (generated_img i epoch)) tt ].

End WithObj.

(** TensorFlow's [gradient] answers with one gradient per source. *)
Definition gradient_arity {Obj S} (lib : TotalLibrary (tfE Obj) S) : Prop :=
  forall s tape target sources,
    List.length (fst (lib _ (gradient tape target sources) s))
    = List.length sources.

End Published.

(** ** The operations of the repository *)

(** No failed call is followed by anything, and the exception of a failed
    call is the outcome. *)
Definition propagates {E S A} (r : Outcome A * S * list (Ev E)) : Prop :=
  forall before ev after e,
    trace r = before ++ ev :: after ->
    raised_by ev = Some e ->
    after = [] /\ outcome r = Raised e.

(** Every function and loop body of the three TensorFlow notebooks. *)
Inductive tf_operation {Obj : Type} : forall A, Prog (TF.tfE Obj) A -> Prop :=
| op_conv2d_block x n k : tf_operation (UNet.conv2d_block x n k)
| op_encoder_block x n p d : tf_operation (UNet.encoder_block x n p d)
| op_encoder x : tf_operation (UNet.encoder x)
| op_bottleneck x : tf_operation (UNet.bottleneck x)
| op_decoder_block x y n k s d : tf_operation (UNet.decoder_block x y n k s d)
| op_decoder x convs n : tf_operation (UNet.decoder x convs n)
| op_unet : tf_operation UNet.unet
| op_unet_notebook : tf_operation (UNet.notebook Obj)
| op_Residual_init self n u s : tf_operation (ResNet.Residual_init self n u s)
| op_Residual_call blk X : tf_operation (ResNet.Residual_call blk X)
| op_b1 : tf_operation ResNet.b1
| op_block n c f : tf_operation (ResNet.block n c f)
| op_ResNet_init self arch lr n : tf_operation (ResNet.ResNet_init self arch lr n)
| op_ResNet18_init self lr n : tf_operation (ResNet.ResNet18_init self lr n)
| op_createResNetModel : tf_operation ResNet.createResNetModel
| op_resnet_notebook : tf_operation (ResNet.notebook Obj)
| op_conv_block x f a k s p ub bn dr dv :
    tf_operation (WGANGP.conv_block x f a k s p ub bn dr dv)
| op_get_discriminator_model : tf_operation WGANGP.get_discriminator_model
| op_upsample_block x f a k s u p bn ub dr dv :
    tf_operation (WGANGP.upsample_block x f a k s u p bn ub dr dv)
| op_get_generator_model : tf_operation WGANGP.get_generator_model
| op_WGAN_init self d g l n w : tf_operation (WGANGP.WGAN_init self d g l n w)
| op_WGAN_compile w d g dl gl : tf_operation (WGANGP.WGAN_compile w d g dl gl)
| op_gradient_penalty w b r f : tf_operation (WGANGP.gradient_penalty w b r f)
| op_discriminator_step c b r : tf_operation (WGANGP.discriminator_step c b r)
| op_train_step c data : tf_operation (WGANGP.train_step c data)
| op_save_image g e i : tf_operation (WGANGP.save_image g e i)
| op_on_epoch_end m w e : tf_operation (WGANGP.on_epoch_end m w e)
| op_discriminator_loss r f : tf_operation (WGANGP.discriminator_loss r f)
| op_generator_loss f : tf_operation (WGANGP.generator_loss f)
| op_wgan_notebook : tf_operation (WGANGP.notebook Obj).

(** Every function and loop body of the OpenCV notebook. *)
Inductive cv_operation {Obj : Type}
  : forall A, Prog (FaceDetection.cvE Obj) A -> Prop :=
| op_detect_bounding_box clf vid :
    cv_operation (FaceDetection.detect_bounding_box clf vid)
| op_loop_body clf cap : cv_operation (FaceDetection.loop_body clf cap)
| op_face_notebook fuel : cv_operation (FaceDetection.notebook Obj fuel).

(** The scikit-learn notebook defines no function: its cells are its only
    operation. *)
Inductive sk_operation {Obj : Type}
  : forall A, Prog (Baseline.skE Obj) A -> Prop :=
| op_baseline_notebook : sk_operation (Baseline.notebook Obj).

(** Calls that neither load a dataset nor write persistent data. *)
Definition plain {E} `{Interface E} X (c : E X) : Prop :=
  written c = None /\ existsb (Stage_eqb LoadData) (stages c) = false.

(** Calls that neither build a model nor write persistent data. *)
Definition builds_nothing {E} `{Interface E} X (c : E X) : Prop :=
  written c = None /\ existsb (Stage_eqb BuildModel) (stages c) = false.

Definition ev_satisfies {E} (P : forall X, E X -> Prop) (ev : Ev E) : Prop :=
  match ev with
  | returned c _ => P _ c
  | failed c _ => P _ c
  end.

(** The rates of the dropout layers constructed along a trace. *)
Definition dropout_rates {Obj} (tr : list (Ev (TF.tfE Obj))) : list Q :=
  flat_map (fun ev =>
              match ev with
              | returned (TF.Dropout rate) _ => [rate]
              | failed (TF.Dropout rate) _ => [rate]
              | _ => []
              end) tr.

(** Equality of two binary32 numbers, bit for bit. *)
Definition float32_eqb (a b : Arrays.float32) : bool :=
  match a, b with
  | S754_zero s1, S754_zero s2 => Bool.eqb s1 s2
  | S754_infinity s1, S754_infinity s2 => Bool.eqb s1 s2
  | S754_nan, S754_nan => true
  | S754_finite s1 m1 e1, S754_finite s2 m2 e2 =>
      Bool.eqb s1 s2 && Pos.eqb m1 m2 && Z.eqb e1 e2
  | _, _ => false
  end.

(** What the notebook's two statements do to one pixel, in binary32. *)
Definition round_trip_float32 (v : Arrays.float32) : Arrays.float32 :=
  let c := Arrays.f32_of_Q (1275 # 10) in
  SFadd Arrays.prec Arrays.emax
    (SFmul Arrays.prec Arrays.emax
       (SFdiv Arrays.prec Arrays.emax
          (SFsub Arrays.prec Arrays.emax v c) c) c) c.

(** The value of the local variable [d_loss] of [train_step] after the
    discriminator updates [ds]. *)
Definition bound_d_loss {Obj} (d0 : option Obj)
  (ds : list (Published.DiscriminatorAnswers Obj)) : option Obj :=
  fold_left (fun _ a => Some (Published.d_loss a)) ds d0.

(** The optimizer steps of a trace: for each [apply_gradients], the
    optimizer it was called on. *)
Definition optimizer_steps {Obj} (tr : list (Ev (TF.tfE Obj))) : list Obj :=
  flat_map (fun ev =>
              match ev with
              | returned (TF.apply_gradients optimizer _) _ => [optimizer]
              | failed (TF.apply_gradients optimizer _) _ => [optimizer]
              | _ => []
              end) tr.

(** A library whose objects are their names: a constructed or computed
    object is called [obj], the ones the notebook passes in keep their own
    names. *)
Definition tf_named : TotalLibrary (TF.tfE string) unit :=
  fun X c s => (Stub.tf_answer "obj" c, s).

(** Calls that write no persistent data. *)
Definition writes_nothing {E} `{Interface E} X (c : E X) : Prop :=
  written c = None.

(** ** Views of a trace *)

(** What the calls of a trace show through [f], in order, whether they
    returned or raised. *)
Definition view {E : Type -> Type} {B : Type} (f : forall X, E X -> list B)
  (tr : list (Ev E)) : list B :=
  flat_map (fun ev =>
              match ev with
              | returned c _ => f _ c
              | failed c _ => f _ c
              end) tr.

(** The two calls that end the face-detection notebook. *)
Definition is_cleanup {Obj X} (c : FaceDetection.cvE Obj X) : bool :=
  match c with
  | FaceDetection.VideoCapture_release _
  | FaceDetection.destroyAllWindows => true
  | _ => false
  end.

Definition not_cleanup {Obj} X (c : FaceDetection.cvE Obj X) : Prop :=
  is_cleanup c = false.

(** The capture devices released along a trace. *)
Definition released {Obj} (tr : list (Ev (FaceDetection.cvE Obj)))
  : list Obj :=
  view (fun X c =>
          match c with
          | FaceDetection.VideoCapture_release cap => [cap]
          | _ => []
          end) tr.

(** The frames shown in a window along a trace. *)
Definition shown {Obj} (tr : list (Ev (FaceDetection.cvE Obj))) : list Obj :=
  view (fun X c =>
          match c with
          | FaceDetection.imshow _ mat => [mat]
          | _ => []
          end) tr.

(** The frames that the camera delivered, and the frames that were
    converted to grayscale. *)
Definition frames_read {Obj} (tr : list (Ev (FaceDetection.cvE Obj)))
  : list Obj :=
  flat_map (fun ev =>
              match ev with
              | returned c x =>
                  match c in FaceDetection.cvE _ X return X -> list Obj with
                  | FaceDetection.VideoCapture_read _ =>
                      fun r => if fst r then [snd r] else []
                  | _ => fun _ => []
                  end x
              | failed _ _ => []
              end) tr.

Definition converted {Obj} (tr : list (Ev (FaceDetection.cvE Obj)))
  : list Obj :=
  view (fun X c =>
          match c with
          | FaceDetection.cvtColor src _ => [src]
          | _ => []
          end) tr.

(** The calls of one pass of the loop on a frame that was read. *)
Definition pass_calls {Obj} (face_classifier video_capture : Obj)
  (frame gray : Obj) (faces : list FaceDetection.Rect) (key : Z)
  : list (Ev (FaceDetection.cvE Obj)) :=
  returned (FaceDetection.VideoCapture_read video_capture) (true, frame)
  :: returned (FaceDetection.cvtColor frame FaceDetection.COLOR_BGR2GRAY) gray
  :: returned (FaceDetection.detectMultiScale face_classifier gray
                 (11 # 10) 5 (20, 20)) faces
  :: map (fun face => returned (FaceDetection.draw_box frame face) tt) faces
  ++ [ returned (FaceDetection.imshow "Face Detection Project" frame) tt;
       returned (FaceDetection.waitKey 1) key ].

(** Cameras and users for the face-detection notebook. *)
Module Cameras.
Import FaceDetection.

(** A camera that delivers a frame whenever it is asked, and a user who
    never presses a key. *)
Definition streaming : TotalLibrary (cvE nat) nat :=
  fun X c =>
    match c in cvE _ X return nat -> X * nat with
    | VideoCapture_read _ => fun n => ((true, S n), S n)
    | c' => fun n => (Stub.cv_answer O c', n)
    end.

(** A camera whose frames the colour conversion rejects. *)
Definition rejecting : Library (cvE unit) unit :=
  fun X c s =>
    match c in cvE _ X return (Exn + X) * unit with
    | VideoCapture_read _ => (inr (true, tt), s)
    | cvtColor _ _ => (inl (LibraryError "cv2.error" "!_src.empty()"), s)
    | c' => (inr (Stub.cv_answer tt c'), s)
    end.

End Cameras.

(** The data that the classifiers of a trace were fitted on. *)
Definition fitted_on {Obj} (tr : list (Ev (Baseline.skE Obj)))
  : list (Obj * Obj) :=
  view (fun X c =>
          match c with
          | Baseline.fit _ X_ y => [(X_, y)]
          | _ => []
          end) tr.

(** The data that predictions were made for. *)
Definition predicted_on {Obj} (tr : list (Ev (Baseline.skE Obj))) : list Obj :=
  view (fun X c =>
          match c with
          | Baseline.predict _ X_ => [X_]
          | _ => []
          end) tr.

(** The labels that predictions were compared with. *)
Definition scored_against {Obj} (tr : list (Ev (Baseline.skE Obj)))
  : list Obj :=
  view (fun X c =>
          match c with
          | Baseline.accuracy_score y_true _ => [y_true]
          | Baseline.classification_report y_true _ => [y_true]
          | _ => []
          end) tr.

(** The strategies and seeds of the classifiers constructed. *)
Definition classifiers {Obj} (tr : list (Ev (Baseline.skE Obj)))
  : list (string * Z) :=
  view (fun X c =>
          match c with
          | Baseline.DummyClassifier strategy random_state =>
              [(strategy, random_state)]
          | _ => []
          end) tr.

(** The classifier objects that were constructed, that were fitted, and
    that predictions were asked of. *)
Definition constructed {Obj} (tr : list (Ev (Baseline.skE Obj))) : list Obj :=
  flat_map (fun ev =>
              match ev with
              | returned c x =>
                  match c in Baseline.skE _ X return X -> list Obj with
                  | Baseline.DummyClassifier _ _ => fun clf => [clf]
                  | _ => fun _ => []
                  end x
              | failed _ _ => []
              end) tr.

Definition fitted {Obj} (tr : list (Ev (Baseline.skE Obj))) : list Obj :=
  view (fun X c =>
          match c with
          | Baseline.fit clf _ _ => [clf]
          | _ => []
          end) tr.

Definition predicting {Obj} (tr : list (Ev (Baseline.skE Obj))) : list Obj :=
  view (fun X c =>
          match c with
          | Baseline.predict clf _ => [clf]
          | _ => []
          end) tr.

(** The convolution layers constructed along a trace, in order. *)
Definition conv_layers {Obj} (tr : list (Ev (TF.tfE Obj)))
  : list TF.Conv2D_args :=
  view (fun X c =>
          match c with
          | TF.Conv2D a => [a]
          | _ => []
          end) tr.

(** The dense layers constructed: units, activation, use_bias. *)
Definition dense_layers {Obj} (tr : list (Ev (TF.tfE Obj)))
  : list (Z * option string * option bool) :=
  view (fun X c =>
          match c with
          | TF.Dense units activation_ use_bias_ =>
              [(units, activation_, use_bias_)]
          | _ => []
          end) tr.

(** The layers added to sequential models: (model, layer). *)
Definition added_to {Obj} (tr : list (Ev (TF.tfE Obj))) : list (Obj * Obj) :=
  view (fun X c =>
          match c with
          | TF.Sequential_add model layer => [(model, layer)]
          | _ => []
          end) tr.

(** The instance that a class call created, with its class. *)
Definition instance_of {Obj} (ev : Ev (TF.tfE Obj)) : list (string * Obj) :=
  match ev with
  | returned c x =>
      match c in TF.tfE _ X return X -> list (string * Obj) with
      | TF.new_instance class_name => fun o => [(class_name, o)]
      | _ => fun _ => []
      end x
  | failed _ _ => []
  end.

Definition instances {Obj} (tr : list (Ev (TF.tfE Obj)))
  : list (string * Obj) :=
  flat_map instance_of tr.

(** The convolutions that [Residual.__init__] constructs. *)
Definition residual_convs (num_channels : Z) (use_1x1conv : bool)
  (strides : TF.IntOrPair) : list TF.Conv2D_args :=
  [ TF.conv2d_args num_channels (TF.int 3) (Some strides) (Some TF.same)
      None None None;
    TF.conv2d_args num_channels (TF.int 3) None (Some TF.same)
      None None None ]
  ++ (if use_1x1conv
      then [ TF.conv2d_args num_channels (TF.int 1) (Some strides) None
               None None None ]
      else []).

(** The convolutions of a stage of residual blocks: its first block
    halves the resolution through a strided 1x1 convolution on the
    shortcut, unless the stage is the first one; the other blocks keep
    the resolution. *)
Definition stage_convs (num_residuals num_channels : Z) (first_block : bool)
  : list TF.Conv2D_args :=
  flat_map (fun i =>
              if Z.eqb i 0 && negb first_block
              then residual_convs num_channels true (TF.int 2)
              else residual_convs num_channels false (TF.int 1))
    (range num_residuals).

(** A 1x1 convolution (the shortcut of a residual block). *)
Definition is_1x1 (a : TF.Conv2D_args) : bool :=
  match TF.kernel_size a with
  | TF.int 1 => true
  | _ => false
  end.

(** The tensor a layer was applied to, and the tensor it answered
    with. *)
Definition input_of {Obj} (ev : Ev (TF.tfE Obj)) : list Obj :=
  match ev with
  | returned (TF.apply _ x _) _ => [x]
  | failed (TF.apply _ x _) _ => [x]
  | _ => []
  end.

Definition output_of {Obj} (ev : Ev (TF.tfE Obj)) : list Obj :=
  match ev with
  | returned c x =>
      match c in TF.tfE _ X return X -> list Obj with
      | TF.apply _ _ _ => fun o => [o]
      | _ => fun _ => []
      end x
  | failed _ _ => []
  end.

(** [layers.L(...)(x)]: for every construction of a layer of the kind
    [kind], what [pick] shows of the call that follows it. *)
Fixpoint applied_at_once {Obj} (kind : forall X, TF.tfE Obj X -> bool)
  (pick : Ev (TF.tfE Obj) -> list Obj) (tr : list (Ev (TF.tfE Obj)))
  : list Obj :=
  match tr with
  | [] => []
  | ev :: rest =>
      (match ev, rest with
       | returned c _, next :: _ => if kind _ c then pick next else []
       | _, _ => []
       end) ++ applied_at_once kind pick rest
  end.

(** The tensors that were max-pooled. *)
Definition pooled {Obj} (tr : list (Ev (TF.tfE Obj))) : list Obj :=
  applied_at_once (fun X c => match c with
                              | TF.MaxPooling2D _ _ _ => true
                              | _ => false
                              end) input_of tr.

(** The outputs of the transposed convolutions. *)
Definition upsampled {Obj} (tr : list (Ev (TF.tfE Obj))) : list Obj :=
  applied_at_once (fun X c => match c with
                              | TF.Conv2DTranspose _ _ _ _ => true
                              | _ => false
                              end) output_of tr.

(** The lists of tensors that were concatenated. *)
Definition concatenated {Obj} (tr : list (Ev (TF.tfE Obj)))
  : list (list Obj) :=
  view (fun X c =>
          match c with
          | TF.concatenate inputs => [inputs]
          | _ => []
          end) tr.

(** The transposed convolutions constructed: filters, kernel size,
    strides, padding. *)
Definition transposed_layers {Obj} (tr : list (Ev (TF.tfE Obj)))
  : list (Z * TF.IntOrPair * TF.IntOrPair * TF.Padding) :=
  view (fun X c =>
          match c with
          | TF.Conv2DTranspose n_filters ksize strides_ padding_ =>
              [(n_filters, ksize, strides_, padding_)]
          | _ => []
          end) tr.

(** The forward passes of a trace: the layer or model that was applied,
    and the [training] flag it was given. *)
Definition forward_passes {Obj} (tr : list (Ev (TF.tfE Obj)))
  : list (Obj * option bool) :=
  view (fun X c =>
          match c with
          | TF.apply layer _ training => [(layer, training)]
          | _ => []
          end) tr.

(** The number of batch-normalization layers constructed. *)
Definition batch_norms {Obj} (tr : list (Ev (TF.tfE Obj))) : nat :=
  List.length (view (fun X c =>
                       match c with
                       | TF.BatchNormalization => [tt]
                       | _ => []
                       end) tr).

Definition not_batch_norm {Obj} X (c : TF.tfE Obj X) : Prop :=
  match c with
  | TF.BatchNormalization => False
  | _ => True
  end.

(** Whether the character [c] occurs in [s]. *)
Fixpoint occurs (c : Ascii.ascii) (s : string) : bool :=
  match s with
  | EmptyString => false
  | String a s' => Ascii.eqb a c || occurs c s'
  end.

(** [a <= b] on binary32 numbers. *)
Definition float32_leb (a b : Arrays.float32) : bool :=
  match SFcompare a b with
  | Some Lt | Some Eq => true
  | _ => false
  end.

(** [(v - 127.5) / 127.5] in binary32. *)
Definition normalize_float32 (v : Arrays.float32) : Arrays.float32 :=
  let c := Arrays.f32_of_Q (1275 # 10) in
  SFdiv Arrays.prec Arrays.emax (SFsub Arrays.prec Arrays.emax v c) c.

(** The shapes of the random tensors drawn by [tf.random.normal]. *)
Definition random_draws {Obj} (tr : list (Ev (TF.tfE Obj)))
  : list (list (TF.Dim Obj)) :=
  view (fun X c =>
          match c with
          | TF.random_normal shape _ _ => [shape]
          | _ => []
          end) tr.

(** The shapes Keras computes for the layers of the U-Net and of the two
    WGAN networks (after the Keras documentation of each layer; tensors
    are channels-last, and every model input has the batch size
    [batch]). *)
Module Layers.
Import TF.

Inductive Layer : Type :=
| conv2d (a : Conv2D_args)
| conv2d_transpose (n_filters : Z) (ksize strides_ : IntOrPair)
    (padding_ : Padding)
| max_pooling2d (pool_size : IntOrPair) (strides_ : option IntOrPair)
    (padding_ : option Padding)
| zero_padding2d (padding_ : Z * Z)
| up_sampling2d (size : Z * Z)
| cropping2d (cropping : Z * Z)
| reshape_to (target_shape : list Z)
| flatten
| dense (units : Z)
(* BatchNormalization, Activation, LeakyReLU, Dropout *)
| same_shape.

Inductive KObj : Type :=
| tensor_of (dims : list Z)
| layer_of (l : Layer)
| model_of (input output : list Z)
| opaque.

Definition product (dims : list Z) : Z := fold_right Z.mul 1 dims.

Fixpoint dims_eqb (xs ys : list Z) : bool :=
  match xs, ys with
  | [], [] => true
  | x :: xs', y :: ys' => (x =? y) && dims_eqb xs' ys'
  | _, _ => false
  end.

(** One spatial dimension of a transposed convolution's output. *)
Definition transpose_dim (p : Padding) (k s n : Z) : Z :=
  match p with
  | same => n * s
  | valid => n * s + Z.max (k - s) 0
  end.

(** One spatial dimension after cropping [c] entries on either side. *)
Definition crop_dim (c n : Z) : option Z :=
  if 0 <? n - 2 * c then Some (n - 2 * c) else None.

Definition layer_shape (l : Layer) (dims : list Z) : option (list Z) :=
  match l, dims with
  | conv2d a, _ => Shapes.conv2d_shape a dims
  | conv2d_transpose n k s p, [b; h; w; _] =>
      Some [b;
            transpose_dim p (fst (Shapes.pair_of k)) (fst (Shapes.pair_of s)) h;
            transpose_dim p (snd (Shapes.pair_of k)) (snd (Shapes.pair_of s)) w;
            n]
  | max_pooling2d pool st p, [b; h; w; c] =>
      let k := Shapes.pair_of pool in
      let s := match st with Some s => Shapes.pair_of s | None => k end in
      let p' := match p with Some p' => p' | None => valid end in
      match Shapes.conv_dim p' (fst k) (fst s) h,
            Shapes.conv_dim p' (snd k) (snd s) w with
      | Some h', Some w' => Some [b; h'; w'; c]
      | _, _ => None
      end
  | zero_padding2d (ph, pw), [b; h; w; c] =>
      Some [b; h + 2 * ph; w + 2 * pw; c]
  | up_sampling2d (sh, sw), [b; h; w; c] => Some [b; h * sh; w * sw; c]
  | cropping2d (ch, cw), [b; h; w; c] =>
      match crop_dim ch h, crop_dim cw w with
      | Some h', Some w' => Some [b; h'; w'; c]
      | _, _ => None
      end
  | reshape_to target, b :: rest =>
      if product rest =? product target then Some (b :: target) else None
  | flatten, b :: rest => Some [b; product rest]
  | dense units, [b; _] => Some [b; units]
  | same_shape, _ => Some dims
  | _, _ => None
  end.

(** Concatenation of two rank-4 tensors along the last axis. *)
Definition concat_shape (xs ys : list Z) : option (list Z) :=
  match xs, ys with
  | [b; h; w; c], [b'; h'; w'; c'] =>
      if (b =? b') && (h =? h') && (w =? w')
      then Some [b; h; w; c + c']
      else None
  | _, _ => None
  end.

Definition static_dim (d : Dim KObj) : Z :=
  match d with
  | DimK n => n
  | DimT _ => 0
  end.

Definition applied (l : Layer) (dims : list Z) : Exn + KObj :=
  match layer_shape l dims with
  | Some out => inr (tensor_of out)
  | None => inl (Shapes.ValueError "incompatible input")
  end.

Definition keras (batch : Z) : Library (tfE KObj) unit :=
  fun X c s =>
    match c in tfE _ X return (Exn + X) * unit with
    | Conv2D a => (inr (layer_of (conv2d a)), s)
    | Conv2DTranspose n k st p =>
        (inr (layer_of (conv2d_transpose n k st p)), s)
    | MaxPooling2D pool st p => (inr (layer_of (max_pooling2d pool st p)), s)
    | ZeroPadding2D p => (inr (layer_of (zero_padding2d p)), s)
    | UpSampling2D size => (inr (layer_of (up_sampling2d size)), s)
    | Cropping2D cropping => (inr (layer_of (cropping2d cropping)), s)
    | Reshape target => (inr (layer_of (reshape_to target)), s)
    | Flatten => (inr (layer_of flatten), s)
    | Dense units _ _ => (inr (layer_of (dense units)), s)
    | BatchNormalization | Activation _ | LeakyReLU _ | Dropout _ =>
        (inr (layer_of same_shape), s)
    | Input shape => (inr (tensor_of (batch :: shape)), s)
    | random_normal shape _ _ =>
        (inr (tensor_of (map static_dim shape)), s)
    | concatenate [tensor_of xs; tensor_of ys] =>
        match concat_shape xs ys with
        | Some out => (inr (tensor_of out), s)
        | None =>
            (inl (Shapes.ValueError
                    "A Concatenate layer requires inputs with matching shapes"),
             s)
        end
    | Model (tensor_of (_ :: input)) (tensor_of (_ :: output)) _ =>
        (inr (model_of input output), s)
    | apply (layer_of l) (tensor_of dims) _ => (applied l dims, s)
    | apply (model_of input output) (tensor_of (b :: dims)) _ =>
        if dims_eqb dims input
        then (inr (tensor_of (b :: output)), s)
        else (inl (Shapes.ValueError "incompatible input"), s)
    | c' => (inr (Stub.tf_answer opaque c'), s)
    end.

(** The shapes of the tensors that layers answered with, in order. *)
Definition output_shapes (tr : list (Ev (tfE KObj))) : list (list Z) :=
  flat_map (fun ev =>
              match ev with
              | returned c x =>
                  match c in tfE _ X return X -> list (list Z) with
                  | apply _ _ _ | concatenate _ =>
                      fun o => match o with
                               | tensor_of dims => [dims]
                               | _ => []
                               end
                  | _ => fun _ => []
                  end x
              | failed _ _ => []
              end) tr.

End Layers.

(** * Properties *)

(** ** Running programs *)

Section RunLemmas.
Context {E : Type -> Type}.

Lemma run_bind S A B (lib : Library E S) (p : Prog E A)
  (f : A -> Prog E B) (s : S) :
  run lib (bind p f) s =
  match outcome (run lib p s) with
  | Return a =>
      let r := run lib (f a) (final (run lib p s)) in
      (outcome r, final r, trace (run lib p s) ++ trace r)
  | Raised e => (Raised e, final (run lib p s), trace (run lib p s))
  end.
Proof.
  revert s. unfold outcome, final, trace.
  induction p as [a | e | X c k IH]; intros s; simpl.
  - destruct (run lib (f a) s) as [[o s'] tr]. reflexivity.
  - reflexivity.
  - destruct (lib X c s) as [[e | x] s']; simpl.
    + reflexivity.
    + rewrite IH.
      destruct (run lib (k x) s') as [[[a | e] s''] tr]; reflexivity.
Qed.

Lemma run_bind_returns S A B (lib : Library E S) (p : Prog E A)
  (f : A -> Prog E B) s a s1 tr1 :
  run lib p s = (Return a, s1, tr1) ->
  run lib (bind p f) s =
  (outcome (run lib (f a) s1), final (run lib (f a) s1),
   tr1 ++ trace (run lib (f a) s1)).
Proof. intros Hp. rewrite run_bind, Hp. reflexivity. Qed.

Lemma after_triple S A (tr : list (Ev E)) (o : Outcome A) (s : S) tr' :
  after tr (o, s, tr') = (o, s, tr ++ tr').
Proof. reflexivity. Qed.

Lemma run_Ret S A (lib : Library E S) (a : A) (s : S) :
  run lib (Ret a) s = (Return a, s, []).
Proof. reflexivity. Qed.

Lemma run_Raise S A (lib : Library E S) (e : Exn) (s : S) :
  run lib (@Raise E A e) s = (Raised e, s, []).
Proof. reflexivity. Qed.

Lemma run_call_after S A X (lib : TotalLibrary E S) (c : E X)
  (k : X -> Prog E A) (s : S) :
  run (lift lib) (Call c k) s =
  after [returned c (fst (lib X c s))]
    (run (lift lib) (k (fst (lib X c s))) (snd (lib X c s))).
Proof. reflexivity. Qed.

Lemma run_bind_after S A B (lib : Library E S) (p : Prog E A)
  (f : A -> Prog E B) s a s1 tr1 :
  run lib p s = (Return a, s1, tr1) ->
  run lib (bind p f) s = after tr1 (run lib (f a) s1).
Proof. intros Hp. rewrite run_bind, Hp. reflexivity. Qed.

Lemma run_call_lift S A X (lib : TotalLibrary E S) (c : E X)
  (k : X -> Prog E A) (s : S) :
  run (lift lib) (Call c k) s =
  (outcome (run (lift lib) (k (fst (lib X c s))) (snd (lib X c s))),
   final (run (lift lib) (k (fst (lib X c s))) (snd (lib X c s))),
   returned c (fst (lib X c s))
     :: trace (run (lift lib) (k (fst (lib X c s))) (snd (lib X c s)))).
Proof. reflexivity. Qed.

(** A loop whose body is one call that answers nothing. *)
Lemma run_for_each_calls S X (lib : TotalLibrary E S) (f : X -> E unit)
  (xs : list X) (s : S) :
  exists s',
    run (lift lib) (for_each xs (fun x => call (f x))) s =
    (Return tt, s', map (fun x => returned (f x) tt) xs).
Proof.
  revert s. induction xs as [| x xs IH]; intros s.
  - eexists. reflexivity.
  - destruct (IH (snd (lib unit (f x) s))) as [s' Hs'].
    exists s'. unfold call in *. simpl for_each. simpl bind.
    rewrite run_call_lift, Hs'.
    destruct (fst (lib unit (f x) s)). reflexivity.
Qed.

(** The exception of a failed call is the outcome, and the failed call
    is the last event. *)
Lemma failure_is_last S A (lib : Library E S) (p : Prog E A) (s : S) :
  propagates (run lib p s).
Proof.
  revert s. induction p as [a | e | X c k IH]; intros s before ev after e0.
  - simpl. destruct before; discriminate.
  - simpl. destruct before; discriminate.
  - simpl. destruct (lib X c s) as [[e | x] s'] eqn:Hc; simpl.
    + intros Htr Hev. destruct before as [| b before].
      * injection Htr as Hev' Hafter. subst ev. simpl in Hev.
        injection Hev as <-. split; [symmetry; exact Hafter | reflexivity].
      * destruct before; discriminate.
    + intros Htr Hev. destruct before as [| b before].
      * injection Htr as Hev' _. subst ev. discriminate.
      * injection Htr as _ Htr.
        exact (IH x s' before ev after e0 Htr Hev).
Qed.

(** Conversely, an exception that is the outcome was raised by the last
    call, or by a statement of the program itself. *)
Lemma raised_from S A (lib : Library E S) (p : Prog E A) (s : S) e :
  outcome (run lib p s) = Raised e ->
  (exists before X (c : E X),
      trace (run lib p s) = before ++ [failed c e])
  \/ forallb (fun ev => negb (is_failure ev)) (trace (run lib p s)) = true.
Proof.
  revert s. induction p as [a | e1 | X c k IH]; intros s; simpl.
  - discriminate.
  - intros _. right. reflexivity.
  - destruct (lib X c s) as [[e1 | x] s'] eqn:Hc; simpl.
    + intros [= <-]. left. exists [], X, c. reflexivity.
    + intros Hk. destruct (IH x s' Hk) as [(before & Y & c' & Htr) | Hall].
      * left. exists (returned c x :: before), Y, c'.
        unfold trace in *. rewrite Htr. reflexivity.
      * right. exact Hall.
Qed.

Context `{Interface E}.

Lemma all_calls_bind (P : forall X, E X -> Prop) A B (p : Prog E A)
  (f : A -> Prog E B) :
  all_calls P p -> (forall a, all_calls P (f a)) -> all_calls P (bind p f).
Proof.
  intros Hp Hf. induction Hp; simpl.
  - apply Hf.
  - constructor.
  - constructor; auto.
Qed.

Lemma all_calls_call (P : forall X, E X -> Prop) X (c : E X) :
  P X c -> all_calls P (call c).
Proof. intros Hc. constructor; [exact Hc | intros; constructor]. Qed.

Lemma all_calls_for_each (P : forall X, E X -> Prop) X (xs : list X)
  (body : X -> Prog E unit) :
  (forall x, all_calls P (body x)) -> all_calls P (for_each xs body).
Proof.
  intros Hbody. induction xs as [| x xs IH]; simpl.
  - constructor.
  - apply all_calls_bind; auto.
Qed.

Lemma all_calls_trace (P : forall X, E X -> Prop) S A (lib : Library E S)
  (p : Prog E A) (s : S) :
  all_calls P p -> Forall (ev_satisfies P) (trace (run lib p s)).
Proof.
  intros Hp. revert s. induction Hp; intros s; simpl.
  - constructor.
  - constructor.
  - destruct (lib X c s) as [[e | x] s']; simpl.
    + constructor; [assumption | constructor].
    + constructor; [assumption | apply H2].
Qed.

Lemma plain_writes_nothing (tr : list (Ev E)) :
  Forall (ev_satisfies plain) tr -> writes tr = [].
Proof.
  induction 1 as [| ev tr Hev _ IH]; simpl; [reflexivity |].
  destruct ev; destruct Hev as [Hw _]; simpl; rewrite Hw; exact IH.
Qed.

Lemma plain_never_loads (tr : list (Ev E)) steps :
  Forall (ev_satisfies plain) tr -> follows (LoadData :: steps) tr = false.
Proof.
  induction 1 as [| ev tr Hev _ IH]; simpl; [reflexivity |].
  unfold counts_for.
  destruct ev; destruct Hev as [_ Hs]; simpl; rewrite Hs; exact IH.
Qed.

Lemma builds_nothing_never_builds (tr : list (Ev E)) steps :
  Forall (ev_satisfies builds_nothing) tr ->
  follows (BuildModel :: steps) tr = false.
Proof.
  induction 1 as [| ev tr Hev _ IH]; simpl; [reflexivity |].
  unfold counts_for.
  destruct ev; destruct Hev as [_ Hs]; simpl; rewrite Hs; exact IH.
Qed.

End RunLemmas.

(** One call against a library that never raises: the answer and the next
    state get names of their own. *)
Ltac name_answer lib :=
  match goal with
  | |- context [lib ?X ?c ?s] =>
      let x := fresh "x" in
      let s' := fresh "s" in
      destruct (lib X c s) as [x s'];
      cbn [fst snd];
      match type of x with
      | unit => destruct x
      | _ => idtac
      end
  end.

Ltac answer lib := rewrite run_call_after; name_answer lib.

(** The end of a run: collects the events. *)
Ltac finish := rewrite ?run_Ret, ?run_Raise, ?after_triple; cbn [List.app].

(** ** Face detection *)

Section FaceDetectionProperties.
Import FaceDetection.

Lemma int32_add_in_range a b :
  - 2 ^ 31 <= a + b < 2 ^ 31 -> int32_add a b = a + b.
Proof.
  intros Hab. unfold int32_add.
  rewrite Z.mod_small by lia. lia.
Qed.

(** Two frames with two faces each, [q] pressed on the second: two
    rectangles are drawn on frame 1 and two on frame 2. *)
Example two_frames_two_faces :
  map (fun ev => match ev with
                 | returned (rectangle img _ _ _ _) _ => Some img
                 | _ => None
                 end)
    (trace (run (lift Stub.cv_two_faces) (notebook nat 5) 0%nat))
  = [None; None; None; None;
     None; None; None; Some 1%nat; Some 1%nat; None; None;
     None; None; None; Some 2%nat; Some 2%nat; None; None;
     None; None].
Proof. reflexivity. Qed.


End FaceDetectionProperties.

(** ** Residual blocks *)

Section ResNetProperties.
Import TF ResNet.

(** The shapes the notebook printed for its two example blocks. *)
Example Residual_3_shape :
  outcome (run Shapes.keras
             (blk <- new_Residual 3 false (int 1) ;;
              Residual_call blk (Shapes.tensor_of [4; 6; 6; 3])) tt)
  = Return (Shapes.tensor_of [4; 6; 6; 3]).
Proof. reflexivity. Qed.

Example Residual_6_strided_shape :
  outcome (run Shapes.keras
             (blk <- new_Residual 6 true (int 2) ;;
              Residual_call blk (Shapes.tensor_of [4; 6; 6; 3])) tt)
  = Return (Shapes.tensor_of [4; 3; 3; 6]).
Proof. reflexivity. Qed.

(** Without the 1x1 convolution the channel counts must agree. *)
Example Residual_6_mismatch :
  outcome (run Shapes.keras
             (blk <- new_Residual 6 false (int 1) ;;
              Residual_call blk (Shapes.tensor_of [4; 6; 6; 3])) tt)
  = Raised (Shapes.InvalidArgumentError "Incompatible shapes").
Proof. reflexivity. Qed.


End ResNetProperties.

(** ** U-Net *)

Section UNetProperties.
Import TF UNet.

(** The decoder block, by contrast, passes its [dropout] argument on. *)
Example decoder_block_uses_dropout :
  dropout_rates
    (trace (run (lift Stub.tf_silent)
              (decoder_block tt tt 64 (int 3) (int 3) (7 # 10)) tt))
  = [(7 # 10)%Q].
Proof. reflexivity. Qed.

(** C8: the [dropout] argument of [encoder_block] has no influence on its
    result: for every input, every [n_filters] and [pool_size] and any two
    values d1 and d2 of [dropout], the two calls are the same computation
    (the same program, hence the same run against every library from every
    state), because the one dropout layer the block constructs has the
    hard-coded rate 0.3. *)
Theorem encoder_block_ignores_dropout :
  forall (Obj : Type) (inputs : Obj) (n_filters : Z) (pool_size : IntOrPair)
         (d1 d2 : Q),
    encoder_block inputs n_filters pool_size d1
    = encoder_block inputs n_filters pool_size d2
    /\ (forall S (lib : Library (tfE Obj) S) (s : S),
          run lib (encoder_block inputs n_filters pool_size d1) s
          = run lib (encoder_block inputs n_filters pool_size d2) s)
    /\ (forall S (lib : TotalLibrary (tfE Obj) S) (s : S),
          dropout_rates
            (trace (run (lift lib)
                      (encoder_block inputs n_filters pool_size d1) s))
          = [(3 # 10)%Q]).
Proof.
  intros Obj inputs n p d1 d2. split; [reflexivity | split].
  - reflexivity.
  - intros S lib s. reflexivity.
Qed.

End UNetProperties.

(** ** Normalization of the images *)

Section NormalizationProperties.
Import TF WGANGP Arrays.

Lemma float32_eqb_eq a b : float32_eqb a b = true -> a = b.
Proof.
  destruct a as [s1 | s1 | | s1 m1 e1], b as [s2 | s2 | | s2 m2 e2];
    simpl; try discriminate; try reflexivity.
  - intros H. apply Bool.eqb_prop in H. congruence.
  - intros H. apply Bool.eqb_prop in H. congruence.
  - intros H. apply andb_prop in H as [H He]. apply andb_prop in H as [Hs Hm].
    apply Bool.eqb_prop in Hs. apply Pos.eqb_eq in Hm. apply Z.eqb_eq in He.
    congruence.
Qed.

(** All 256 pixel values, one by one. *)
Lemma all_pixels_round_trip :
  forallb (fun n => float32_eqb (round_trip_float32 (f32_of_Z (Z.of_nat n)))
                      (f32_of_Z (Z.of_nat n)))
    (seq 0 256) = true.
Proof. vm_compute. reflexivity. Qed.

Lemma pixel_round_trip v :
  pixel v -> round_trip_float32 (f32_of_Z v) = f32_of_Z v.
Proof.
  intros [Hlo Hhi]. apply float32_eqb_eq.
  rewrite <- (Z2Nat.id v) by exact Hlo.
  apply (proj1 (forallb_forall _ _) all_pixels_round_trip (Z.to_nat v)).
  apply in_seq. lia.
Qed.

Lemma exact_round_trip (q : Q) :
  ((q - (1275 # 10)) / (1275 # 10) * (1275 # 10) + (1275 # 10) == q)%Q.
Proof. field. Qed.

(** C9: the denormalization of [GANMonitor.on_epoch_end] (multiply by
    127.5, then add 127.5) inverts the normalization of the training images
    (subtract 127.5, then divide by 127.5): for every pixel value v,
    ((v - 127.5) / 127.5) * 127.5 + 127.5 = v.  This holds bit for bit in
    the float32 arithmetic of the arrays for the pixel values 0..255, and
    for every rational number in exact arithmetic. *)
Theorem denormalize_inverts_normalize :
  (forall pixels : list Z,
      Forall pixel pixels ->
      outcome (run (lift numpy_float32)
                 (x <- normalize (map f32_of_Z pixels) ;; denormalize x) tt)
      = Return (map f32_of_Z pixels))
  /\ (forall values : list Q,
      exists back,
        outcome (run (lift exact)
                   (x <- normalize values ;; denormalize x) tt)
        = Return back
        /\ Forall2 Qeq back values).
Proof.
  split.
  - intros pixels Hpx. unfold normalize, denormalize, outcome. simpl.
    rewrite !map_map. f_equal.
    induction Hpx as [| v pixels Hv _ IH]; simpl; [reflexivity |].
    f_equal; [exact (@pixel_round_trip v Hv) | exact IH].
  - intros values. eexists. split; [reflexivity |].
    simpl. rewrite !map_map.
    induction values as [| q values IH]; simpl; constructor;
      [apply exact_round_trip | exact IH].
Qed.

Lemma denormalize_inverts_normalize_witness :
  Forall pixel [0; 127; 255]
  /\ outcome (run (lift numpy_float32)
                (x <- normalize (map f32_of_Z [0; 127; 255]) ;;
                 denormalize x) tt)
     = Return (map f32_of_Z [0; 127; 255]).
Proof.
  assert (H : Forall pixel [0; 127; 255])
    by (repeat constructor; unfold pixel; lia).
  split;
    [exact H | exact (proj1 denormalize_inverts_normalize [0; 127; 255] H)].
Defined.

End NormalizationProperties.

(** ** WGAN-GP *)

Section WGANProperties.
Import TF WGANGP Published.

(** C1: [WGAN.gradient_penalty] forms real + alpha * (fake - real), asks
    the discriminator for its output there, differentiates it with respect
    to the interpolated image, and returns the mean over the batch of
    (L2 norm over axes 1, 2, 3 - 1)^2, as the published WGAN-GP loop does;
    but it draws alpha with [tf.random.normal] (mean 0, standard deviation
    1), not from the uniform distribution on [0, 1]: the code and the
    published computation differ in their first call and in nothing else.
    With the discriminator D(x) = |x|^2 / 2, one real pixel 0, one fake
    pixel 1 and the draw 3, the "interpolated" pixel is 3, outside the
    segment between 0 and 1, and the penalty is 4 (for alpha in [0, 1] it
    is at most 1). *)
Theorem gradient_penalty_draws_normal :
  (forall (Obj : Type) (w : WGAN Obj) (batch_size real fake : Obj),
      exists rest,
        WGANGP.gradient_penalty w batch_size real fake
        = Call (random_normal [DimT batch_size; DimK 1; DimK 1; DimK 1]
                  (Some 0%Q) (Some 1%Q)) rest
        /\ Published.gradient_penalty w batch_size real fake
           = Call (random_uniform [DimT batch_size; DimK 1; DimK 1; DimK 1]
                     (Some 0%Q) (Some 1%Q)) rest)
  /\ run (lift Critic.critic)
       (WGANGP.gradient_penalty (mkWGAN [] [] [] 128 3 (10 # 1))
          (Critic.scalar 1) [[0%Q]] [[1%Q]]) [3%Q]
     = (Return [[4%Q]], [],
        penalty_calls (mkWGAN [] [] [] 128 3 (10 # 1))
          (Critic.scalar 1) [[0%Q]] [[1%Q]]
          (mkPenalty [[3%Q]] [[1%Q]] [[3%Q]] [[3%Q]] [] [[(9 # 2)%Q]]
             [[3%Q]] [[9%Q]] [[9%Q]] [[3%Q]] [[2%Q]] [[4%Q]] [[4%Q]])).
Proof.
  split.
  - intros Obj w b r f. eexists. split; reflexivity.
  - reflexivity.
Qed.

Section AnyLibrary.
Context {Obj S : Type} (lib : TotalLibrary (tfE Obj) S).
Hypothesis arity : gradient_arity lib.

(** Against a library that never raises, the gradient penalty is the
    published sequence of calls, up to the sampler. *)
Lemma run_gradient_penalty (w : WGAN Obj) (b r f : Obj) (s : S) :
  exists a s',
    run (lift lib) (WGANGP.gradient_penalty w b r f) s
    = (Return (gp a), s', penalty_calls w b r f a).
Proof.
  unfold WGANGP.gradient_penalty, call. cbn [bind].
  do 7 answer (@lib).
  rewrite run_call_after.
  match goal with
  | |- context [@lib _ (gradient ?t ?p ?src) ?s0] =>
      pose proof (arity s0 t p src) as Hlen
  end.
  name_answer (@lib). cbn [fst] in Hlen.
  match goal with
  | gs : list Obj |- _ => destruct gs as [| g [| g' gs]]; try discriminate Hlen
  end.
  cbn [first bind].
  do 6 answer (@lib).
  finish.
  eexists (mkPenalty _ _ _ _ _ _ _ _ _ _ _ _ _). eexists.
  unfold penalty_calls.
  cbn [alpha diff scaled interpolated gp_tape pred grads sq total norm dev
       dev2 gp].
  reflexivity.
Qed.

Variables (w : WGAN Obj) (dopt gopt : Obj).
Let c : Compiled Obj :=
  mkCompiled w dopt gopt (@discriminator_loss Obj) (@generator_loss Obj).

Lemma run_discriminator_step (b r : Obj) (s : S) :
  exists a s',
    run (lift lib) (discriminator_step c b r) s
    = (Return (d_loss a), s', discriminator_update c b r a).
Proof.
  unfold discriminator_step, c.
  cbn [wgan d_loss_fn d_optimizer].
  unfold discriminator_loss, call.
  cbn [bind].
  do 8 answer (@lib).
  match goal with
  | |- context [run (lift lib)
                  (bind (WGANGP.gradient_penalty ?w0 ?b0 ?r0 ?f0) ?k) ?s0] =>
      destruct (run_gradient_penalty w0 b0 r0 f0 s0) as (pa & sgp & Hgp)
  end.
  erewrite run_bind_after by exact Hgp.
  do 6 answer (@lib).
  finish.
  eexists (mkDiscriminatorAnswers _ _ _ _ _ _ _ _ pa _ _ _ _ _). eexists.
  unfold discriminator_update.
  cbn [List.app d_noise d_tape fake_images fake_logits real_logits real_loss
       fake_loss d_cost penalty weighted d_loss d_vars d_gradient d_vars'
       wgan d_optimizer].
  reflexivity.
Qed.

Lemma run_generator_step (b : Obj) (s : S) :
  exists a s',
    run (lift lib) (generator_step c b) s
    = (Return (g_loss a), s', generator_update c b a).
Proof.
  unfold generator_step, c.
  cbn [wgan g_loss_fn g_optimizer].
  unfold generator_loss, call.
  cbn [bind].
  do 10 answer (@lib).
  finish.
  eexists (mkGeneratorAnswers _ _ _ _ _ _ _ _ _). eexists.
  unfold generator_update.
  cbn [g_noise g_tape generated_images gen_img_logits mean_logit g_loss
       g_vars gen_gradient g_vars' wgan g_optimizer].
  reflexivity.
Qed.
Lemma run_discriminator_loop (n : nat) (b r : Obj) :
  forall (d0 : option Obj) (s : S),
  exists ds s',
    List.length ds = n
    /\ run (lift lib) (discriminator_loop n c b r d0) s
       = (Return (bound_d_loss d0 ds), s',
          flat_map (discriminator_update c b r) ds).
Proof.
  induction n as [| n IH]; intros d0 s.
  - exists [], s. split; reflexivity.
  - destruct (run_discriminator_step b r s) as (a & s1 & Hstep).
    destruct (IH (Some (d_loss a)) s1) as (ds & s2 & Hlen & Hloop).
    exists (a :: ds), s2. split; [simpl; congruence |].
    cbn [discriminator_loop].
    erewrite run_bind_after by exact Hstep.
    rewrite Hloop. reflexivity.
Qed.

Lemma bound_d_loss_last (d0 : option Obj) init (a : DiscriminatorAnswers Obj) :
  bound_d_loss d0 (init ++ [a]) = Some (d_loss a).
Proof. unfold bound_d_loss. rewrite fold_left_app. reflexivity. Qed.

Lemma run_train_step (data : Data Obj) (real : Obj) (s : S) :
  batch_of data = Some real ->
  1 <= d_steps w ->
  exists sh batch init last_d g s',
    Z.of_nat (List.length (init ++ [last_d])) = d_steps w
    /\ run (lift lib) (train_step c data) s
       = (Return [("d_loss", d_loss last_d); ("g_loss", g_loss g)], s',
          returned (tf_shape real) sh
          :: returned (getitem sh 0) batch
          :: flat_map (discriminator_update c batch real) (init ++ [last_d])
          ++ generator_update c batch g).
Proof.
  intros Hdata Hsteps.
  assert (Hreal : match data with
                  | tuple xs => first xs
                  | tensor x => Ret x
                  end = @Ret (tfE Obj) _ real).
  { destruct data as [x | [| x xs]]; simpl in Hdata; try discriminate;
      injection Hdata as <-; reflexivity. }
  unfold train_step. rewrite Hreal. cbn [bind]. unfold call at 1 2.
  cbn [bind]. rewrite run_call_after.
  destruct (@lib _ (tf_shape real) s) as [sh s1]. cbn [fst snd].
  rewrite run_call_after.
  destruct (@lib _ (getitem sh 0) s1) as [batch s2]. cbn [fst snd].
  destruct (run_discriminator_loop (Z.to_nat (d_steps w)) batch real None s2)
    as (ds & s3 & Hlen & Hloop).
  destruct (run_generator_step batch s3) as (g & s4 & Hgen).
  destruct (exists_last (l := ds)) as (init & last_d & ->).
  { intros ->. simpl in Hlen. lia. }
  exists sh, batch, init, last_d, g, s4. split; [lia |].
  change (wgan c) with w.
  erewrite run_bind_after by exact Hloop.
  erewrite run_bind_after by exact Hgen.
  rewrite bound_d_loss_last. finish.
  rewrite app_nil_r. reflexivity.
Qed.
End AnyLibrary.

(** C2, for d_steps >= 1: a call of [WGAN.train_step] on a batch of real
    images performs exactly d_steps discriminator updates (each one: noise,
    forward passes of generator and discriminator, d_loss =
    d_loss_fn(real_logits, fake_logits) + gradient_penalty * gp_weight,
    differentiation of d_loss, one step of the discriminator's optimizer),
    then exactly one generator update with g_loss =
    g_loss_fn(discriminator(generator(noise))), and nothing else, and
    returns {"d_loss": the loss of the final discriminator update,
    "g_loss": the generator loss}. *)
Theorem train_step_schedule :
  forall (Obj S : Type) (lib : TotalLibrary (tfE Obj) S)
         (w : WGAN Obj) (d_optimizer g_optimizer : Obj)
         (data : Data Obj) (real_images : Obj) (s : S),
    gradient_arity lib ->
    batch_of data = Some real_images ->
    1 <= d_steps w ->
    let c := mkCompiled w d_optimizer g_optimizer
               (@discriminator_loss Obj) (@generator_loss Obj) in
    exists sh batch_size earlier final_update g s',
      Z.of_nat (List.length (earlier ++ [final_update])) = d_steps w
      /\ run (lift lib) (train_step c data) s
         = (Return [("d_loss", d_loss final_update); ("g_loss", g_loss g)],
            s',
            returned (tf_shape real_images) sh
            :: returned (getitem sh 0) batch_size
            :: flat_map (discriminator_update c batch_size real_images)
                 (earlier ++ [final_update])
            ++ generator_update c batch_size g).
Proof.
  intros Obj S lib w dopt gopt data real s Harity Hdata Hsteps.
  exact (run_train_step Harity w dopt gopt data s Hdata Hsteps).
Qed.

Lemma tf_named_arity : gradient_arity tf_named.
Proof. intros s tape target sources. simpl. apply length_map. Qed.

Lemma train_step_schedule_witness :
  gradient_arity tf_named
  /\ batch_of (tensor "real_images") = Some "real_images"
  /\ 1 <= d_steps (mkWGAN "wgan" "discriminator" "generator" 128 3 (10 # 1))
  /\ exists sh batch_size earlier final_update g s',
      Z.of_nat (List.length (earlier ++ [final_update])) = 3
      /\ run (lift tf_named)
           (train_step
              (mkCompiled
                 (mkWGAN "wgan" "discriminator" "generator" 128 3 (10 # 1))
                 "d_optimizer" "g_optimizer"
                 (@discriminator_loss string) (@generator_loss string))
              (tensor "real_images")) tt
         = (Return [("d_loss", d_loss final_update); ("g_loss", g_loss g)],
            s',
            returned (tf_shape "real_images") sh
            :: returned (getitem sh 0) batch_size
            :: flat_map
                 (discriminator_update
                    (mkCompiled
                       (mkWGAN "wgan" "discriminator" "generator" 128 3
                          (10 # 1))
                       "d_optimizer" "g_optimizer"
                       (@discriminator_loss string)
                       (@generator_loss string))
                    batch_size "real_images")
                 (earlier ++ [final_update])
            ++ generator_update
                 (mkCompiled
                    (mkWGAN "wgan" "discriminator" "generator" 128 3
                       (10 # 1))
                    "d_optimizer" "g_optimizer"
                    (@discriminator_loss string) (@generator_loss string))
                 batch_size g).
Proof.
  split; [exact tf_named_arity |].
  split; [reflexivity |].
  split; [simpl; lia |].
  apply (@train_step_schedule string unit tf_named
           (mkWGAN "wgan" "discriminator" "generator" 128 3 (10 # 1))
           "d_optimizer" "g_optimizer" (tensor "real_images")
           "real_images" tt).
  - exact tf_named_arity.
  - reflexivity.
  - simpl; lia.
Defined.

(** The notebook's configuration: three steps of the discriminator's
    optimizer, then one of the generator's. *)
Example notebook_configuration_steps :
  optimizer_steps
    (trace (run (lift tf_named)
              (train_step
                 (mkCompiled
                    (mkWGAN "wgan" "discriminator" "generator" 128 3
                       (10 # 1))
                    "d_optimizer" "g_optimizer"
                    (@discriminator_loss string) (@generator_loss string))
                 (tensor "real_images")) tt))
  = ["d_optimizer"; "d_optimizer"; "d_optimizer"; "g_optimizer"].
Proof. reflexivity. Qed.

(** With [discriminator_extra_steps=0] the loop body never runs, the
    generator is updated, and the [return] statement finds [d_loss]
    unbound. *)
Lemma train_step_without_discriminator_steps :
  run (lift tf_named)
    (train_step
       (mkCompiled
          (mkWGAN "wgan" "discriminator" "generator" 128 0 (10 # 1))
          "d_optimizer" "g_optimizer"
          (@discriminator_loss string) (@generator_loss string))
       (tensor "real_images")) tt
  = (Raised (UnboundLocalError "d_loss"), tt,
     returned (tf_shape "real_images") "obj"
     :: returned (getitem "obj" 0) "obj"
     :: generator_update
          (mkCompiled
             (mkWGAN "wgan" "discriminator" "generator" 128 0 (10 # 1))
             "d_optimizer" "g_optimizer"
             (@discriminator_loss string) (@generator_loss string))
          "obj"
          (mkGeneratorAnswers "obj" "obj" "obj" "obj" "obj" "obj"
             ["obj"] ["obj"] ["obj"])).
Proof. reflexivity. Qed.
End WGANProperties.

Create HintDb calls.

Ltac head_of t :=
  match t with
  | ?f _ => head_of f
  | _ => t
  end.

(** Walks through a program: every call it can make satisfies the
    predicate of the goal. *)
Ltac calls_step :=
  match goal with
  | |- all_calls _ (Ret _) => apply all_calls_Ret
  | |- all_calls _ (Raise _) => apply all_calls_Raise
  | |- all_calls _ (Call _ _) =>
      apply all_calls_Call;
      [first [reflexivity | split; reflexivity | solve [auto with calls]]
      | intros]
  | |- all_calls _ (bind _ _) => apply all_calls_bind; [| intros]
  | |- all_calls _ (call _) =>
      apply all_calls_call; first [reflexivity | split; reflexivity]
  | |- all_calls _ (for_each _ _) => apply all_calls_for_each; intros
  | |- all_calls _ (let _ := _ in _) => cbv zeta
  | |- all_calls _ (if ?b then _ else _) => destruct b
  | |- all_calls _ (match ?x with _ => _ end) => destruct x
  | H : forall _, all_calls _ _ |- all_calls _ _ => solve [apply H]
  | |- all_calls _ ?p => let h := head_of p in unfold h
  end.

Ltac calls := repeat calls_step.

(** ** Calls that a program can make, whatever the library answers *)

Section Static.
Import TF.
Context {Obj : Type}.

Lemma unet_notebook_plain : all_calls plain (UNet.notebook Obj).
Proof. calls. Qed.

Lemma resnet_notebook_plain : all_calls plain (ResNet.notebook Obj).
Proof. calls. Qed.

Lemma discriminator_loop_plain n (w : WGANGP.WGAN Obj) dopt gopt b r d0 :
  all_calls plain
    (WGANGP.discriminator_loop n
       (WGANGP.mkCompiled w dopt gopt (@WGANGP.discriminator_loss Obj)
          (@WGANGP.generator_loss Obj)) b r d0).
Proof.
  revert d0. induction n as [| n IH]; intros d0; cbn [WGANGP.discriminator_loop].
  - calls.
  - apply all_calls_bind; [calls | intros; apply IH].
Qed.

Lemma train_step_plain (w : WGANGP.WGAN Obj) dopt gopt data :
  all_calls plain
    (WGANGP.train_step
       (WGANGP.mkCompiled w dopt gopt (@WGANGP.discriminator_loss Obj)
          (@WGANGP.generator_loss Obj)) data).
Proof.
  unfold WGANGP.train_step.
  apply all_calls_bind; [calls | intros].
  apply all_calls_bind; [calls | intros].
  apply all_calls_bind; [calls | intros].
  apply all_calls_bind; [apply discriminator_loop_plain | intros].
  calls.
Qed.

Lemma wgan_notebook_after_load :
  exists rest,
    WGANGP.notebook Obj = Call fashion_mnist_load_data rest
    /\ forall x, all_calls plain (rest x).
Proof.
  eexists. split; [reflexivity |].
  intros [[a b] [c d]]. cbn beta iota. calls.
Qed.
End Static.

(** ** The images saved at the end of an epoch *)

Section Saving.
Import TF WGANGP Published.

Lemma append_length (s t : string) :
  String.length (s ++ t)%string = (String.length s + String.length t)%nat.
Proof. induction s as [| a s IH]; simpl; [reflexivity | rewrite IH; reflexivity]. Qed.

Lemma append_cancel_l (p s t : string) :
  (p ++ s)%string = (p ++ t)%string -> s = t.
Proof.
  induction p as [| a p IH]; simpl; [trivial |].
  intros [= H]. exact (IH H).
Qed.

Lemma append_cancel_r (s t r : string) :
  (s ++ r)%string = (t ++ r)%string -> s = t.
Proof.
  revert t. induction s as [| a s IH]; intros [| b t] H; simpl in H.
  - reflexivity.
  - apply (f_equal String.length) in H. simpl in H.
    rewrite append_length in H. lia.
  - apply (f_equal String.length) in H. simpl in H.
    rewrite append_length in H. lia.
  - injection H as -> H. f_equal. exact (IH t H).
Qed.

Lemma str_injective (i j : Z) : str i = str j -> i = j.
Proof.
  unfold str. intros H.
  apply DecimalZ.to_int_inj.
  apply (f_equal NilEmpty.int_of_string) in H.
  rewrite !NilEmpty.isi in H. congruence.
Qed.

Lemma generated_img_injective (epoch : Z) :
  Injective (fun i => generated_img i epoch).
Proof.
  intros i j H. unfold generated_img in H.
  apply append_cancel_l, append_cancel_r in H.
  apply str_injective. exact H.
Qed.

Lemma range_NoDup (n : Z) : NoDup (range n).
Proof.
  unfold range. apply Injective_map_NoDup; [| apply seq_NoDup].
  intros a b. apply Nat2Z.inj.
Qed.

Lemma range_length (n : Z) : List.length (range n) = Z.to_nat n.
Proof. unfold range. rewrite length_map, length_seq. reflexivity. Qed.

Section AnyLibrary.
Context {Obj S : Type} (lib : TotalLibrary (tfE Obj) S).

Lemma run_save_image (images : Obj) (epoch i : Z) (s : S) :
  exists row array img s',
    run (lift lib) (save_image images epoch i) s
    = (Return tt, s', save_calls images epoch (i, (row, array, img))).
Proof.
  unfold save_image, call. cbn [bind].
  do 4 answer (@lib). finish.
  repeat eexists.
Qed.

Lemma run_save_images (images : Obj) (epoch : Z) (indices : list Z) :
  forall s : S,
  exists saved s',
    List.length saved = List.length indices
    /\ run (lift lib) (for_each indices (save_image images epoch)) s
       = (Return tt, s',
          flat_map (save_calls images epoch) (combine indices saved)).
Proof.
  induction indices as [| i indices IH]; intros s.
  - exists [], s. split; reflexivity.
  - destruct (run_save_image images epoch i s)
      as (row & array & img & s1 & Hone).
    destruct (IH s1) as (saved & s2 & Hlen & Hrest).
    exists ((row, array, img) :: saved), s2.
    split; [simpl; congruence |].
    cbn [for_each]. erewrite run_bind_after by exact Hone.
    rewrite Hrest. reflexivity.
Qed.

Lemma writes_save_calls (images : Obj) (epoch : Z) (indices : list Z) :
  forall saved : list (Obj * Obj * Obj),
    List.length saved = List.length indices ->
    writes (flat_map (save_calls images epoch) (combine indices saved))
    = map (fun i => image_file (generated_img i epoch)) indices.
Proof.
  induction indices as [| i indices IH]; intros [| [[row array] img] saved] Hlen;
    simpl in Hlen; try discriminate; [reflexivity |].
  simpl. f_equal. apply IH. congruence.
Qed.

Lemma run_on_epoch_end (m : GANMonitor Obj) (model : WGAN Obj) (epoch : Z)
  (s : S) :
  exists noise generated scaled images saved s',
    List.length saved = Z.to_nat (num_img m)
    /\ run (lift lib) (on_epoch_end m model epoch) s
       = (Return tt, s',
          [ returned (random_normal
                        [DimK (num_img m); DimK (monitor_latent_dim m)]
                        None None) noise;
            returned (apply (generator model) noise None) generated;
            returned (mul (T generated) (K (1275 # 10))) scaled;
            returned (add (T scaled) (K (1275 # 10))) images ]
          ++ flat_map (save_calls images epoch)
               (combine (range (num_img m)) saved)).
Proof.
  unfold on_epoch_end, denormalize, call. cbn [bind].
  do 4 answer (@lib).
  match goal with
  | |- context [run (lift lib) (for_each ?ixs (save_image ?g ?e)) ?s0] =>
      destruct (run_save_images g e ixs s0) as (saved & s' & Hlen & Hsave)
  end.
  rewrite Hsave. finish.
  rewrite range_length in Hlen.
  repeat eexists. exact Hlen.
Qed.
End AnyLibrary.
End Saving.

(** ** The repository as a whole *)

Section Repository.
Import TF.

Lemma run_Call E S A X (lib : Library E S) (c : E X) (k : X -> Prog E A) s :
  run lib (Call c k) s =
  match lib X c s with
  | (inr x, s') => after [returned c x] (run lib (k x) s')
  | (inl e, s') => (Raised e, s', [failed c e])
  end.
Proof. simpl. destruct (lib X c s) as [[e | x] s']; reflexivity. Qed.

Lemma trace_after E S A (tr : list (Ev E)) (r : Outcome A * S * list (Ev E)) :
  trace (after tr r) = tr ++ trace r.
Proof. reflexivity. Qed.

Lemma writes_nothing_trace E `{Interface E} (tr : list (Ev E)) :
  Forall (ev_satisfies writes_nothing) tr -> writes tr = [].
Proof.
  induction 1 as [| ev tr Hev _ IH]; simpl; [reflexivity |].
  destruct ev; simpl in *; unfold writes_nothing in Hev; rewrite Hev; exact IH.
Qed.

Section Face.
Import FaceDetection.
Context {Obj : Type}.

Lemma draw_box_builds_nothing (vid : Obj) (face : Rect) :
  builds_nothing unit (draw_box vid face).
Proof. destruct face as [[[x y] w] h]. split; reflexivity. Qed.

#[local] Hint Resolve draw_box_builds_nothing : calls.

Lemma while_true_builds_nothing fuel (clf cap : Obj) :
  all_calls builds_nothing (while_true fuel (loop_body clf cap)).
Proof.
  induction fuel as [| fuel IH]; cbn [while_true].
  - calls.
  - apply all_calls_bind; [calls | intros [|]; [exact IH | calls]].
Qed.

Lemma face_notebook_shape fuel :
  exists after_capture,
    notebook Obj fuel =
    Call (pip_install "opencv-python") (fun _ =>
    Call data_haarcascades (fun dir =>
    Call (CascadeClassifier (dir ++ "haarcascade_frontalface_default.xml"))
      (fun face_classifier =>
    Call (VideoCapture 0) (after_capture face_classifier))))
    /\ forall clf cap, all_calls builds_nothing (after_capture clf cap).
Proof.
  eexists (fun clf cap => _). split; [reflexivity |].
  intros clf cap. cbn beta.
  apply all_calls_bind; [apply while_true_builds_nothing | intros].
  calls.
Qed.

Lemma builds_nothing_writes_nothing_calls A (p : Prog (cvE Obj) A) :
  all_calls builds_nothing p -> all_calls writes_nothing p.
Proof.
  induction 1 as [| | A X c k [Hw _] _ IH]; constructor; auto.
Qed.

(** The face-detection notebook installs a package, and creates its
    classifier before it opens the camera. *)
Lemma face_notebook_run S (lib : Library (cvE Obj) S) fuel s :
  writes (trace (run lib (notebook Obj fuel) s)) = [package "opencv-python"]
  /\ follows [LoadData; BuildModel] (trace (run lib (notebook Obj fuel) s))
     = false.
Proof.
  destruct (face_notebook_shape fuel) as (rest & -> & Hrest).
  rewrite run_Call. destruct (lib _ _ s) as [[e | []] s1];
    [split; reflexivity |].
  rewrite run_Call. destruct (lib _ _ s1) as [[e | dir] s2];
    [split; reflexivity |].
  rewrite run_Call. destruct (lib _ _ s2) as [[e | clf] s3];
    [split; reflexivity |].
  rewrite run_Call. destruct (lib _ _ s3) as [[e | cap] s4];
    [split; reflexivity |].
  rewrite !trace_after. cbn [List.app].
  pose proof (all_calls_trace lib s4 (Hrest clf cap)) as Hb.
  split.
  - cbn. f_equal. apply writes_nothing_trace.
    apply (all_calls_trace lib s4).
    apply builds_nothing_writes_nothing_calls, Hrest.
  - cbn. apply builds_nothing_never_builds. exact Hb.
Qed.
End Face.

Section TensorFlowNotebooks.
Context {Obj S : Type}.

Lemma unet_notebook_run (lib : Library (tfE Obj) S) s :
  writes (trace (run lib (UNet.notebook Obj) s)) = []
  /\ follows pipeline (trace (run lib (UNet.notebook Obj) s)) = false.
Proof.
  pose proof (all_calls_trace lib s (@unet_notebook_plain Obj)) as H.
  split; [apply plain_writes_nothing | apply plain_never_loads]; exact H.
Qed.

Lemma resnet_notebook_run (lib : Library (tfE Obj) S) s :
  writes (trace (run lib (ResNet.notebook Obj) s)) = []
  /\ follows pipeline (trace (run lib (ResNet.notebook Obj) s)) = false.
Proof.
  pose proof (all_calls_trace lib s (@resnet_notebook_plain Obj)) as H.
  split; [apply plain_writes_nothing | apply plain_never_loads]; exact H.
Qed.

Lemma train_step_writes (lib : Library (tfE Obj) S) w dopt gopt data s :
  writes (trace (run lib
                   (WGANGP.train_step
                      (WGANGP.mkCompiled w dopt gopt
                         (@WGANGP.discriminator_loss Obj)
                         (@WGANGP.generator_loss Obj)) data) s)) = [].
Proof.
  apply plain_writes_nothing, all_calls_trace, train_step_plain.
Qed.

Lemma wgan_notebook_writes (lib : Library (tfE Obj) S) s :
  writes (trace (run lib (WGANGP.notebook Obj) s))
  = [dataset_cache "fashion-mnist"].
Proof.
  destruct (@wgan_notebook_after_load Obj) as (rest & -> & Hrest).
  rewrite run_Call. destruct (lib _ _ s) as [[e | x] s1]; [reflexivity |].
  rewrite trace_after. cbn. f_equal.
  apply plain_writes_nothing, all_calls_trace, Hrest.
Qed.

Lemma wgan_notebook_pipeline (lib : TotalLibrary (tfE Obj) S) s :
  (forall x s0, fst (lib _ (ndarray_shape x) s0) <> []) ->
  follows pipeline (trace (run (lift lib) (WGANGP.notebook Obj) s)) = true.
Proof.
  intros Hshape. unfold WGANGP.notebook, call. cbn [bind].
  answer lib. destruct x as [[a b] [c d]].
  do 4 answer lib.
  rewrite run_call_after.
  match goal with
  | |- context [lib _ (ndarray_shape ?x) ?s0] =>
      pose proof (Hshape x s0) as Hne
  end.
  name_answer lib. cbn [fst] in Hne.
  match goal with
  | H : ?sh <> [] |- _ => destruct sh as [| n0 sh']; [contradiction |]
  end.
  cbn [WGANGP.first bind].
  rewrite !trace_after. cbn [List.app].
  reflexivity.
Qed.
End TensorFlowNotebooks.

Lemma follows_nil E `{Interface E} (tr : list (Ev E)) : follows [] tr = true.
Proof. destruct tr; reflexivity. Qed.

Lemma follows_prefix E `{Interface E} (steps more : list Stage)
  (tr : list (Ev E)) :
  follows (steps ++ more) tr = true -> follows steps tr = true.
Proof.
  revert steps. induction tr as [| ev tr IH]; intros [| st steps]; simpl;
    try reflexivity; try discriminate.
  destruct (counts_for st ev).
  - apply IH.
  - apply (IH (st :: steps)).
Qed.

Lemma not_follows_prefix E `{Interface E} (steps more : list Stage)
  (tr : list (Ev E)) :
  follows steps tr = false -> follows (steps ++ more) tr = false.
Proof.
  intros Hno. destruct (follows (steps ++ more) tr) eqn:Hyes;
    [| reflexivity].
  apply follows_prefix in Hyes. congruence.
Qed.

Lemma sk_writes_nothing Obj (tr : list (Ev (Baseline.skE Obj))) :
  writes tr = [].
Proof.
  induction tr as [| ev tr IH]; simpl; [reflexivity |].
  destruct ev; exact IH.
Qed.

Lemma baseline_pipeline Obj S (lib : TotalLibrary (Baseline.skE Obj) S) s :
  follows pipeline (trace (run (lift lib) (Baseline.notebook Obj) s)) = true.
Proof.
  unfold Baseline.notebook, call. cbn [bind].
  do 4 answer lib.
  match goal with
  | x : (Obj * Obj * Obj * Obj)%type |- _ => destruct x as [[[a b] c] d]
  end.
  rewrite !trace_after. cbn [List.app].
  reflexivity.
Qed.







End Repository.

(** ** The loop of the face-detection notebook *)

Lemma view_app E B (f : forall X, E X -> list B) (tr1 tr2 : list (Ev E)) :
  view f (tr1 ++ tr2) = view f tr1 ++ view f tr2.
Proof. apply flat_map_app. Qed.

Lemma view_cons E B (f : forall X, E X -> list B) (ev : Ev E)
  (tr : list (Ev E)) :
  view f (ev :: tr)
  = match ev with
    | returned c _ => f _ c
    | failed c _ => f _ c
    end ++ view f tr.
Proof. reflexivity. Qed.

Lemma view_empty E B (f : forall X, E X -> list B) : view f [] = [].
Proof. reflexivity. Qed.

Lemma view_nil E B (f : forall X, E X -> list B) (tr : list (Ev E)) :
  Forall (ev_satisfies (fun X c => f X c = [])) tr -> view f tr = [].
Proof.
  induction 1 as [| ev tr Hev _ IH]; [reflexivity |].
  unfold view in *. simpl. rewrite IH.
  destruct ev; simpl in Hev; rewrite Hev; reflexivity.
Qed.

Lemma land_255 (key : Z) : Z.land key 255 = key mod 256.
Proof. change 255 with (Z.ones 8). rewrite Z.land_ones by lia. reflexivity. Qed.

(** Runs a straight-line program against a library that never raises, in
    the hypothesis [Hr : r = run (lift lib) p s]: every answer gets a name
    of its own. *)
Ltac run_all lib Hr :=
  repeat (rewrite run_call_after in Hr;
          match type of Hr with
          | context [lib ?X0 ?c ?s0] =>
              let x := fresh "x" in
              let s' := fresh "s" in
              destruct (lib X0 c s0) as [x s'];
              cbn [fst snd] in Hr
          end);
  rewrite ?run_Ret, ?run_Raise in Hr;
  rewrite ?after_triple in Hr;
  cbn [List.app] in Hr.

Section FaceDetectionLoop.
Import FaceDetection.
Context {Obj : Type}.

Lemma draw_box_not_cleanup (vid : Obj) (face : Rect) :
  not_cleanup (draw_box vid face).
Proof. destruct face as [[[x y] w] h]. reflexivity. Qed.

#[local] Hint Resolve draw_box_not_cleanup : calls.

Lemma while_true_not_cleanup fuel (clf cap : Obj) :
  all_calls not_cleanup (while_true fuel (loop_body clf cap)).
Proof.
  induction fuel as [| fuel IH]; cbn [while_true].
  - calls.
  - apply all_calls_bind; [calls | intros [|]; [exact IH | calls]].
Qed.

Lemma not_cleanup_released (tr : list (Ev (cvE Obj))) :
  Forall (ev_satisfies not_cleanup) tr -> released tr = [].
Proof.
  intros H. apply view_nil. revert H. apply Forall_impl.
  intros [X c x | X c e]; simpl; destruct c; (discriminate || reflexivity).
Qed.

(** Whatever the library: either nothing is released, or the run ends
    with one of the two clean-up calls. *)
Lemma run_notebook_cleanup S (lib : Library (cvE Obj) S) (fuel : nat) (s : S) :
  released (trace (run lib (notebook Obj fuel) s)) = []
  \/ exists tr ev,
      trace (run lib (notebook Obj fuel) s) = tr ++ [ev]
      /\ ev_satisfies (fun X c => is_cleanup c = true) ev.
Proof.
  remember (run lib (notebook Obj fuel) s) as r eqn:Hr.
  unfold notebook in Hr. unfold call at 1 2 3 4 in Hr. cbn [bind] in Hr.
  rewrite run_Call in Hr. destruct (lib _ _ s) as [[e0 | []] s1];
    [subst r; left; reflexivity |].
  rewrite run_Call in Hr. destruct (lib _ _ s1) as [[e0 | dir] s2];
    [subst r; left; reflexivity |].
  rewrite run_Call in Hr. destruct (lib _ _ s2) as [[e0 | clf] s3];
    [subst r; left; reflexivity |].
  rewrite run_Call in Hr. destruct (lib _ _ s3) as [[e0 | cap] s4];
    [subst r; left; reflexivity |].
  pose proof (not_cleanup_released
                (all_calls_trace lib s4
                   (while_true_not_cleanup fuel clf cap))) as Hloop.
  rewrite run_bind in Hr.
  destruct (run lib (while_true fuel (loop_body clf cap)) s4)
    as [[[[[] |] | e1] s5] passes];
    unfold outcome, final, trace in Hr, Hloop; cbn [fst snd] in Hr, Hloop.
  - unfold call in Hr. cbn [bind] in Hr.
    rewrite run_Call in Hr. destruct (lib _ _ s5) as [[e0 | []] s6].
    + subst r. right.
      eexists (_ :: _ :: _ :: _ :: passes), _.
      split; [reflexivity | exact eq_refl].
    + rewrite run_Call in Hr. destruct (lib _ _ s6) as [[e0 | []] s7];
        subst r; right;
        eexists (_ :: _ :: _ :: _ :: passes ++ [_]), _;
        (split; [cbn; rewrite <- app_assoc; reflexivity | exact eq_refl]).
  - subst r. left. cbn. rewrite app_nil_r. exact Hloop.
  - subst r. left. cbn. exact Hloop.
Qed.

Lemma boxes_show_nothing B (f : forall X, cvE Obj X -> list B)
  (frame : Obj) (faces : list Rect) :
  (forall img pt1 pt2 color thickness,
      f _ (rectangle img pt1 pt2 color thickness) = []) ->
  view f (map (fun face => returned (draw_box frame face) tt) faces) = [].
Proof.
  intros Hf. apply view_nil. apply Forall_forall. intros ev Hin.
  apply in_map_iff in Hin as ([[[x y] w] h] & <- & _). apply Hf.
Qed.

Lemma shown_pass_calls (clf cap frame gray : Obj) (faces : list Rect)
  (key : Z) :
  shown (pass_calls clf cap frame gray faces key) = [frame].
Proof.
  unfold shown, pass_calls. rewrite !view_cons, view_app, !view_cons.
  rewrite boxes_show_nothing by reflexivity. reflexivity.
Qed.

Lemma converted_pass_calls (clf cap frame gray : Obj) (faces : list Rect)
  (key : Z) :
  converted (pass_calls clf cap frame gray faces key) = [frame].
Proof.
  unfold converted, pass_calls. rewrite !view_cons, view_app, !view_cons.
  rewrite boxes_show_nothing by reflexivity. reflexivity.
Qed.

Lemma frames_read_app (tr1 tr2 : list (Ev (cvE Obj))) :
  frames_read (tr1 ++ tr2) = frames_read tr1 ++ frames_read tr2.
Proof. apply flat_map_app. Qed.

Lemma frames_read_pass_calls (clf cap frame gray : Obj) (faces : list Rect)
  (key : Z) :
  frames_read (pass_calls clf cap frame gray faces key) = [frame].
Proof.
  unfold pass_calls.
  change (frames_read (?a :: ?b :: ?c :: ?rest)) with (frame :: frames_read rest).
  rewrite frames_read_app. f_equal.
  assert (H : frames_read
                (map (fun face => returned (draw_box frame face) tt) faces)
              = []).
  { induction faces as [| [[[x y] w] h] faces IH]; [reflexivity | exact IH]. }
  rewrite H. reflexivity.
Qed.

Section Total.
Context {S : Type} (lib : TotalLibrary (cvE Obj) S).

Lemma run_detect_bounding_box (clf vid : Obj) (s : S) :
  exists gray faces s',
    run (lift lib) (detect_bounding_box clf vid) s =
    (Return faces, s',
     returned (cvtColor vid COLOR_BGR2GRAY) gray
     :: returned (detectMultiScale clf gray (11 # 10) 5 (20, 20)) faces
     :: map (fun face => returned (draw_box vid face) tt) faces).
Proof.
  unfold detect_bounding_box. unfold call at 1 2. cbn [bind].
  do 2 answer (@lib).
  match goal with
  | |- context [for_each ?faces _] =>
      destruct (run_for_each_calls lib (draw_box vid) faces s1) as [s3 Hloop]
  end.
  erewrite run_bind_after by exact Hloop.
  finish. rewrite app_nil_r. repeat eexists.
Qed.

Lemma run_loop_body_answers (clf cap : Obj) (s : S) :
  (exists frame s',
      @lib _ (VideoCapture_read cap) s = ((false, frame), s')
      /\ run (lift lib) (loop_body clf cap) s
         = (Return Break, s',
            [returned (VideoCapture_read cap) (false, frame)]))
  \/ (exists frame gray faces key s0 s2 s',
      @lib _ (VideoCapture_read cap) s = ((true, frame), s0)
      /\ @lib _ (waitKey 1) s2 = (key, s')
      /\ run (lift lib) (loop_body clf cap) s
         = (Return (if key mod 256 =? 113 then Break else Continue), s',
            pass_calls clf cap frame gray faces key)).
Proof.
  destruct (@lib _ (VideoCapture_read cap) s) as [[[|] frame] s0] eqn:Hread.
  - right.
    destruct (run_detect_bounding_box clf frame s0)
      as (gray & faces & s1 & Hdetect).
    destruct (@lib _ (imshow "Face Detection Project" frame) s1)
      as [[] s2] eqn:Hshow.
    destruct (@lib _ (waitKey 1) s2) as [key s3] eqn:Hkey.
    exists frame, gray, faces, key, s0, s2, s3.
    split; [reflexivity | split; [exact Hkey |]].
    unfold loop_body. unfold call at 1. cbn [bind].
    rewrite run_call_after, Hread. cbn [fst snd negb].
    erewrite run_bind_after by exact Hdetect.
    unfold call. cbn [bind].
    rewrite run_call_after, Hshow. cbn [fst snd].
    rewrite run_call_after, Hkey. cbn [fst snd].
    rewrite land_255. unfold ord_q.
    destruct (key mod 256 =? 113); finish; reflexivity.
  - left. exists frame, s0. split; [reflexivity |].
    unfold loop_body. unfold call at 1. cbn [bind].
    rewrite run_call_after, Hread. cbn [fst snd negb].
    finish. reflexivity.
Qed.

Lemma run_loop_body (clf cap : Obj) (s : S) :
  (exists frame s',
      run (lift lib) (loop_body clf cap) s
      = (Return Break, s', [returned (VideoCapture_read cap) (false, frame)]))
  \/ (exists frame gray faces key s',
      run (lift lib) (loop_body clf cap) s
      = (Return (if key mod 256 =? 113 then Break else Continue), s',
         pass_calls clf cap frame gray faces key)).
Proof.
  destruct (run_loop_body_answers clf cap s)
    as [(frame & s' & _ & H)
       | (frame & gray & faces & key & s0 & s2 & s' & _ & _ & H)].
  - left. exists frame, s'. exact H.
  - right. exists frame, gray, faces, key, s'. exact H.
Qed.

Lemma run_while_true (clf cap : Obj) (fuel : nat) :
  forall s : S,
  exists r s' tr,
    run (lift lib) (while_true fuel (loop_body clf cap)) s = (Return r, s', tr)
    /\ shown tr = frames_read tr
    /\ converted tr = frames_read tr.
Proof.
  induction fuel as [| fuel IH]; intros s; cbn [while_true].
  - exists None, s, []. repeat split.
  - destruct (run_loop_body clf cap s)
      as [(frame & s1 & Hpass) | (frame & gray & faces & key & s1 & Hpass)];
      erewrite run_bind_after by exact Hpass.
    + finish. eexists. eexists. eexists. split; [reflexivity |].
      split; reflexivity.
    + assert (Hviews :
                forall tr,
                  shown tr = frames_read tr ->
                  converted tr = frames_read tr ->
                  shown (pass_calls clf cap frame gray faces key ++ tr)
                  = frames_read
                      (pass_calls clf cap frame gray faces key ++ tr)
                  /\ converted
                       (pass_calls clf cap frame gray faces key ++ tr)
                     = frames_read
                         (pass_calls clf cap frame gray faces key ++ tr)).
      { intros tr Hs Hc. unfold shown, converted in *.
        rewrite !view_app, frames_read_app, Hs, Hc.
        change (view _ (pass_calls clf cap frame gray faces key))
          with (shown (pass_calls clf cap frame gray faces key)) at 1.
        change (view _ (pass_calls clf cap frame gray faces key))
          with (converted (pass_calls clf cap frame gray faces key)).
        rewrite shown_pass_calls, converted_pass_calls,
          frames_read_pass_calls. split; reflexivity. }
      destruct (key mod 256 =? 113).
      * finish. eexists. eexists. eexists. split; [reflexivity |].
        apply (Hviews []); reflexivity.
      * destruct (IH s1) as (r & s2 & tr & Hrest & Hs & Hc). rewrite Hrest.
        finish. eexists. eexists. eexists. split; [reflexivity |].
        apply Hviews; assumption.
Qed.

Lemma run_notebook_total (fuel : nat) (s : S) :
  exists dir clf cap r s' passes,
    released passes = []
    /\ shown passes = frames_read passes
    /\ converted passes = frames_read passes
    /\ run (lift lib) (notebook Obj fuel) s
       = (Return r, s',
          [ returned (pip_install "opencv-python") tt;
            returned data_haarcascades dir;
            returned (CascadeClassifier
                        (dir ++ "haarcascade_frontalface_default.xml")) clf;
            returned (VideoCapture 0) cap ]
          ++ passes
          ++ match r with
             | Some _ => [ returned (VideoCapture_release cap) tt;
                           returned destroyAllWindows tt ]
             | None => []
             end).
Proof.
  unfold notebook. unfold call at 1 2 3 4. cbn [bind].
  do 4 answer (@lib).
  destruct (run_while_true x0 x1 fuel s3)
    as (r & s4 & tr & Hloop & Hshown & Hconv).
  assert (Hrel : released tr = []).
  { apply not_cleanup_released.
    pose proof (all_calls_trace (lift lib) s3
                  (while_true_not_cleanup fuel x0 x1)) as H.
    rewrite Hloop in H. exact H. }
  erewrite run_bind_after by exact Hloop.
  destruct r as [[] |].
  - unfold call. cbn [bind]. do 2 answer (@lib). finish.
    exists x, x0, x1, (Some tt). eexists. exists tr.
    repeat (split; [assumption |]). reflexivity.
  - finish. exists x, x0, x1, None. eexists. exists tr.
    repeat (split; [assumption |]). reflexivity.
Qed.

End Total.
End FaceDetectionLoop.

Section FaceDetectionExtras.
Import FaceDetection.

(** X1: one pass of the loop.  If the camera delivers no frame, the pass
    makes no other call and ends the loop.  Otherwise the faces are
    detected and boxed on the frame that was read, that same frame is
    shown in the window "Face Detection Project", one key is polled with a
    delay of 1 ms, and the loop ends exactly when the low byte of the key
    code is 113 (the letter q). *)
Theorem loop_body_pass :
  forall (Obj S : Type) (lib : TotalLibrary (cvE Obj) S) (s : S)
         (face_classifier video_capture : Obj),
    (exists frame s',
        run (lift lib) (loop_body face_classifier video_capture) s
        = (Return Break, s',
           [returned (VideoCapture_read video_capture) (false, frame)]))
    \/ (exists frame gray faces key s',
        run (lift lib) (loop_body face_classifier video_capture) s
        = (Return (if key mod 256 =? 113 then Break else Continue), s',
           pass_calls face_classifier video_capture frame gray faces key)).
Proof. intros Obj S lib s clf cap. apply run_loop_body. Qed.

(** X2: the loop has no other exit.  With a camera that always delivers a
    frame and no key whose low byte is 113, the loop is still running
    after any number of passes: every pass shows one frame, and the camera
    is not released. *)
Theorem loop_runs_until_break :
  forall (Obj S : Type) (lib : TotalLibrary (cvE Obj) S),
    (forall cap s, fst (fst (lib _ (VideoCapture_read cap) s)) = true) ->
    (forall delay s, fst (lib _ (waitKey delay) s) mod 256 <> 113) ->
    forall (fuel : nat) (s : S),
      outcome (run (lift lib) (notebook Obj fuel) s) = Return None
      /\ List.length (shown (trace (run (lift lib) (notebook Obj fuel) s)))
         = fuel
      /\ released (trace (run (lift lib) (notebook Obj fuel) s)) = [].
Proof.
  intros Obj S lib Hread Hkey fuel s.
  assert (Hloop : forall clf cap fuel s,
             exists s' tr,
               run (lift lib) (while_true fuel (loop_body clf cap)) s
               = (Return None, s', tr)
               /\ List.length (shown tr) = fuel).
  { clear fuel s. intros clf cap fuel.
    induction fuel as [| fuel IH]; intros s; cbn [while_true].
    - exists s, []. split; reflexivity.
    - destruct (run_loop_body_answers lib clf cap s)
        as [(frame & s1 & Hfalse & _)
           | (frame & gray & faces & key & s0 & s2 & s1 & _ & Hk & Hpass)].
      { pose proof (Hread cap s) as Hr. rewrite Hfalse in Hr.
        discriminate Hr. }
      erewrite run_bind_after by exact Hpass.
      pose proof (Hkey 1 s2) as Hne. rewrite Hk in Hne. cbn [fst] in Hne.
      destruct (Z.eqb_spec (key mod 256) 113) as [Heq | _];
        [contradiction |].
      destruct (IH s1) as (s4 & tr & Hrest & Hlen).
      rewrite Hrest. finish. eexists. eexists. split; [reflexivity |].
      unfold shown in *. rewrite view_app, length_app, Hlen.
      change (view _ (pass_calls clf cap frame gray faces key))
        with (shown (pass_calls clf cap frame gray faces key)).
      rewrite shown_pass_calls. reflexivity. }
  assert (Hrun : exists s' setup tr,
             run (lift lib) (notebook Obj fuel) s
             = (Return None, s', setup ++ tr)
             /\ shown setup = [] /\ released setup = []
             /\ List.length (shown tr) = fuel /\ released tr = []).
  { unfold notebook. unfold call at 1 2 3 4. cbn [bind].
    do 4 answer lib.
    destruct (Hloop x0 x1 fuel s3) as (s4 & tr & Hrun & Hlen).
    erewrite run_bind_after by exact Hrun.
    exists s4. eexists [_; _; _; _]. exists tr.
    split; [finish; rewrite ?app_nil_r; reflexivity |].
    split; [reflexivity | split; [reflexivity | split; [exact Hlen |]]].
    apply not_cleanup_released.
    pose proof (all_calls_trace (lift lib) s3
                  (while_true_not_cleanup fuel x0 x1)) as H.
    rewrite Hrun in H. exact H. }
  destruct Hrun as (s' & setup & tr & -> & Hs1 & Hs2 & Hlen & Hrel).
  unfold outcome, trace, shown, released in *. cbn [fst snd].
  rewrite !view_app, Hs1, Hs2, Hrel.
  split; [reflexivity | split; [exact Hlen | reflexivity]].
Qed.

Lemma loop_runs_until_break_witness :
  (forall cap s, fst (fst (Cameras.streaming (VideoCapture_read cap) s)) = true)
  /\ (forall delay s, fst (Cameras.streaming (waitKey delay) s) mod 256 <> 113)
  /\ outcome (run (lift Cameras.streaming) (notebook nat 3) 0%nat)
     = Return None
  /\ List.length
       (shown (trace (run (lift Cameras.streaming) (notebook nat 3) 0%nat)))
     = 3%nat
  /\ released (trace (run (lift Cameras.streaming) (notebook nat 3) 0%nat))
     = [].
Proof.
  assert (Hread : forall cap s,
             fst (fst (Cameras.streaming (VideoCapture_read cap) s)) = true)
    by reflexivity.
  assert (Hkey : forall delay s,
             fst (Cameras.streaming (waitKey delay) s) mod 256 <> 113)
    by (intros delay s; simpl; discriminate).
  split; [exact Hread | split; [exact Hkey |]].
  exact (loop_runs_until_break Cameras.streaming Hread Hkey 3 0%nat).
Defined.

(** X3: when the loop ends, the notebook releases the capture device it
    opened with [VideoCapture(0)] and closes the windows; these are its
    last two calls, and nothing is released before. *)
Theorem loop_end_releases_camera :
  forall (Obj S : Type) (lib : TotalLibrary (cvE Obj) S) (fuel : nat) (s : S),
    outcome (run (lift lib) (notebook Obj fuel) s) = Return (Some tt) ->
    exists dir face_classifier video_capture passes,
      released passes = []
      /\ trace (run (lift lib) (notebook Obj fuel) s)
         = [ returned (pip_install "opencv-python") tt;
             returned data_haarcascades dir;
             returned (CascadeClassifier
                         (dir ++ "haarcascade_frontalface_default.xml"))
               face_classifier;
             returned (VideoCapture 0) video_capture ]
           ++ passes
           ++ [ returned (VideoCapture_release video_capture) tt;
                returned destroyAllWindows tt ].
Proof.
  intros Obj S lib fuel s Hend.
  destruct (run_notebook_total lib fuel s)
    as (dir & clf & cap & r & s' & passes & Hrel & _ & _ & Hrun).
  rewrite Hrun in *. unfold outcome, trace in *. cbn [fst snd] in *.
  injection Hend as ->.
  exists dir, clf, cap, passes. split; [exact Hrel | reflexivity].
Qed.

Lemma loop_end_releases_camera_witness :
  outcome (run (lift Stub.cv_two_faces) (notebook nat 5) 0%nat)
  = Return (Some tt)
  /\ exists dir face_classifier video_capture passes,
      released passes = []
      /\ trace (run (lift Stub.cv_two_faces) (notebook nat 5) 0%nat)
         = [ returned (pip_install "opencv-python") tt;
             returned data_haarcascades dir;
             returned (CascadeClassifier
                         (dir ++ "haarcascade_frontalface_default.xml"))
               face_classifier;
             returned (VideoCapture 0) video_capture ]
           ++ passes
           ++ [ returned (VideoCapture_release video_capture) tt;
                returned destroyAllWindows tt ].
Proof.
  split; [reflexivity |].
  apply (loop_end_releases_camera Stub.cv_two_faces 5 0%nat).
  reflexivity.
Defined.

(** X4: there is no [try]/[finally] around the loop.  When a call other
    than the two clean-up calls raises, whatever the library, the capture
    device is never released. *)
Theorem camera_not_released_on_error :
  forall (Obj S : Type) (lib : Library (cvE Obj) S) (fuel : nat) (s : S)
         (before : list (Ev (cvE Obj))) (X : Type) (c : cvE Obj X) (e : Exn),
    trace (run lib (notebook Obj fuel) s) = before ++ [failed c e] ->
    is_cleanup c = false ->
    released (trace (run lib (notebook Obj fuel) s)) = [].
Proof.
  intros Obj S lib fuel s before X c e Htr Hc.
  destruct (run_notebook_cleanup lib fuel s)
    as [Hnone | (tr & ev & Hlast & Hev)]; [exact Hnone |].
  rewrite Htr in Hlast. apply app_inj_tail in Hlast as [_ <-].
  simpl in Hev. congruence.
Qed.

Lemma camera_not_released_on_error_witness :
  trace (run Cameras.rejecting (notebook unit 2) tt)
  = [ returned (pip_install "opencv-python") tt;
      returned data_haarcascades "/usr/share/opencv/haarcascades/";
      returned (CascadeClassifier
                  "/usr/share/opencv/haarcascades/haarcascade_frontalface_default.xml")
        tt;
      returned (VideoCapture 0) tt;
      returned (VideoCapture_read tt) (true, tt) ]
    ++ [ failed (cvtColor tt COLOR_BGR2GRAY)
           (LibraryError "cv2.error" "!_src.empty()") ]
  /\ is_cleanup (cvtColor tt COLOR_BGR2GRAY) = false
  /\ released (trace (run Cameras.rejecting (notebook unit 2) tt)) = [].
Proof.
  split; [reflexivity | split; [reflexivity |]].
  apply (@camera_not_released_on_error unit unit Cameras.rejecting 2 tt
           [ returned (pip_install "opencv-python") tt;
             returned data_haarcascades "/usr/share/opencv/haarcascades/";
             returned (CascadeClassifier
                         "/usr/share/opencv/haarcascades/haarcascade_frontalface_default.xml")
               tt;
             returned (VideoCapture 0) tt;
             returned (VideoCapture_read tt) (true, tt) ]
           _ (cvtColor tt COLOR_BGR2GRAY)
           (LibraryError "cv2.error" "!_src.empty()")).
  - reflexivity.
  - reflexivity.
Defined.

(** X5: every frame is processed once.  In every run of the notebook
    against a library that does not raise, the frames shown in the window
    are exactly the frames that the camera delivered, in order, and so are
    the frames that were converted to grayscale for detection: no frame
    is skipped or shown twice, and nothing is shown after a failed
    read. *)
Theorem every_frame_read_is_shown :
  forall (Obj S : Type) (lib : TotalLibrary (cvE Obj) S) (fuel : nat) (s : S),
    shown (trace (run (lift lib) (notebook Obj fuel) s))
    = frames_read (trace (run (lift lib) (notebook Obj fuel) s))
    /\ converted (trace (run (lift lib) (notebook Obj fuel) s))
       = frames_read (trace (run (lift lib) (notebook Obj fuel) s)).
Proof.
  intros Obj S lib fuel s.
  destruct (run_notebook_total lib fuel s)
    as (dir & clf & cap & r & s' & passes & _ & Hshown & Hconv & ->).
  cbn [trace snd]. unfold shown, converted in *.
  rewrite !view_app, !frames_read_app, Hshown, Hconv.
  destruct r; split; reflexivity.
Qed.

End FaceDetectionExtras.

(** ** The baseline classifiers *)

Section BaselineExtras.
Import Baseline.

(** X6: the baseline notebook keeps the test split out of training.  The
    data are split once (20 % test, seed 42); each of the three dummy
    classifiers (stratified, most frequent, uniform; seed 42) is fitted on
    the training part only, and then predicts for the test inputs only;
    every score and the report compare with the test labels. *)
Theorem baseline_fits_on_train_scores_on_test :
  forall (Obj S : Type) (lib : TotalLibrary (skE Obj) S) (s : S),
  exists data X y X_train X_test y_train y_test,
    firstn 4 (trace (run (lift lib) (notebook Obj) s))
    = [ returned load_breast_cancer data;
        returned (Bunch_data data) X;
        returned (Bunch_target data) y;
        returned (train_test_split X y (2 # 10) 42)
          (X_train, X_test, y_train, y_test) ]
    /\ classifiers (trace (run (lift lib) (notebook Obj) s))
       = [("stratified", 42); ("most_frequent", 42); ("uniform", 42)]
    /\ fitted (trace (run (lift lib) (notebook Obj) s))
       = constructed (trace (run (lift lib) (notebook Obj) s))
    /\ predicting (trace (run (lift lib) (notebook Obj) s))
       = constructed (trace (run (lift lib) (notebook Obj) s))
    /\ fitted_on (trace (run (lift lib) (notebook Obj) s))
       = [(X_train, y_train); (X_train, y_train); (X_train, y_train)]
    /\ predicted_on (trace (run (lift lib) (notebook Obj) s))
       = [X_test; X_test; X_test]
    /\ scored_against (trace (run (lift lib) (notebook Obj) s))
       = [y_test; y_test; y_test; y_test].
Proof.
  intros Obj S lib s.
  remember (run (lift lib) (notebook Obj) s) as r eqn:Hr.
  unfold notebook, call in Hr. cbn [bind] in Hr.
  rewrite run_call_after in Hr.
  destruct (lib _ load_breast_cancer s) as [data s1]. cbn [fst snd] in Hr.
  rewrite run_call_after in Hr.
  destruct (lib _ (Bunch_data data) s1) as [X s2]. cbn [fst snd] in Hr.
  rewrite run_call_after in Hr.
  destruct (lib _ (Bunch_target data) s2) as [y s3]. cbn [fst snd] in Hr.
  rewrite run_call_after in Hr.
  destruct (lib _ (train_test_split X y (2 # 10) 42) s3)
    as [[[[X_train X_test] y_train] y_test] s4]. cbn [fst snd] in Hr.
  exists data, X, y, X_train, X_test, y_train, y_test.
  run_all lib Hr.
  subst r. cbn [trace snd]. repeat split.
Qed.

End BaselineExtras.

(** ** The stages of the residual network *)

Section ResNetStages.
Import TF ResNet.
Context {Obj S : Type} (lib : TotalLibrary (tfE Obj) S).

Lemma run_call X (c : tfE Obj X) (s : S) :
  run (lift lib) (call c) s
  = (Return (fst (@lib _ c s)), snd (@lib _ c s),
     [returned c (fst (@lib _ c s))]).
Proof. reflexivity. Qed.

Lemma instances_app (tr1 tr2 : list (Ev (tfE Obj))) :
  instances (tr1 ++ tr2) = instances tr1 ++ instances tr2.
Proof. apply flat_map_app. Qed.

Lemma instances_cons (ev : Ev (tfE Obj)) (tr : list (Ev (tfE Obj))) :
  instances (ev :: tr) = instance_of ev ++ instances tr.
Proof. reflexivity. Qed.

(** One pass of the loop of [block]: one residual block is created and
    added. *)
Lemma run_add_residual (blk : Obj) (num_channels : Z) (use_1x1conv : bool)
  (strides : IntOrPair) (s : S) :
  exists r s' tr,
    run (lift lib)
      (r <- new_Residual num_channels use_1x1conv strides ;;
       call (Sequential_add blk (self r))) s
    = (Return tt, s', tr)
    /\ conv_layers tr = residual_convs num_channels use_1x1conv strides
    /\ dense_layers tr = []
    /\ instances tr = [("Residual", r)]
    /\ added_to tr = [(blk, r)].
Proof.
  unfold new_Residual, Residual_init, call.
  destruct use_1x1conv; cbn [bind self].
  - do 8 answer (@lib). finish. repeat eexists.
  - do 7 answer (@lib). finish. repeat eexists.
Qed.

Lemma run_block_loop (blk : Obj) (num_channels : Z) (first_block : bool)
  (indices : list Z) :
  forall s : S,
  exists s' tr rs,
    run (lift lib)
      (for_each indices (fun i =>
         if Z.eqb i 0 && negb first_block
         then r <- new_Residual num_channels true (int 2) ;;
              call (Sequential_add blk (self r))
         else r <- new_Residual num_channels false (int 1) ;;
              call (Sequential_add blk (self r)))) s
    = (Return tt, s', tr)
    /\ conv_layers tr
       = flat_map (fun i =>
                     if Z.eqb i 0 && negb first_block
                     then residual_convs num_channels true (int 2)
                     else residual_convs num_channels false (int 1)) indices
    /\ dense_layers tr = []
    /\ List.length rs = List.length indices
    /\ instances tr = map (fun r => ("Residual", r)) rs
    /\ added_to tr = map (fun r => (blk, r)) rs.
Proof.
  induction indices as [| i indices IH]; intros s.
  - exists s, [], []. repeat split.
  - cbn [for_each].
    assert (Hone : exists r s1 tr1,
               run (lift lib)
                 (if Z.eqb i 0 && negb first_block
                  then r <- new_Residual num_channels true (int 2) ;;
                       call (Sequential_add blk (self r))
                  else r <- new_Residual num_channels false (int 1) ;;
                       call (Sequential_add blk (self r))) s
               = (Return tt, s1, tr1)
               /\ conv_layers tr1
                  = (if Z.eqb i 0 && negb first_block
                     then residual_convs num_channels true (int 2)
                     else residual_convs num_channels false (int 1))
               /\ dense_layers tr1 = []
               /\ instances tr1 = [("Residual", r)]
               /\ added_to tr1 = [(blk, r)]).
    { destruct (Z.eqb i 0 && negb first_block); apply run_add_residual. }
    destruct Hone as (r & s1 & tr1 & Hrun1 & Hc1 & Hd1 & Hi1 & Ha1).
    destruct (IH s1) as (s2 & tr2 & rs & Hrun2 & Hc2 & Hd2 & Hlen & Hi2 & Ha2).
    exists s2, (tr1 ++ tr2), (r :: rs).
    split.
    { erewrite run_bind_after by exact Hrun1. rewrite Hrun2. reflexivity. }
    unfold conv_layers, dense_layers, added_to in *.
    rewrite !view_app, instances_app, Hc1, Hc2, Hd1, Hd2, Hi1, Hi2, Ha1, Ha2.
    cbn [flat_map map List.app List.length].
    repeat split. congruence.
Qed.

Lemma run_block (num_residuals num_channels : Z) (first_block : bool)
  (s : S) :
  exists blk s' tr rs,
    run (lift lib) (block num_residuals num_channels first_block) s
    = (Return blk, s', tr)
    /\ conv_layers tr = stage_convs num_residuals num_channels first_block
    /\ dense_layers tr = []
    /\ List.length rs = Z.to_nat num_residuals
    /\ instances tr = map (fun r => ("Residual", r)) rs
    /\ added_to tr = map (fun r => (blk, r)) rs.
Proof.
  unfold block. unfold call at 1. cbn [bind].
  answer (@lib).
  destruct (run_block_loop x num_channels first_block (range num_residuals) s0)
    as (s1 & tr & rs & Hrun & Hc & Hd & Hlen & Hi & Ha).
  erewrite run_bind_after by exact Hrun. finish.
  exists x, s1. eexists. exists rs.
  split; [reflexivity |].
  rewrite app_nil_r. rewrite range_length in Hlen.
  change (conv_layers (?e :: tr)) with (conv_layers tr).
  change (dense_layers (?e :: tr)) with (dense_layers tr).
  change (instances (?e :: tr)) with (instances tr).
  change (added_to (?e :: tr)) with (added_to tr).
  repeat split; assumption.
Qed.

Lemma run_stages (net : Obj) (stages : list (Z * (Z * Z))) :
  forall s : S,
  exists s' tr,
    run (lift lib)
      (for_each stages (fun '(i, (num_residuals, num_channels)) =>
         b <- block num_residuals num_channels (Z.eqb i 0) ;;
         call (Sequential_add net b))) s
    = (Return tt, s', tr)
    /\ conv_layers tr
       = flat_map (fun '(i, (num_residuals, num_channels)) =>
                     stage_convs num_residuals num_channels (Z.eqb i 0))
           stages
    /\ dense_layers tr = []
    /\ List.length (instances tr)
       = list_sum (map (fun '(_, (num_residuals, _)) =>
                          Z.to_nat num_residuals) stages).
Proof.
  induction stages as [| [i [n c]] stages IH]; intros s.
  - exists s, []. repeat split.
  - cbn [for_each].
    destruct (run_block n c (Z.eqb i 0) s)
      as (b & s1 & tr1 & rs & Hrun1 & Hc1 & Hd1 & Hlen & Hi1 & _).
    destruct (@lib _ (Sequential_add net b) s1) as [[] s2] eqn:Hadd.
    destruct (IH s2) as (s3 & tr2 & Hrun2 & Hc2 & Hd2 & Hi2).
    exists s3, (tr1 ++ [returned (Sequential_add net b) tt] ++ tr2).
    assert (Hone : run (lift lib)
                     (b <- block n c (Z.eqb i 0) ;;
                      call (Sequential_add net b)) s
                   = (Return tt, s2,
                      tr1 ++ [returned (Sequential_add net b) tt])).
    { erewrite run_bind_after by exact Hrun1.
      rewrite run_call, Hadd. reflexivity. }
    split.
    { erewrite run_bind_after by exact Hone. rewrite Hrun2.
      rewrite after_triple, <- app_assoc. reflexivity. }
    unfold conv_layers, dense_layers in *.
    rewrite !view_app, !instances_app, !length_app, Hc1, Hc2, Hd1, Hd2, Hi1,
      Hi2, length_map, Hlen.
    repeat split.
Qed.

Lemma map_enumerate A B (g : A -> B) (xs : list A) :
  map (fun '(_, x) => g x) (enumerate xs) = map g xs.
Proof.
  unfold enumerate.
  assert (H : forall ixs : list Z,
             List.length ixs = List.length xs ->
             map (fun '(_, x) => g x) (combine ixs xs) = map g xs).
  { induction xs as [| x xs IH]; intros [| i ixs] Hlen;
      simpl in *; try discriminate; try reflexivity.
    f_equal. apply IH. congruence. }
  apply H. rewrite range_length, Nat2Z.id. reflexivity.
Qed.

Lemma run_ResNet_init (self : Obj) (arch : list (Z * Z)) (lr : Q)
  (num_classes : Z) (s : S) :
  exists net s' tr,
    run (lift lib) (ResNet_init self arch lr num_classes) s
    = (Return (mkResNet self net), s', tr)
    /\ conv_layers tr
       = conv2d_args 64 (int 7) (Some (int 2)) (Some same) None None None
         :: flat_map (fun '(i, (num_residuals, num_channels)) =>
                        stage_convs num_residuals num_channels (Z.eqb i 0))
              (enumerate arch)
    /\ dense_layers tr = [(num_classes, None, None)]
    /\ List.length (instances tr)
       = list_sum (map (fun '(num_residuals, _) => Z.to_nat num_residuals)
                     arch).
Proof.
  unfold ResNet_init, b1. unfold call at 1 2 3 4 5 6 7 8. cbn [bind].
  do 8 answer (@lib).
  destruct (run_stages x4 (enumerate arch) s7)
    as (s8 & tr & Hrun & Hc & Hd & Hi).
  erewrite run_bind_after by exact Hrun.
  unfold call. cbn [bind].
  do 4 answer (@lib). finish.
  exists x4. eexists. eexists. split; [reflexivity |].
  unfold conv_layers, dense_layers in *.
  rewrite !view_cons, !view_app, !view_cons, !view_empty.
  cbv beta iota. cbn [List.app]. rewrite Hc, Hd, !app_nil_r.
  repeat split.
  rewrite !instances_cons, !instances_app, !instances_cons.
  cbn [instance_of instances flat_map List.app List.length].
  rewrite length_app, Hi.
  cbn [List.length]. rewrite Nat.add_0_r.
  f_equal. apply map_enumerate.
Qed.

End ResNetStages.

Section ResNetExtras.
Import TF ResNet.

Lemma later_blocks_keep_resolution (num_channels : Z) (first_block : bool)
  (indices : list Z) :
  Forall (fun i => i <> 0) indices ->
  filter is_1x1
    (flat_map (fun i =>
                 if Z.eqb i 0 && negb first_block
                 then residual_convs num_channels true (int 2)
                 else residual_convs num_channels false (int 1)) indices)
  = [].
Proof.
  induction 1 as [| i indices Hi _ IH]; [reflexivity |].
  cbn [flat_map]. rewrite filter_app, IH.
  apply Z.eqb_neq in Hi. rewrite Hi. reflexivity.
Qed.

Lemma stage_shortcuts (num_residuals num_channels : Z) (first_block : bool) :
  filter is_1x1 (stage_convs num_residuals num_channels first_block)
  = if negb first_block && (0 <? num_residuals)
    then [conv2d_args num_channels (int 1) (Some (int 2)) None None None
            None]
    else [].
Proof.
  unfold stage_convs, range.
  destruct (Z.ltb_spec 0 num_residuals) as [Hpos | Hneg].
  - destruct (Z.to_nat num_residuals) as [| k] eqn:Hk; [lia |].
    cbn [seq map flat_map]. rewrite filter_app.
    rewrite later_blocks_keep_resolution.
    + destruct first_block; reflexivity.
    + apply Forall_forall. intros i Hin.
      apply in_map_iff in Hin as (j & <- & Hj). apply in_seq in Hj. lia.
  - rewrite andb_false_r.
    replace (Z.to_nat num_residuals) with O by lia. reflexivity.
Qed.

(** X7: [ResNet.block] builds a stage of exactly [num_residuals] residual
    blocks (none when the number is zero or negative) and adds them, in
    the order of their creation, to the sequential model it returns.  Only
    the first block of the stage can change the resolution: it gets the
    strided 1x1 convolution on its shortcut unless [first_block] is set;
    every other block is a plain [Residual(num_channels)]. *)
Theorem block_residuals :
  forall (Obj S : Type) (lib : TotalLibrary (tfE Obj) S) (s : S)
         (num_residuals num_channels : Z) (first_block : bool),
  exists blk s' tr residuals,
    run (lift lib) (block num_residuals num_channels first_block) s
    = (Return blk, s', tr)
    /\ List.length residuals = Z.to_nat num_residuals
    /\ instances tr = map (fun r => ("Residual", r)) residuals
    /\ added_to tr = map (fun r => (blk, r)) residuals
    /\ conv_layers tr = stage_convs num_residuals num_channels first_block
    /\ filter is_1x1 (conv_layers tr)
       = if negb first_block && (0 <? num_residuals)
         then [conv2d_args num_channels (int 1) (Some (int 2)) None None
                 None None]
         else [].
Proof.
  intros Obj S lib s n c fb.
  destruct (run_block lib n c fb s)
    as (blk & s' & tr & rs & Hrun & Hc & _ & Hlen & Hi & Ha).
  exists blk, s', tr, rs.
  rewrite Hc, stage_shortcuts. repeat split; assumption.
Qed.



(** X10: [createResNetModel] builds the ResNet101 backbone without its
    top and without pretrained weights, for inputs of 32x32x3; marks every
    layer of the backbone trainable, in the order in which the library
    lists them; stacks on the backbone a flatten layer and the dense
    layers of 2048, 1024 and 512 units (ReLU), each followed by a dropout
    of 0.5, and the dense layer of 10 units (softmax); prints the summary
    and returns the stacked model. *)
Theorem createResNetModel_builds :
  forall (Obj S : Type) (lib : TotalLibrary (tfE Obj) S) (s : S),
  exists backbone layers model flatten d1 p1 d2 p2 d3 p3 d4 s',
    run (lift lib) createResNetModel s
    = (Return model, s',
       [ returned (ResNet101 false None [32; 32; 3]) backbone;
         returned (layers_of backbone) layers ]
       ++ map (fun layer => returned (set_trainable layer true) tt) layers
       ++ [ returned (Sequential no_layers) model;
            returned (Sequential_add model backbone) tt;
            returned Flatten flatten;
            returned (Sequential_add model flatten) tt;
            returned (Dense 2048 (Some "relu") None) d1;
            returned (Sequential_add model d1) tt;
            returned (Dropout (5 # 10)) p1;
            returned (Sequential_add model p1) tt;
            returned (Dense 1024 (Some "relu") None) d2;
            returned (Sequential_add model d2) tt;
            returned (Dropout (5 # 10)) p2;
            returned (Sequential_add model p2) tt;
            returned (Dense 512 (Some "relu") None) d3;
            returned (Sequential_add model d3) tt;
            returned (Dropout (5 # 10)) p3;
            returned (Sequential_add model p3) tt;
            returned (Dense 10 (Some "softmax") None) d4;
            returned (Sequential_add model d4) tt;
            returned (summary model) tt ]).
Proof.
  intros Obj S lib s.
  unfold createResNetModel, input_shape. unfold call at 1 2. cbn [bind].
  do 2 answer lib.
  destruct (run_for_each_calls lib (fun layer => set_trainable layer true)
              x0 s1) as [s2 Hloop].
  erewrite run_bind_after by exact Hloop.
  unfold call. cbn [bind].
  do 19 answer lib. finish.
  repeat eexists.
Qed.

End ResNetExtras.

(** ** The wiring of the U-Net *)

Section UNetExtras.
Import TF UNet.

(** X11: the skip connections of the U-Net.  The model pools four times,
    and concatenates four times: the i-th concatenation joins, in this
    order, the output of the i-th transposed convolution and the tensor
    that went into the pooling of the matching encoder level, deepest
    level first. *)
Theorem unet_skip_connections :
  forall (Obj S : Type) (lib : TotalLibrary (tfE Obj) S) (s : S),
    let tr := trace (run (lift lib) unet s) in
    List.length (pooled tr) = 4%nat
    /\ List.length (upsampled tr) = 4%nat
    /\ concatenated tr
       = map (fun '(u, f) => [u; f])
           (combine (upsampled tr) (rev (pooled tr))).
Proof.
  intros Obj S lib s tr. subst tr.
  remember (run (lift lib) unet s) as r eqn:Hr.
  unfold unet, encoder, encoder_block, bottleneck, decoder, decoder_block,
    conv2d_block, conv_relu, through, OUTPUT_CHANNELS, call in Hr.
  cbn [bind] in Hr.
  run_all lib Hr.
  subst r. cbn [trace snd]. repeat split.
Qed.

(** X12: what [decoder_block] does with its arguments.  [n_filters],
    [kernel_size] and [strides] configure the transposed convolution
    (padding "same"), and [dropout] is the rate of the dropout layer; the
    two convolutions after the concatenation are always 3x3, with
    [n_filters] filters, whatever [kernel_size] is. *)
Theorem decoder_block_arguments :
  forall (Obj S : Type) (lib : TotalLibrary (tfE Obj) S) (s : S)
         (inputs conv_output : Obj) (n_filters : Z)
         (kernel_size strides : IntOrPair) (dropout : Q),
    let tr := trace (run (lift lib)
                       (decoder_block inputs conv_output n_filters
                          kernel_size strides dropout) s) in
    transposed_layers tr = [(n_filters, kernel_size, strides, same)]
    /\ dropout_rates tr = [dropout]
    /\ conv_layers tr
       = [ conv2d_args n_filters (pair2 3 3) None (Some same)
             (Some "he_normal") None None;
           conv2d_args n_filters (pair2 3 3) None (Some same)
             (Some "he_normal") None None ]
    /\ exists u, upsampled tr = [u] /\ concatenated tr = [[u; conv_output]].
Proof.
  intros Obj S lib s inputs conv_output n k st d tr. subst tr.
  unfold decoder_block, conv2d_block, conv_relu, through, call.
  cbn [bind].
  remember (run (lift lib) _ s) as r eqn:Hr.
  run_all lib Hr.
  subst r. cbn [trace snd]. repeat split. eexists. split; reflexivity.
Qed.

End UNetExtras.

(** ** More on the WGAN-GP notebook *)

Section WGANTrace.
Import TF WGANGP Published.
Context {Obj S : Type} (lib : TotalLibrary (tfE Obj) S).
Hypothesis arity : gradient_arity lib.
Variables (w : WGAN Obj) (dopt gopt : Obj).

(** A training step for any number of discriminator steps: the calls it
    makes, and how it ends. *)
Lemma run_train_step_any (data : Data Obj) (real : Obj) (s : S) :
  batch_of data = Some real ->
  exists sh batch ds g s',
    List.length ds = Z.to_nat (d_steps w)
    /\ run (lift lib)
         (train_step
            (mkCompiled w dopt gopt (@discriminator_loss Obj)
               (@generator_loss Obj)) data) s
       = (match bound_d_loss None ds with
          | Some d => Return [("d_loss", d); ("g_loss", g_loss g)]
          | None => Raised (UnboundLocalError "d_loss")
          end, s',
          returned (tf_shape real) sh
          :: returned (getitem sh 0) batch
          :: flat_map
               (discriminator_update
                  (mkCompiled w dopt gopt (@discriminator_loss Obj)
                     (@generator_loss Obj)) batch real) ds
          ++ generator_update
               (mkCompiled w dopt gopt (@discriminator_loss Obj)
                  (@generator_loss Obj)) batch g).
Proof.
  intros Hdata.
  assert (Hreal : match data with
                  | tuple xs => first xs
                  | tensor x => Ret x
                  end = @Ret (tfE Obj) _ real).
  { destruct data as [x | [| x xs]]; simpl in Hdata; try discriminate;
      injection Hdata as <-; reflexivity. }
  unfold train_step. rewrite Hreal. cbn [bind]. unfold call at 1 2.
  cbn [bind wgan]. rewrite run_call_after.
  destruct (@lib _ (tf_shape real) s) as [sh s1]. cbn [fst snd].
  rewrite run_call_after.
  destruct (@lib _ (getitem sh 0) s1) as [batch s2]. cbn [fst snd].
  destruct (run_discriminator_loop arity w dopt gopt
              (Z.to_nat (d_steps w)) batch real None s2)
    as (ds & s3 & Hlen & Hloop).
  destruct (run_generator_step lib w dopt gopt batch s3) as (g & s4 & Hgen).
  exists sh, batch, ds, g, s4. split; [exact Hlen |].
  erewrite run_bind_after by exact Hloop.
  erewrite run_bind_after by exact Hgen.
  destruct (bound_d_loss None ds); finish; rewrite app_nil_r; reflexivity.
Qed.

Lemma forward_passes_updates (batch real : Obj)
  (ds : list (DiscriminatorAnswers Obj)) :
  forward_passes
    (flat_map
       (discriminator_update
          (mkCompiled w dopt gopt (@discriminator_loss Obj)
             (@generator_loss Obj)) batch real) ds)
  = List.concat
      (repeat [ (generator w, Some true); (discriminator w, Some true);
                (discriminator w, Some true); (discriminator w, Some true) ]
         (List.length ds)).
Proof.
  induction ds as [| a ds IH]; [reflexivity |].
  cbn [flat_map List.length repeat List.concat].
  unfold forward_passes in *. rewrite view_app, IH. reflexivity.
Qed.

Lemma random_draws_updates (batch real : Obj)
  (ds : list (DiscriminatorAnswers Obj)) :
  random_draws
    (flat_map
       (discriminator_update
          (mkCompiled w dopt gopt (@discriminator_loss Obj)
             (@generator_loss Obj)) batch real) ds)
  = List.concat
      (repeat [ [DimT batch; DimK (latent_dim w)];
                [DimT batch; DimK 1; DimK 1; DimK 1] ]
         (List.length ds)).
Proof.
  induction ds as [| a ds IH]; [reflexivity |].
  cbn [flat_map List.length repeat List.concat].
  unfold random_draws in *. rewrite view_app, IH. reflexivity.
Qed.

End WGANTrace.

Section WGANExtras.
Import Stdlib.Strings.Ascii.
Import TF WGANGP Published.

(** X13: without discriminator steps the training step cannot return.
    For every [d_steps <= 0] the loop body never runs; the step still
    draws noise and updates the generator once, and then raises
    [UnboundLocalError] on [d_loss]. *)
Theorem train_step_unbound_d_loss :
  forall (Obj S : Type) (lib : TotalLibrary (tfE Obj) S)
         (w : WGAN Obj) (d_optimizer g_optimizer : Obj)
         (data : Data Obj) (real_images : Obj) (s : S),
    gradient_arity lib ->
    batch_of data = Some real_images ->
    d_steps w <= 0 ->
    let c := mkCompiled w d_optimizer g_optimizer
               (@discriminator_loss Obj) (@generator_loss Obj) in
    exists sh batch_size g s',
      run (lift lib) (train_step c data) s
      = (Raised (UnboundLocalError "d_loss"), s',
         returned (tf_shape real_images) sh
         :: returned (getitem sh 0) batch_size
         :: generator_update c batch_size g).
Proof.
  intros Obj S lib w dopt gopt data real s Harity Hdata Hsteps c.
  destruct (run_train_step_any Harity w dopt gopt data s Hdata)
    as (sh & batch & ds & g & s' & Hlen & Hrun).
  replace (Z.to_nat (d_steps w)) with O in Hlen by lia.
  destruct ds; [| discriminate Hlen].
  exists sh, batch, g, s'. exact Hrun.
Qed.

Lemma train_step_unbound_d_loss_witness :
  gradient_arity tf_named
  /\ batch_of (tuple ["real_images"; "labels"]) = Some "real_images"
  /\ d_steps (mkWGAN "wgan" "discriminator" "generator" 128 (-2) (10 # 1))
     <= 0
  /\ exists sh batch_size g s',
      run (lift tf_named)
        (train_step
           (mkCompiled
              (mkWGAN "wgan" "discriminator" "generator" 128 (-2) (10 # 1))
              "d_optimizer" "g_optimizer"
              (@discriminator_loss string) (@generator_loss string))
           (tuple ["real_images"; "labels"])) tt
      = (Raised (UnboundLocalError "d_loss"), s',
         returned (tf_shape "real_images") sh
         :: returned (getitem sh 0) batch_size
         :: generator_update
              (mkCompiled
                 (mkWGAN "wgan" "discriminator" "generator" 128 (-2)
                    (10 # 1))
                 "d_optimizer" "g_optimizer"
                 (@discriminator_loss string) (@generator_loss string))
              batch_size g).
Proof.
  split; [exact tf_named_arity |].
  split; [reflexivity |].
  split; [simpl; lia |].
  apply (@train_step_unbound_d_loss string unit tf_named
           (mkWGAN "wgan" "discriminator" "generator" 128 (-2) (10 # 1))
           "d_optimizer" "g_optimizer" (tuple ["real_images"; "labels"])
           "real_images" tt).
  - exact tf_named_arity.
  - reflexivity.
  - simpl; lia.
Defined.

(** X14: the forward passes of a training step.  Every discriminator
    step runs the generator once and the discriminator three times (on
    the fake batch, on the real batch, and on the interpolated batch of
    the gradient penalty); the generator step runs each network once:
    4 d_steps + 2 passes in all, every one of them with [training=True].
    [GANMonitor.on_epoch_end], by contrast, runs the generator once and
    leaves the training flag to the library's default. *)
Theorem train_step_forward_passes :
  forall (Obj S : Type) (lib : TotalLibrary (tfE Obj) S),
    gradient_arity lib ->
    (forall (w : WGAN Obj) (d_optimizer g_optimizer : Obj)
            (data : Data Obj) (real_images : Obj) (s : S),
        batch_of data = Some real_images ->
        forward_passes
          (trace (run (lift lib)
                    (train_step
                       (mkCompiled w d_optimizer g_optimizer
                          (@discriminator_loss Obj) (@generator_loss Obj))
                       data) s))
        = List.concat
            (repeat [ (generator w, Some true);
                      (discriminator w, Some true);
                      (discriminator w, Some true);
                      (discriminator w, Some true) ]
               (Z.to_nat (d_steps w)))
          ++ [ (generator w, Some true); (discriminator w, Some true) ])
    /\ (forall (m : GANMonitor Obj) (model : WGAN Obj) (epoch : Z) (s : S),
          forward_passes
            (trace (run (lift lib) (on_epoch_end m model epoch) s))
          = [ (generator model, None) ]).
Proof.
  intros Obj S lib Harity. split.
  - intros w dopt gopt data real s Hdata.
    destruct (run_train_step_any Harity w dopt gopt data s Hdata)
      as (sh & batch & ds & g & s' & Hlen & ->).
    cbn [trace snd]. unfold forward_passes.
    rewrite !view_cons, view_app. cbv beta iota. cbn [List.app].
    change (view ?f (flat_map ?g ds)) with (forward_passes (flat_map g ds)).
    rewrite forward_passes_updates, Hlen. reflexivity.
  - intros m model epoch s.
    destruct (run_on_epoch_end lib m model epoch s)
      as (noise & generated & scaled & images & saved & s' & _ & ->).
    cbn [trace snd]. unfold forward_passes.
    rewrite view_app.
    rewrite (@view_nil _ _ _ (flat_map _ _)); [reflexivity |].
    apply Forall_flat_map. apply Forall_forall.
    intros [i [[row array] img]] _. repeat constructor.
Qed.

Lemma train_step_forward_passes_witness :
  gradient_arity tf_named
  /\ batch_of (tensor "real_images") = Some "real_images"
  /\ forward_passes
       (trace (run (lift tf_named)
                 (train_step
                    (mkCompiled
                       (mkWGAN "wgan" "discriminator" "generator" 128 3
                          (10 # 1))
                       "d_optimizer" "g_optimizer"
                       (@discriminator_loss string)
                       (@generator_loss string))
                    (tensor "real_images")) tt))
     = List.concat
         (repeat [ ("generator", Some true); ("discriminator", Some true);
                   ("discriminator", Some true);
                   ("discriminator", Some true) ] 3)
       ++ [ ("generator", Some true); ("discriminator", Some true) ].
Proof.
  split; [exact tf_named_arity | split; [reflexivity |]].
  exact (proj1 (@train_step_forward_passes string unit tf_named
                  tf_named_arity)
           (mkWGAN "wgan" "discriminator" "generator" 128 3 (10 # 1))
           "d_optimizer" "g_optimizer" (tensor "real_images")
           "real_images" tt eq_refl).
Defined.

(** X15: noise is never reused within a training step.  Every
    discriminator step draws a fresh latent batch of shape
    (batch_size, latent_dim) and a fresh interpolation coefficient of
    shape (batch_size, 1, 1, 1), and the generator step draws a latent
    batch of its own: 2 d_steps + 1 draws in all, where batch_size is the
    first entry of the shape of the real images. *)
Theorem train_step_random_draws :
  forall (Obj S : Type) (lib : TotalLibrary (tfE Obj) S)
         (w : WGAN Obj) (d_optimizer g_optimizer : Obj)
         (data : Data Obj) (real_images : Obj) (s : S),
    gradient_arity lib ->
    batch_of data = Some real_images ->
    let tr := trace (run (lift lib)
                       (train_step
                          (mkCompiled w d_optimizer g_optimizer
                             (@discriminator_loss Obj)
                             (@generator_loss Obj)) data) s) in
    exists sh batch_size rest,
      tr = returned (tf_shape real_images) sh
           :: returned (getitem sh 0) batch_size :: rest
      /\ random_draws tr
         = List.concat
             (repeat [ [DimT batch_size; DimK (latent_dim w)];
                       [DimT batch_size; DimK 1; DimK 1; DimK 1] ]
                (Z.to_nat (d_steps w)))
           ++ [ [DimT batch_size; DimK (latent_dim w)] ].
Proof.
  intros Obj S lib w dopt gopt data real s Harity Hdata tr. subst tr.
  destruct (run_train_step_any Harity w dopt gopt data s Hdata)
    as (sh & batch & ds & g & s' & Hlen & ->).
  cbn [trace snd]. exists sh, batch. eexists. split; [reflexivity |].
  unfold random_draws.
  rewrite !view_cons, view_app. cbv beta iota. cbn [List.app].
  change (view ?f (flat_map ?g ds)) with (random_draws (flat_map g ds)).
  rewrite random_draws_updates, Hlen. reflexivity.
Qed.

Lemma train_step_random_draws_witness :
  gradient_arity tf_named
  /\ batch_of (tensor "real_images") = Some "real_images"
  /\ exists sh batch_size rest,
      trace (run (lift tf_named)
               (train_step
                  (mkCompiled
                     (mkWGAN "wgan" "discriminator" "generator" 128 3
                        (10 # 1))
                     "d_optimizer" "g_optimizer"
                     (@discriminator_loss string) (@generator_loss string))
                  (tensor "real_images")) tt)
      = returned (tf_shape "real_images") sh
        :: returned (getitem sh 0) batch_size :: rest
      /\ random_draws
           (trace (run (lift tf_named)
                     (train_step
                        (mkCompiled
                           (mkWGAN "wgan" "discriminator" "generator" 128 3
                              (10 # 1))
                           "d_optimizer" "g_optimizer"
                           (@discriminator_loss string)
                           (@generator_loss string))
                        (tensor "real_images")) tt))
         = List.concat
             (repeat [ [DimT batch_size; DimK 128];
                       [DimT batch_size; DimK 1; DimK 1; DimK 1] ] 3)
           ++ [ [DimT batch_size; DimK 128] ].
Proof.
  split; [exact tf_named_arity | split; [reflexivity |]].
  exact (@train_step_random_draws string unit tf_named
           (mkWGAN "wgan" "discriminator" "generator" 128 3 (10 # 1))
           "d_optimizer" "g_optimizer" (tensor "real_images")
           "real_images" tt tf_named_arity eq_refl).
Defined.

Lemma digits_no_underscore (d : Decimal.uint) :
  occurs "_"%char (NilEmpty.string_of_uint d) = false.
Proof. induction d; simpl; auto. Qed.

Lemma str_no_underscore (n : Z) : occurs "_"%char (str n) = false.
Proof.
  unfold str. destruct (Z.to_int n) as [d | d]; simpl;
    apply digits_no_underscore.
Qed.

Lemma split_at_underscore (a b r r' : string) :
  occurs "_"%char a = false -> occurs "_"%char b = false ->
  (a ++ String "_"%char r)%string = (b ++ String "_"%char r')%string ->
  a = b /\ r = r'.
Proof.
  revert b. induction a as [| x a IH]; intros [| y b] Ha Hb H; simpl in *.
  - injection H as ->. split; reflexivity.
  - injection H as <- _. simpl in Hb. discriminate Hb.
  - injection H as -> _. simpl in Ha. discriminate Ha.
  - injection H as -> H.
    apply orb_false_iff in Ha as [_ Ha]. apply orb_false_iff in Hb as [_ Hb].
    destruct (IH b Ha Hb H) as [-> ->]. split; reflexivity.
Qed.

(** X16: the files of [GANMonitor.on_epoch_end] never overwrite one
    another: the name generated_img_{i}_{epoch}.png determines both the
    index and the epoch. *)
Theorem generated_img_no_collision :
  forall i epoch j epoch' : Z,
    generated_img i epoch = generated_img j epoch' ->
    i = j /\ epoch = epoch'.
Proof.
  intros i e j f H. unfold generated_img in H.
  apply append_cancel_l in H.
  apply split_at_underscore in H as [Hi He];
    [| apply str_no_underscore | apply str_no_underscore].
  apply append_cancel_r in He.
  split; apply str_injective; assumption.
Qed.

Lemma generated_img_no_collision_witness :
  generated_img 1 12 = generated_img 1 12 /\ 1 = 1 /\ 12 = 12.
Proof.
  split; [reflexivity |].
  exact (@generated_img_no_collision 1 12 1 12 eq_refl).
Defined.

End WGANExtras.

Section WGANModels.
Import TF WGANGP Arrays.

Lemma critic_calls (Obj : Type) :
  all_calls (@not_batch_norm Obj) get_discriminator_model.
Proof. calls. Qed.

Lemma not_batch_norm_count (Obj : Type) (tr : list (Ev (tfE Obj))) :
  Forall (ev_satisfies (@not_batch_norm Obj)) tr -> batch_norms tr = 0%nat.
Proof.
  intros H. unfold batch_norms. rewrite view_nil; [reflexivity |].
  revert H. apply Forall_impl.
  intros [X c x | X c e]; simpl; destruct c; (contradiction || reflexivity).
Qed.


Lemma normalized_pixels_in_range :
  forallb (fun n =>
             float32_leb (f32_of_Z (-1))
               (normalize_float32 (f32_of_Z (Z.of_nat n)))
             && float32_leb (normalize_float32 (f32_of_Z (Z.of_nat n)))
                  (f32_of_Z 1))
    (seq 0 256) = true.
Proof. vm_compute. reflexivity. Qed.

(** X18: the ranges fit.  The normalization of the training images maps
    pixel values (0 to 255) into [-1, 1], the range of the generator's
    tanh output: exactly in rational arithmetic, and also in the float32
    arithmetic of the arrays for the 256 pixel values.  The
    denormalization of [GANMonitor.on_epoch_end] maps [-1, 1] back into
    [0, 255]. *)
Theorem normalize_range :
  (forall pixels : list Q,
      Forall (fun v => 0 <= v <= 255)%Q pixels ->
      exists normalized,
        outcome (run (lift exact) (normalize pixels) tt) = Return normalized
        /\ Forall (fun y => - (1) <= y <= 1)%Q normalized)
  /\ (forall pixels : list Z,
        Forall pixel pixels ->
        exists normalized,
          outcome (run (lift numpy_float32)
                     (normalize (map f32_of_Z pixels)) tt)
          = Return normalized
          /\ Forall (fun y => float32_leb (f32_of_Z (-1)) y
                              && float32_leb y (f32_of_Z 1) = true)
               normalized)
  /\ (forall values : list Q,
        Forall (fun y => - (1) <= y <= 1)%Q values ->
        exists images,
          outcome (run (lift exact) (denormalize values) tt) = Return images
          /\ Forall (fun v => 0 <= v <= 255)%Q images).
Proof.
  split; [| split].
  - intros pixels Hpx. eexists. split; [reflexivity |].
    simpl. rewrite map_map.
    induction Hpx as [| q pixels [H1 H2] _ IH]; simpl; constructor;
      [| exact IH].
    unfold Qle in *. destruct q as [a b]. simpl in *.
    rewrite ?Pos2Z.inj_mul. split; lia.
  - intros pixels Hpx. eexists. split; [reflexivity |].
    simpl. rewrite !map_map.
    induction Hpx as [| v pixels [Hlo Hhi] _ IH]; simpl; constructor;
      [| exact IH].
    rewrite <- (Z2Nat.id v) by exact Hlo.
    apply (proj1 (forallb_forall _ _) normalized_pixels_in_range
             (Z.to_nat v)).
    apply in_seq. lia.
  - intros values Hv. eexists. split; [reflexivity |].
    simpl. rewrite map_map.
    induction Hv as [| q values [H1 H2] _ IH]; simpl; constructor;
      [| exact IH].
    unfold Qle in *. destruct q as [a b]. simpl in *.
    rewrite ?Pos2Z.inj_mul. split; lia.
Qed.

Lemma normalize_range_witness :
  Forall (fun v => 0 <= v <= 255)%Q [0%Q; (255 # 2)%Q; 255%Q]
  /\ exists normalized,
      outcome (run (lift exact) (normalize [0%Q; (255 # 2)%Q; 255%Q]) tt)
      = Return normalized
      /\ Forall (fun y => - (1) <= y <= 1)%Q normalized.
Proof.
  assert (H : Forall (fun v => 0 <= v <= 255)%Q [0%Q; (255 # 2)%Q; 255%Q])
    by (repeat constructor; unfold Qle; simpl; lia).
  split; [exact H |].
  exact (proj1 normalize_range [0%Q; (255 # 2)%Q; 255%Q] H).
Defined.

End WGANModels.

(** ** Shapes *)

Section ShapeExamples.
Import TF Layers.

(** The output shapes that [model.summary()] printed in the three
    notebooks, layer by layer (the batch size, printed as None, is 1
    here). *)
Example discriminator_summary :
  output_shapes (trace (run (keras 1) WGANGP.get_discriminator_model tt))
  = [ [1; 32; 32; 1];
      [1; 16; 16; 64]; [1; 16; 16; 64];
      [1; 8; 8; 128]; [1; 8; 8; 128]; [1; 8; 8; 128];
      [1; 4; 4; 256]; [1; 4; 4; 256]; [1; 4; 4; 256];
      [1; 2; 2; 512]; [1; 2; 2; 512];
      [1; 2048]; [1; 2048]; [1; 1] ].
Proof. reflexivity. Qed.

Example generator_summary :
  output_shapes (trace (run (keras 1) WGANGP.get_generator_model tt))
  = [ [1; 4096]; [1; 4096]; [1; 4096]; [1; 4; 4; 256];
      [1; 8; 8; 256]; [1; 8; 8; 128]; [1; 8; 8; 128]; [1; 8; 8; 128];
      [1; 16; 16; 128]; [1; 16; 16; 64]; [1; 16; 16; 64]; [1; 16; 16; 64];
      [1; 32; 32; 64]; [1; 32; 32; 1]; [1; 32; 32; 1]; [1; 32; 32; 1];
      [1; 28; 28; 1] ].
Proof. reflexivity. Qed.

Example unet_summary :
  output_shapes (trace (run (keras 1) UNet.unet tt))
  = [ [1; 128; 128; 64]; [1; 128; 128; 64]; [1; 128; 128; 64];
      [1; 128; 128; 64]; [1; 64; 64; 64]; [1; 64; 64; 64];
      [1; 64; 64; 128]; [1; 64; 64; 128]; [1; 64; 64; 128];
      [1; 64; 64; 128]; [1; 32; 32; 128]; [1; 32; 32; 128];
      [1; 32; 32; 256]; [1; 32; 32; 256]; [1; 32; 32; 256];
      [1; 32; 32; 256]; [1; 16; 16; 256]; [1; 16; 16; 256];
      [1; 16; 16; 512]; [1; 16; 16; 512]; [1; 16; 16; 512];
      [1; 16; 16; 512]; [1; 8; 8; 512]; [1; 8; 8; 512];
      [1; 8; 8; 1024]; [1; 8; 8; 1024]; [1; 8; 8; 1024]; [1; 8; 8; 1024];
      [1; 16; 16; 512]; [1; 16; 16; 1024]; [1; 16; 16; 1024];
      [1; 16; 16; 512]; [1; 16; 16; 512]; [1; 16; 16; 512];
      [1; 16; 16; 512];
      [1; 32; 32; 256]; [1; 32; 32; 512]; [1; 32; 32; 512];
      [1; 32; 32; 256]; [1; 32; 32; 256]; [1; 32; 32; 256];
      [1; 32; 32; 256];
      [1; 64; 64; 128]; [1; 64; 64; 256]; [1; 64; 64; 256];
      [1; 64; 64; 128]; [1; 64; 64; 128]; [1; 64; 64; 128];
      [1; 64; 64; 128];
      [1; 128; 128; 64]; [1; 128; 128; 128]; [1; 128; 128; 128];
      [1; 128; 128; 64]; [1; 128; 128; 64]; [1; 128; 128; 64];
      [1; 128; 128; 64];
      [1; 128; 128; 3] ].
Proof. reflexivity. Qed.

End ShapeExamples.

Section UNetShapes.
Import TF UNet Layers.
Variable batch : Z.

Lemma conv_dim_same_1 (k n : Z) : Shapes.conv_dim same k 1 n = Some n.
Proof.
  unfold Shapes.conv_dim. cbn [Z.leb Z.compare].
  rewrite Z.add_simpl_r, Z.div_1_r. reflexivity.
Qed.

Lemma conv_dim_valid_1_1 (n : Z) :
  1 <= n -> Shapes.conv_dim valid 1 1 n = Some n.
Proof.
  intros Hn. unfold Shapes.conv_dim. cbn [Z.leb Z.compare].
  destruct (Z.ltb_spec n 1); [lia |].
  rewrite Z.div_1_r. f_equal. lia.
Qed.

Lemma pool_dim (n : Z) :
  1 <= n -> Shapes.conv_dim valid 2 2 (n * 2) = Some n.
Proof.
  intros Hn. unfold Shapes.conv_dim. cbn [Z.leb Z.compare].
  destruct (Z.ltb_spec (n * 2) 2); [lia |].
  f_equal. replace (n * 2 - 2) with ((n - 1) * 2) by lia.
  rewrite Z.div_mul by lia. lia.
Qed.

Ltac shapes :=
  repeat (progress
            (cbn -[Shapes.conv_dim Z.add Z.mul Z.sub Z.div Z.eqb Z.ltb Z.leb];
             unfold applied, layer_shape, Shapes.conv2d_shape, concat_shape;
             cbn -[Shapes.conv_dim Z.add Z.mul Z.sub Z.div Z.eqb Z.ltb Z.leb];
             rewrite ?conv_dim_same_1, ?pool_dim, ?conv_dim_valid_1_1,
               ?Z.eqb_refl by assumption)).

Lemma conv2d_block_shape (b h w c n_filters : Z) :
  exists tr,
    run (keras batch) (conv2d_block (tensor_of [b; h; w; c]) n_filters 3) tt
    = (Return (tensor_of [b; h; w; n_filters]), tt, tr).
Proof.
  unfold conv2d_block, conv_relu, through. shapes. eexists. reflexivity.
Qed.

Lemma encoder_block_shape (b h w c n_filters : Z) (dropout : Q) :
  1 <= h -> 1 <= w ->
  exists tr,
    run (keras batch)
      (encoder_block (tensor_of [b; h * 2; w * 2; c]) n_filters (pair2 2 2)
         dropout) tt
    = (Return (tensor_of [b; h * 2; w * 2; n_filters],
               tensor_of [b; h; w; n_filters]), tt, tr).
Proof.
  intros Hh Hw.
  unfold encoder_block, conv2d_block, conv_relu, through. shapes.
  eexists. reflexivity.
Qed.

Lemma decoder_block_shape (b h w c c' n_filters : Z) (dropout : Q) :
  exists tr,
    run (keras batch)
      (decoder_block (tensor_of [b; h; w; c])
         (tensor_of [b; h * 2; w * 2; c']) n_filters (pair2 3 3) (pair2 2 2)
         dropout) tt
    = (Return (tensor_of [b; h * 2; w * 2; n_filters]), tt, tr).
Proof.
  unfold decoder_block, conv2d_block, conv_relu, through. shapes.
  eexists. reflexivity.
Qed.

Lemma encoder_shape (b h w c : Z) :
  1 <= h -> 1 <= w ->
  exists tr,
    run (keras batch)
      (encoder (tensor_of [b; h * 2 * 2 * 2 * 2; w * 2 * 2 * 2 * 2; c])) tt
    = (Return (tensor_of [b; h; w; 512],
               (tensor_of [b; h * 2 * 2 * 2 * 2; w * 2 * 2 * 2 * 2; 64],
                tensor_of [b; h * 2 * 2 * 2; w * 2 * 2 * 2; 128],
                tensor_of [b; h * 2 * 2; w * 2 * 2; 256],
                tensor_of [b; h * 2; w * 2; 512])), tt, tr).
Proof.
  intros Hh Hw. unfold encoder.
  destruct (@encoder_block_shape b (h * 2 * 2 * 2) (w * 2 * 2 * 2) c 64
              (3 # 10)) as [tr1 H1]; [lia | lia |].
  erewrite run_bind_after by exact H1. cbv beta iota.
  destruct (@encoder_block_shape b (h * 2 * 2) (w * 2 * 2) 64 128 (3 # 10))
    as [tr2 H2]; [lia | lia |].
  erewrite run_bind_after by exact H2. cbv beta iota.
  destruct (@encoder_block_shape b (h * 2) (w * 2) 128 256 (3 # 10))
    as [tr3 H3]; [lia | lia |].
  erewrite run_bind_after by exact H3. cbv beta iota.
  destruct (@encoder_block_shape b h w 256 512 (3 # 10)) as [tr4 H4];
    [lia | lia |].
  erewrite run_bind_after by exact H4. cbv beta iota.
  rewrite run_Ret, !after_triple. eexists. reflexivity.
Qed.

Lemma decoder_shape (b h w c output_channels : Z) :
  1 <= h -> 1 <= w ->
  exists tr,
    run (keras batch)
      (decoder (tensor_of [b; h; w; c])
         (tensor_of [b; h * 2 * 2 * 2 * 2; w * 2 * 2 * 2 * 2; 64],
          tensor_of [b; h * 2 * 2 * 2; w * 2 * 2 * 2; 128],
          tensor_of [b; h * 2 * 2; w * 2 * 2; 256],
          tensor_of [b; h * 2; w * 2; 512]) output_channels) tt
    = (Return (tensor_of [b; h * 2 * 2 * 2 * 2; w * 2 * 2 * 2 * 2;
                          output_channels]), tt, tr).
Proof.
  intros Hh Hw. unfold decoder.
  destruct (@decoder_block_shape b h w c 512 512 (3 # 10)) as [tr1 H1].
  erewrite run_bind_after by exact H1.
  destruct (@decoder_block_shape b (h * 2) (w * 2) 512 256 256 (3 # 10))
    as [tr2 H2].
  erewrite run_bind_after by exact H2.
  destruct (@decoder_block_shape b (h * 2 * 2) (w * 2 * 2) 256 128 128
              (3 # 10)) as [tr3 H3].
  erewrite run_bind_after by exact H3.
  destruct (@decoder_block_shape b (h * 2 * 2 * 2) (w * 2 * 2 * 2) 128 64 64
              (3 # 10)) as [tr4 H4].
  erewrite run_bind_after by exact H4.
  assert (Hh' : 1 <= h * 2 * 2 * 2 * 2) by lia.
  assert (Hw' : 1 <= w * 2 * 2 * 2 * 2) by lia.
  unfold through. shapes.
  eexists. reflexivity.
Qed.

Lemma outcome_bind E S A B (lib : Library E S) (p : Prog E A)
  (f : A -> Prog E B) s o s1 tr :
  run lib p s = (o, s1, tr) ->
  outcome (run lib (bind p f) s)
  = match o with
    | Return a => outcome (run lib (f a) s1)
    | Raised e => Raised e
    end.
Proof. intros Hp. rewrite run_bind, Hp. destruct o; reflexivity. Qed.

Lemma pool_dim_cases (n : Z) :
  Shapes.conv_dim valid 2 2 n = if n <? 2 then None else Some (n / 2).
Proof.
  unfold Shapes.conv_dim. cbn [Z.leb Z.compare].
  destruct (n <? 2); [reflexivity |].
  f_equal. replace n with (n - 2 + 1 * 2) at 2 by lia.
  rewrite Z.div_add by lia. reflexivity.
Qed.

(** What an encoder block answers with, if it answers. *)
Lemma encoder_block_returns (b h w c n_filters : Z) (dropout : Q) o tr :
  run (keras batch)
    (encoder_block (tensor_of [b; h; w; c]) n_filters (pair2 2 2) dropout) tt
  = (Return o, tt, tr) ->
  2 <= h /\ 2 <= w
  /\ o = (tensor_of [b; h; w; n_filters],
          tensor_of [b; h / 2; w / 2; n_filters]).
Proof.
  unfold encoder_block, conv2d_block, conv_relu, through. shapes.
  rewrite !pool_dim_cases.
  destruct (Z.ltb_spec h 2); [discriminate |].
  destruct (Z.ltb_spec w 2); [discriminate |].
  shapes. intros [= <- _]. repeat split; assumption.
Qed.

(** What a decoder block needs of its two inputs. *)
Lemma decoder_block_returns (b h w c b' h' w' c' n_filters : Z)
  (dropout : Q) o tr :
  run (keras batch)
    (decoder_block (tensor_of [b; h; w; c]) (tensor_of [b'; h'; w'; c'])
       n_filters (pair2 3 3) (pair2 2 2) dropout) tt
  = (Return o, tt, tr) ->
  h' = h * 2 /\ w' = w * 2 /\ o = tensor_of [b; h * 2; w * 2; n_filters].
Proof.
  unfold decoder_block, conv2d_block, conv_relu, through.
  cbn -[Shapes.conv_dim Z.add Z.mul Z.sub Z.div Z.eqb Z.ltb Z.leb].
  destruct (Z.eqb_spec b b'); [| discriminate].
  destruct (Z.eqb_spec (h * 2) h'); [| discriminate].
  destruct (Z.eqb_spec (w * 2) w'); [| discriminate].
  shapes. intros [= <- _]. repeat split; congruence.
Qed.

Lemma encoder_returns (b h w c : Z) o tr :
  run (keras batch) (encoder (tensor_of [b; h; w; c])) tt
  = (Return o, tt, tr) ->
  2 <= h / 2 / 2 / 2 /\ 2 <= w / 2 / 2 / 2
  /\ o = (tensor_of [b; h / 2 / 2 / 2 / 2; w / 2 / 2 / 2 / 2; 512],
          (tensor_of [b; h; w; 64],
           tensor_of [b; h / 2; w / 2; 128],
           tensor_of [b; h / 2 / 2; w / 2 / 2; 256],
           tensor_of [b; h / 2 / 2 / 2; w / 2 / 2 / 2; 512])).
Proof.
  intros H. apply (f_equal outcome) in H.
  unfold encoder in H. cbn [outcome fst] in H.
  destruct (run (keras batch)
              (encoder_block (tensor_of [b; h; w; c]) 64 (pair2 2 2)
                 (3 # 10)) tt) as [[o1 []] tr1] eqn:H1.
  erewrite outcome_bind in H by exact H1.
  destruct o1 as [o1 | e]; [| discriminate H].
  apply encoder_block_returns in H1 as (_ & _ & ->).
  destruct (run (keras batch)
              (encoder_block (tensor_of [b; h / 2; w / 2; 64]) 128
                 (pair2 2 2) (3 # 10)) tt) as [[o2 []] tr2] eqn:H2.
  erewrite outcome_bind in H by exact H2.
  destruct o2 as [o2 | e]; [| discriminate H].
  apply encoder_block_returns in H2 as (_ & _ & ->).
  destruct (run (keras batch)
              (encoder_block (tensor_of [b; h / 2 / 2; w / 2 / 2; 128]) 256
                 (pair2 2 2) (3 # 10)) tt) as [[o3 []] tr3] eqn:H3.
  erewrite outcome_bind in H by exact H3.
  destruct o3 as [o3 | e]; [| discriminate H].
  apply encoder_block_returns in H3 as (_ & _ & ->).
  destruct (run (keras batch)
              (encoder_block
                 (tensor_of [b; h / 2 / 2 / 2; w / 2 / 2 / 2; 256]) 512
                 (pair2 2 2) (3 # 10)) tt) as [[o4 []] tr4] eqn:H4.
  erewrite outcome_bind in H by exact H4.
  destruct o4 as [o4 | e]; [| discriminate H].
  apply encoder_block_returns in H4 as (Hh & Hw & ->).
  cbn in H. injection H as <-. repeat split; assumption.
Qed.

Lemma decoder_returns (b h4 w4 c : Z) (b1 h w c1 b2 h1 w1 c2 : Z)
  (b3 h2 w2 c3 b4 h3 w3 c4 output_channels : Z) o tr :
  run (keras batch)
    (decoder (tensor_of [b; h4; w4; c])
       (tensor_of [b1; h; w; c1], tensor_of [b2; h1; w1; c2],
        tensor_of [b3; h2; w2; c3], tensor_of [b4; h3; w3; c4])
       output_channels) tt
  = (Return o, tt, tr) ->
  h3 = h4 * 2 /\ h2 = h4 * 2 * 2 /\ h1 = h4 * 2 * 2 * 2
  /\ h = h4 * 2 * 2 * 2 * 2
  /\ w3 = w4 * 2 /\ w2 = w4 * 2 * 2 /\ w1 = w4 * 2 * 2 * 2
  /\ w = w4 * 2 * 2 * 2 * 2.
Proof.
  intros H. apply (f_equal outcome) in H.
  unfold decoder in H. cbn [outcome fst] in H.
  destruct (run (keras batch)
              (decoder_block (tensor_of [b; h4; w4; c])
                 (tensor_of [b4; h3; w3; c4]) 512 (pair2 3 3) (pair2 2 2)
                 (3 # 10)) tt) as [[o1 []] tr1] eqn:H1.
  erewrite outcome_bind in H by exact H1.
  destruct o1 as [o1 | e]; [| discriminate H].
  apply decoder_block_returns in H1 as (-> & -> & ->).
  destruct (run (keras batch)
              (decoder_block (tensor_of [b; h4 * 2; w4 * 2; 512])
                 (tensor_of [b3; h2; w2; c3]) 256 (pair2 3 3) (pair2 2 2)
                 (3 # 10)) tt) as [[o2 []] tr2] eqn:H2.
  erewrite outcome_bind in H by exact H2.
  destruct o2 as [o2 | e]; [| discriminate H].
  apply decoder_block_returns in H2 as (-> & -> & ->).
  destruct (run (keras batch)
              (decoder_block (tensor_of [b; h4 * 2 * 2; w4 * 2 * 2; 256])
                 (tensor_of [b2; h1; w1; c2]) 128 (pair2 3 3) (pair2 2 2)
                 (3 # 10)) tt) as [[o3 []] tr3] eqn:H3.
  erewrite outcome_bind in H by exact H3.
  destruct o3 as [o3 | e]; [| discriminate H].
  apply decoder_block_returns in H3 as (-> & -> & ->).
  destruct (run (keras batch)
              (decoder_block
                 (tensor_of [b; h4 * 2 * 2 * 2; w4 * 2 * 2 * 2; 128])
                 (tensor_of [b1; h; w; c1]) 64 (pair2 3 3) (pair2 2 2)
                 (3 # 10)) tt) as [[o4 []] tr4] eqn:H4.
  erewrite outcome_bind in H by exact H4.
  destruct o4 as [o4 | e]; [| discriminate H].
  apply decoder_block_returns in H4 as (-> & -> & ->).
  repeat split; reflexivity.
Qed.

End UNetShapes.

Section UNetShapeExtras.
Import TF UNet Layers.

(** On a 100 x 100 image the second concatenation raises: 100 is halved
    to 50, 25, 12 and 6, and the decoder's 24 does not meet the encoder's
    25. *)
Example unet_100 :
  outcome
    (run (keras 1)
       ('(encoder_output, convs) <- encoder (tensor_of [1; 100; 100; 3]) ;;
        bottle_neck <- bottleneck encoder_output ;;
        decoder bottle_neck convs 3) tt)
  = Raised (Shapes.ValueError
              "A Concatenate layer requires inputs with matching shapes").
Proof. reflexivity. Qed.



End UNetShapeExtras.

Section ModelShapeExtras.
Import TF Layers.


End ModelShapeExtras.

Section ResidualShapeExtras.
Import TF ResNet.

Lemma conv_dim_same (k s n : Z) :
  1 <= s -> Shapes.conv_dim same k s n = Some ((n + s - 1) / s).
Proof.
  intros Hs. unfold Shapes.conv_dim.
  destruct (Z.leb_spec s 0); [lia | reflexivity].
Qed.

Lemma conv_dim_valid_1 (s n : Z) :
  1 <= s -> 1 <= n -> Shapes.conv_dim valid 1 s n = Some ((n + s - 1) / s).
Proof.
  intros Hs Hn. unfold Shapes.conv_dim.
  destruct (Z.leb_spec s 0); [lia |].
  destruct (Z.ltb_spec n 1); [lia |].
  f_equal. replace (n + s - 1) with (n - 1 + 1 * s) by lia.
  rewrite Z.div_add by lia. reflexivity.
Qed.

Lemma broadcast_refl (xs : list Z) : Shapes.broadcast xs xs = Some xs.
Proof.
  induction xs as [| x xs IH]; [reflexivity |].
  simpl. rewrite IH, Z.eqb_refl. reflexivity.
Qed.

Lemma broadcast_mismatch (x y : Z) (xs ys : list Z) :
  x <> y -> x <> 1 -> y <> 1 -> Shapes.broadcast (x :: xs) (y :: ys) = None.
Proof.
  intros Hxy Hx Hy. simpl.
  destruct (Shapes.broadcast xs ys); [| reflexivity].
  apply Z.eqb_neq in Hxy, Hx, Hy. rewrite Hxy, Hx, Hy. reflexivity.
Qed.

Lemma broadcast_tail (x y : Z) (xs ys : list Z) :
  Shapes.broadcast xs ys = None -> Shapes.broadcast (x :: xs) (y :: ys) = None.
Proof. intros H. simpl. rewrite H. reflexivity. Qed.



End ResidualShapeExtras.

Section PartialWrites.
Import TF WGANGP.
Context {Obj S : Type} (lib : Library (tfE Obj) S).

Lemma writes_app (tr1 tr2 : list (Ev (tfE Obj))) :
  writes (tr1 ++ tr2) = writes tr1 ++ writes tr2.
Proof.
  induction tr1 as [| ev tr1 IH]; [reflexivity |].
  simpl. destruct (ev_written ev); simpl; rewrite IH; reflexivity.
Qed.

Lemma save_image_writes (images : Obj) (epoch i : Z) (s : S) :
  (outcome (run lib (save_image images epoch i) s) = Return tt
   /\ writes (trace (run lib (save_image images epoch i) s))
      = [image_file (generated_img i epoch)])
  \/ (exists e,
        outcome (run lib (save_image images epoch i) s) = Raised e
        /\ (writes (trace (run lib (save_image images epoch i) s)) = []
            \/ writes (trace (run lib (save_image images epoch i) s))
               = [image_file (generated_img i epoch)])).
Proof.
  remember (run lib (save_image images epoch i) s) as r eqn:Hr.
  unfold save_image, call in Hr. cbn [bind] in Hr.
  rewrite run_Call in Hr. destruct (@lib _ _ s) as [[e | row] s1];
    [subst r; right; exists e; split; [reflexivity | left; reflexivity] |].
  rewrite run_Call in Hr. destruct (@lib _ _ s1) as [[e | array] s2];
    [subst r; right; exists e; split; [reflexivity | left; reflexivity] |].
  rewrite run_Call in Hr. destruct (@lib _ _ s2) as [[e | img] s3];
    [subst r; right; exists e; split; [reflexivity | left; reflexivity] |].
  rewrite run_Call in Hr. destruct (@lib _ _ s3) as [[e | []] s4]; subst r.
  - right. exists e. split; [reflexivity | right; reflexivity].
  - left. split; reflexivity.
Qed.

Lemma save_images_writes (images : Obj) (epoch : Z) (indices : list Z) :
  forall s : S,
  exists k,
    writes (trace (run lib (for_each indices (save_image images epoch)) s))
    = map (fun i => image_file (generated_img i epoch)) (firstn k indices)
    /\ (outcome (run lib (for_each indices (save_image images epoch)) s)
        = Return tt ->
        firstn k indices = indices).
Proof.
  induction indices as [| i indices IH]; intros s.
  - exists O. split; [reflexivity | reflexivity].
  - cbn [for_each]. rewrite run_bind.
    destruct (save_image_writes images epoch i s)
      as [[Hout Hw] | (e & Hout & [Hw | Hw])]; rewrite Hout.
    + destruct (IH (final (run lib (save_image images epoch i) s)))
        as (k & Hk & Hall).
      exists (Datatypes.S k). cbn [trace snd outcome fst firstn map].
      split.
      * rewrite writes_app, Hw, Hk. reflexivity.
      * intros Hret. rewrite (Hall Hret). reflexivity.
    + exists O. cbn [trace snd outcome fst]. split; [exact Hw |].
      discriminate.
    + exists 1%nat. cbn [trace snd outcome fst]. split; [exact Hw |].
      discriminate.
Qed.

End PartialWrites.

Section PartialWritesExtras.
Import TF WGANGP.

(** X22: [GANMonitor.on_epoch_end] does not clean up after a failure.
    Whatever the library does, the files it has saved, or begun to save,
    when it ends are the first k of generated_img_0_{epoch}.png,
    generated_img_1_{epoch}.png, ..., in this order, for some k; they are
    all [num_img] files when it returns, and when a call raises, the files
    saved before stay. *)
Theorem on_epoch_end_partial_writes :
  forall (Obj S : Type) (lib : Library (tfE Obj) S) (m : GANMonitor Obj)
         (model : WGAN Obj) (epoch : Z) (s : S),
  exists k,
    writes (trace (run lib (on_epoch_end m model epoch) s))
    = map (fun i => image_file (generated_img i epoch))
        (firstn k (range (num_img m)))
    /\ (outcome (run lib (on_epoch_end m model epoch) s) = Return tt ->
        firstn k (range (num_img m)) = range (num_img m)).
Proof.
  intros Obj S lib m model epoch s.
  remember (run lib (on_epoch_end m model epoch) s) as r eqn:Hr.
  unfold on_epoch_end, denormalize, call in Hr. cbn [bind] in Hr.
  rewrite run_Call in Hr. destruct (lib _ _ s) as [[e | noise] s1];
    [subst r; exists O; split; [reflexivity | discriminate] |].
  rewrite run_Call in Hr. destruct (lib _ _ s1) as [[e | generated] s2];
    [subst r; exists O; split; [reflexivity | discriminate] |].
  rewrite run_Call in Hr. destruct (lib _ _ s2) as [[e | scaled] s3];
    [subst r; exists O; split; [reflexivity | discriminate] |].
  rewrite run_Call in Hr. destruct (lib _ _ s3) as [[e | images] s4];
    [subst r; exists O; split; [reflexivity | discriminate] |].
  destruct (save_images_writes lib images epoch (range (num_img m)) s4)
    as (k & Hk & Hall).
  exists k. subst r. split.
  - rewrite !trace_after, !writes_app. cbn [writes ev_written List.app].
    exact Hk.
  - exact Hall.
Qed.

End PartialWritesExtras.
